(** * IKEA furniture catalog and shopping cart

    A shallow embedding of [ikea_furniture.py] (the SQLModel data layer and
    the [ShoppingCart] methods) and of [main.py] (the FastAPI handlers),
    followed by the properties of the catalog and of the cart aggregate.

    Conventions of the embedding:
    - Python [int] is [Z], Python [float] is a binary64 [float]
      (primitive floats), [str] is [string], [Optional[T]] is [option T];
    - a SQLModel table is the list of its rows in rowid order, which is the
      order in which SQLite scans it;
    - a handler is a computation in the monad [M]: it reads and writes the
      committed database and either returns a value or raises;
    - SQLite keeps an integer in 64 bits, and a float column takes the
      finite floats other than the negative zero as they are; the
      embedding takes the values a call hands to the store within that
      range, and a property that says what a call returns has the range
      of these values among its hypotheses ([int64], [sql_real],
      [storable]). *)

From Stdlib Require Import ZArith List String Ascii Bool Floats Lia.
From Stdlib Require Import DecimalString Permutation Btauto.
Import ListNotations.
Open Scope string_scope.
Open Scope list_scope.
Open Scope Z_scope.

Set Implicit Arguments.

(* ================================================================== *)
(** * Python values *)
(* ================================================================== *)

(** [float(n)] for a Python int: the nearest binary64 value.  Python raises
    OverflowError for an int beyond the float range; the ints converted
    here are quantities, which SQLite stores in 64 bits. *)
Definition float_of_int (n : Z) : float :=
  SF2Prim (binary_normalize prec emax n 0 false).

(** [str(n)] for a Python int. *)
Definition str_of_int (n : Z) : string :=
  NilZero.string_of_int (Z.to_int n).

(** [s * n] for a Python str: [n] copies of [s], none when [n <= 0]. *)
Definition str_repeat (s : string) (n : Z) : string :=
  String.concat "" (repeat s (Z.to_nat n)).

(** The values that occur in the dictionaries the program builds and
    reads back: what [json.loads] can return at the leaves. *)
Inductive pyval : Type :=
| PyNone
| PyBool (b : bool)
| PyInt (n : Z)
| PyFloat (x : float)
| PyStr (s : string).

(** Exceptions raised by the program and by the libraries under it. *)
Inductive exn : Type :=
| HTTPException (status_code : Z) (detail : string)
| ValueError (msg : string)
| TypeError
| AttributeError
| UnboundLocalError
| IntegrityError
| InvalidRequestError.

Inductive result (A : Type) : Type :=
| Ok (a : A)
| Raise (e : exn).
Arguments Ok {A} a.
Arguments Raise {A} e.

Definition int_of_bool (b : bool) : Z := if b then 1 else 0.

(** [a * n] where [n] is an int. *)
Definition py_mul_int (a : pyval) (n : Z) : result pyval :=
  match a with
  | PyNone => Raise TypeError
  | PyBool b => Ok (PyInt (int_of_bool b * n))
  | PyInt m => Ok (PyInt (m * n))
  | PyFloat x => Ok (PyFloat (PrimFloat.mul x (float_of_int n)))
  | PyStr s => Ok (PyStr (str_repeat s n))
  end.

(** The numeric reading of a value in [+]: bools count as ints. *)
Definition py_add (a b : pyval) : result pyval :=
  match a, b with
  | PyInt m, PyInt n => Ok (PyInt (m + n))
  | PyInt m, PyBool c => Ok (PyInt (m + int_of_bool c))
  | PyBool c, PyInt n => Ok (PyInt (int_of_bool c + n))
  | PyBool c, PyBool d => Ok (PyInt (int_of_bool c + int_of_bool d))
  | PyInt m, PyFloat y => Ok (PyFloat (PrimFloat.add (float_of_int m) y))
  | PyBool c, PyFloat y =>
      Ok (PyFloat (PrimFloat.add (float_of_int (int_of_bool c)) y))
  | PyFloat x, PyInt n => Ok (PyFloat (PrimFloat.add x (float_of_int n)))
  | PyFloat x, PyBool d =>
      Ok (PyFloat (PrimFloat.add x (float_of_int (int_of_bool d))))
  | PyFloat x, PyFloat y => Ok (PyFloat (PrimFloat.add x y))
  | PyStr s, PyStr t => Ok (PyStr (s ++ t)%string)
  | _, _ => Raise TypeError
  end.

(** [sum(iterable)]: starts from the int [0] and adds from the left, one
    rounding per addition (CPython from 3.12 on compensates the rounding
    errors of a float sum, which can change the last bits of the result).
    The iterable is a generator, so an element that raises stops the
    sum. *)
Fixpoint py_sum_from (acc : pyval) (l : list (result pyval)) : result pyval :=
  match l with
  | [] => Ok acc
  | Ok v :: l' =>
      match py_add acc v with
      | Ok acc' => py_sum_from acc' l'
      | Raise e => Raise e
      end
  | Raise e :: _ => Raise e
  end.

Definition py_sum (l : list (result pyval)) : result pyval :=
  py_sum_from (PyInt 0) l.

(** ** Dictionaries with string keys, in insertion order *)

Definition dict := list (string * pyval).

Fixpoint dict_lookup (d : dict) (k : string) : option pyval :=
  match d with
  | [] => None
  | (k', v) :: d' => if String.eqb k' k then Some v else dict_lookup d' k
  end.

(** [d.get(k, default)] *)
Definition dict_get (d : dict) (k : string) (default : pyval) : pyval :=
  match dict_lookup d k with
  | Some v => v
  | None => default
  end.

(** [d[k] = v] *)
Fixpoint dict_set (d : dict) (k : string) (v : pyval) : dict :=
  match d with
  | [] => [(k, v)]
  | (k', v') :: d' =>
      if String.eqb k' k then (k', v) :: d' else (k', v') :: dict_set d' k v
  end.

(** [d.update(e)] *)
Definition dict_update (d e : dict) : dict :=
  fold_left (fun acc kv => dict_set acc (fst kv) (snd kv)) e d.

(** The text produced by [json.dumps].  The program only ever passes such a
    text back to [json.loads], and on dictionaries with string keys and
    [pyval] leaves [json.loads (json.dumps d)] is [d]; a text is therefore
    represented by the dictionary it encodes. *)
Inductive json_text : Type :=
| JSON (d : dict).

Definition json_dumps (d : dict) : json_text := JSON d.
Definition json_loads (t : json_text) : dict := match t with JSON d => d end.

(** ** Dates *)

Record date : Type := Date { year : Z; month : Z; day : Z }.

Definition zfill (width : nat) (s : string) : string :=
  (String.concat "" (repeat "0" (width - String.length s)) ++ s)%string.

(** [d.isoformat()] *)
Definition isoformat (d : date) : string :=
  (zfill 4 (str_of_int (year d)) ++ "-" ++
   zfill 2 (str_of_int (month d)) ++ "-" ++
   zfill 2 (str_of_int (day d)))%string.

(** [s.capitalize()] on ASCII text: first letter upper, the rest lower. *)
Definition ascii_upper (c : ascii) : ascii :=
  let n := nat_of_ascii c in
  if ((97 <=? n) && (n <=? 122))%nat then ascii_of_nat (n - 32) else c.

Definition ascii_lower (c : ascii) : ascii :=
  let n := nat_of_ascii c in
  if ((65 <=? n) && (n <=? 90))%nat then ascii_of_nat (n + 32) else c.

Fixpoint str_lower (s : string) : string :=
  match s with
  | EmptyString => EmptyString
  | String c s' => String (ascii_lower c) (str_lower s')
  end.

Definition capitalize (s : string) : string :=
  match s with
  | EmptyString => EmptyString
  | String c s' => String (ascii_upper c) (str_lower s')
  end.

(** Truth value of an [Optional[str]] in [if x:]: set and not empty. *)
Definition truthy (x : option string) : bool :=
  match x with
  | Some s => negb (String.eqb s "")
  | None => false
  end.

(* ================================================================== *)
(** * The monad of the handlers *)
(* ================================================================== *)

(** A computation over a committed state [S]: the state it leaves and the
    value it returns or the exception it raises.  What was committed before
    an exception stays committed. *)
Definition M (S A : Type) : Type := S -> S * result A.

Definition ret {S A : Type} (a : A) : M S A := fun s => (s, Ok a).

Definition raise {S A : Type} (e : exn) : M S A := fun s => (s, Raise e).

Definition bind {S A B : Type} (m : M S A) (k : A -> M S B) : M S B :=
  fun s =>
    match m s with
    | (s', Ok a) => k a s'
    | (s', Raise e) => (s', Raise e)
    end.

Notation "x <- m ;; k" := (bind m (fun x => k))
  (at level 61, m at next level, right associativity).
Notation "m ;;; k" := (bind m (fun _ => k))
  (at level 61, right associativity).

(** Lifting of a pure result that may raise. *)
Definition lift {S A : Type} (r : result A) : M S A := fun s => (s, r).

(** A read of the state. *)
Definition gets {S A : Type} (f : S -> A) : M S A := fun s => (s, Ok (f s)).

(** [for x in l: body(x)] *)
Fixpoint for_each {S A : Type} (l : list A) (body : A -> M S unit) : M S unit :=
  match l with
  | [] => ret tt
  | x :: l' => body x ;;; for_each l' body
  end.

(* ================================================================== *)
(** * The storage engine: SQLModel sessions over SQLite tables *)
(* ================================================================== *)

(** The definitions of this section say what SQLite does with values it
    can hold.  It holds an integer in 64 bits: the driver raises
    OverflowError for a Python int outside that range when the session
    binds it, before any statement runs, and that error is not part of
    these definitions.  The properties carry the range as a hypothesis
    wherever they say what a call returns (see [int64] and [storable]
    below). *)

(** What a class declared with [table=True] provides: its primary key
    [id: Optional[int]], which the store fills in on insertion. *)
Class Model (A : Type) : Type := {
  pk : A -> option Z;
  with_pk : Z -> A -> A;
  pk_with_pk : forall i r, pk (with_pk i r) = Some i
}.

Section Session.
Context {A : Type} `{Model A}.

Definition has_pk (i : Z) (r : A) : bool :=
  match pk r with
  | Some j => j =? i
  | None => false
  end.

(** [session.get(Model, i)], for an id in the range of the store. *)
Definition session_get (t : list A) (i : Z) : option A := find (has_pk i) t.

Definition rowids (t : list A) : list Z :=
  flat_map (fun r => match pk r with Some i => [i] | None => [] end) t.

(** The rowid SQLite picks for a row inserted without one: 1 in an empty
    table, otherwise one more than the largest rowid in use.  (When the
    largest rowid in use is the largest there is, 2^63 - 1, SQLite picks
    an unused one at random instead; a property that names the new id of a
    row takes the table below that bound or leaves the id open.) *)
Definition next_rowid (t : list A) : Z :=
  match rowids t with
  | [] => 1
  | i :: l => fold_left Z.max l i + 1
  end.

(** Insertion at the place of rowid [i] in the scan order. *)
Fixpoint insert_row (i : Z) (r : A) (t : list A) : list A :=
  match t with
  | [] => [r]
  | x :: t' =>
      match pk x with
      | Some j => if i <? j then r :: x :: t' else x :: insert_row i r t'
      | None => x :: insert_row i r t'
      end
  end.

(** [session.add(r); session.commit(); session.refresh(r)] for a new
    object whose columns are in the range of the store: the table after
    the INSERT and the object as reloaded. *)
Definition insert (r : A) (t : list A) : result (list A * A) :=
  match pk r with
  | None =>
      let i := next_rowid t in
      let r' := with_pk i r in
      Ok (insert_row i r' t, r')
  | Some i =>
      if existsb (has_pk i) t then Raise IntegrityError
      else Ok (insert_row i r t, r)
  end.

(** [session.add(r); session.commit()] for an object loaded from the row
    of primary key [i] and modified since, its columns in the range of
    the store: the UPDATE of that row. *)
Definition update (i : Z) (r : A) (t : list A) : result (list A) :=
  match pk r with
  | None => Raise IntegrityError
  | Some j =>
      if j =? i then Ok (map (fun x => if has_pk i x then r else x) t)
      else if existsb (has_pk j) t then Raise IntegrityError
      else Ok (insert_row j r (filter (fun x => negb (has_pk i x)) t))
  end.

(** [session.delete(r)]: the DELETE of the row of [r]'s primary key. *)
Definition delete (r : A) (t : list A) : result (list A) :=
  match pk r with
  | None => Raise InvalidRequestError
  | Some i => Ok (filter (fun x => negb (has_pk i x)) t)
  end.

(** ** Queries: [select(Model).where(..).offset(..).limit(..)] *)

Record query : Type := Query {
  q_where : list (A -> bool);
  q_offset : option Z;
  q_limit : option Z
}.

Definition select : query := Query [] None None.

Definition where_ (p : A -> bool) (q : query) : query :=
  Query (q_where q ++ [p]) (q_offset q) (q_limit q).

Definition offset (n : Z) (q : query) : query :=
  Query (q_where q) (Some n) (q_limit q).

Definition limit (n : Z) (q : query) : query :=
  Query (q_where q) (q_offset q) (Some n).

(** OFFSET, bound as a parameter in the range of the store: a negative
    offset skips nothing. *)
Definition apply_offset (o : option Z) (l : list A) : list A :=
  match o with
  | Some n => skipn (Z.to_nat n) l
  | None => l
  end.

(** LIMIT, bound likewise: a negative limit is no limit. *)
Definition apply_limit (o : option Z) (l : list A) : list A :=
  match o with
  | Some n => if n <? 0 then l else firstn (Z.to_nat n) l
  | None => l
  end.

(** [session.exec(q).all()]: the rows that pass every WHERE clause, in scan
    order, then OFFSET and LIMIT. *)
Definition exec (q : query) (t : list A) : list A :=
  apply_limit (q_limit q)
    (apply_offset (q_offset q)
       (filter (fun r => forallb (fun p => p r) (q_where q)) t)).

End Session.
Arguments query A : clear implicits.

(** ** [column.contains(other)]: [column LIKE '%' || other || '%'] *)

(** Two characters that LIKE takes for the same: equal up to the case of
    ASCII letters. *)
Definition like_char (a b : ascii) : bool :=
  Ascii.eqb (ascii_upper a) (ascii_upper b).

(** SQLite's [text LIKE pattern], strings taken as sequences of one-byte
    characters: [%] stands for any run of characters, [_] for any one
    character, any other character for itself up to ASCII case. *)
Fixpoint like (pattern : string) : string -> bool :=
  match pattern with
  | EmptyString =>
      fun text =>
        match text with
        | EmptyString => true
        | String _ _ => false
        end
  | String c pattern' =>
      if Ascii.eqb c "%" then
        fix any_run (text : string) : bool :=
          like pattern' text ||
          match text with
          | EmptyString => false
          | String _ text' => any_run text'
          end
      else if Ascii.eqb c "_" then
        fun text =>
          match text with
          | EmptyString => false
          | String _ text' => like pattern' text'
          end
      else
        fun text =>
          match text with
          | EmptyString => false
          | String d text' => like_char c d && like pattern' text'
          end
  end.

Definition contains (column other : string) : bool :=
  like ("%" ++ other ++ "%")%string column.

(* ================================================================== *)
(** * The models of [ikea_furniture.py] *)
(* ================================================================== *)

(** What a pydantic class provides for [obj.dict(exclude_unset=True)] and
    for [setattr]: its field names in declaration order, and typed access
    to a field by name.  A value of [V] is a field name with a value of
    that field's type. *)
Class Fields (A K V : Type) : Type := {
  all_keys : list K;
  key_eqb : K -> K -> bool;
  key_of : V -> K;
  getattr : K -> A -> V;
  setattr : V -> A -> A
}.

(** A pydantic instance: the values of its fields (the class defaults where
    a field was not given) and the names of the fields that were given. *)
Record instance (A K : Type) : Type := MkInstance {
  obj : A;
  fields_set : list K
}.

Section Pydantic.
Context {A K V : Type} `{Fields A K V}.

Definition key_mem (k : K) (l : list K) : bool := existsb (key_eqb k) l.

(** [x.dict(exclude_unset=True).items()] *)
Definition dict_exclude_unset (x : instance A K) : list V :=
  map (fun k => getattr k (obj x))
      (filter (fun k => key_mem k (fields_set x)) all_keys).

(** [for key, value in items: setattr(o, key, value)] *)
Definition setattr_all (items : list V) (o : A) : A :=
  fold_left (fun o' kv => setattr kv o') items o.

(** Construction of an instance from keyword arguments: the defaults
    overwritten by the given fields. *)
Definition construct (defaults : A) (kwargs : list V) : instance A K :=
  MkInstance (setattr_all kwargs defaults) (map key_of kwargs).

(** Validation of a request body: every required field is given. *)
Definition validate (required : list K) (defaults : A) (kwargs : list V)
  : result (instance A K) :=
  if forallb (fun k => key_mem k (map key_of kwargs)) required
  then Ok (construct defaults kwargs)
  else Raise (HTTPException 422 "Field required").

End Pydantic.

(** ** [class IkeaFurniture(BaseModel)] *)

Module IkeaFurniture.

Record t : Type := Build {
  name : string;
  price : float;
  color : string;
  material : string;
  weight_kg : float;
  date_added : date;
  in_stock : bool
}.

Inductive key : Type :=
| k_name | k_price | k_color | k_material | k_weight_kg | k_date_added
| k_in_stock.

Inductive attr : Type :=
| a_name (v : string)
| a_price (v : float)
| a_color (v : string)
| a_material (v : string)
| a_weight_kg (v : float)
| a_date_added (v : date)
| a_in_stock (v : bool).

Definition keys : list key :=
  [k_name; k_price; k_color; k_material; k_weight_kg; k_date_added;
   k_in_stock].

Definition eqb (a b : key) : bool :=
  match a, b with
  | k_name, k_name | k_price, k_price | k_color, k_color
  | k_material, k_material | k_weight_kg, k_weight_kg
  | k_date_added, k_date_added | k_in_stock, k_in_stock => true
  | _, _ => false
  end.

Definition key_of (a : attr) : key :=
  match a with
  | a_name _ => k_name
  | a_price _ => k_price
  | a_color _ => k_color
  | a_material _ => k_material
  | a_weight_kg _ => k_weight_kg
  | a_date_added _ => k_date_added
  | a_in_stock _ => k_in_stock
  end.

Definition get (k : key) (o : t) : attr :=
  match k with
  | k_name => a_name (name o)
  | k_price => a_price (price o)
  | k_color => a_color (color o)
  | k_material => a_material (material o)
  | k_weight_kg => a_weight_kg (weight_kg o)
  | k_date_added => a_date_added (date_added o)
  | k_in_stock => a_in_stock (in_stock o)
  end.

Definition set (a : attr) (o : t) : t :=
  match a with
  | a_name v =>
      Build v (price o) (color o) (material o) (weight_kg o) (date_added o)
        (in_stock o)
  | a_price v =>
      Build (name o) v (color o) (material o) (weight_kg o) (date_added o)
        (in_stock o)
  | a_color v =>
      Build (name o) (price o) v (material o) (weight_kg o) (date_added o)
        (in_stock o)
  | a_material v =>
      Build (name o) (price o) (color o) v (weight_kg o) (date_added o)
        (in_stock o)
  | a_weight_kg v =>
      Build (name o) (price o) (color o) (material o) v (date_added o)
        (in_stock o)
  | a_date_added v =>
      Build (name o) (price o) (color o) (material o) (weight_kg o) v
        (in_stock o)
  | a_in_stock v =>
      Build (name o) (price o) (color o) (material o) (weight_kg o)
        (date_added o) v
  end.

(** The class attributes as they stand once the class body has run:
    [date_added: date = date.today()] is evaluated there, on the day the
    module is loaded; [in_stock: bool = True].  The fields without a
    default hold a placeholder that is never read. *)
Definition defaults (module_loaded : date) : t :=
  Build "" 0%float "" "" 0%float module_loaded true.

Definition required : list key :=
  [k_name; k_price; k_color; k_material; k_weight_kg].

End IkeaFurniture.

(** ** [class IkeaSofa(SQLModel, IkeaFurniture, table=True)] *)

Module IkeaSofa.

Record t : Type := Build {
  base : IkeaFurniture.t;
  id : option Z;
  seats : Z;
  has_sleeper : bool;
  fabric_type : string
}.

Inductive key : Type :=
| inherited (k : IkeaFurniture.key)
| k_id | k_seats | k_has_sleeper | k_fabric_type.

Inductive attr : Type :=
| a_inherited (a : IkeaFurniture.attr)
| a_id (v : option Z)
| a_seats (v : Z)
| a_has_sleeper (v : bool)
| a_fabric_type (v : string).

Definition keys : list key :=
  map inherited IkeaFurniture.keys ++
  [k_id; k_seats; k_has_sleeper; k_fabric_type].

Definition eqb (a b : key) : bool :=
  match a, b with
  | inherited x, inherited y => IkeaFurniture.eqb x y
  | k_id, k_id | k_seats, k_seats | k_has_sleeper, k_has_sleeper
  | k_fabric_type, k_fabric_type => true
  | _, _ => false
  end.

Definition key_of (a : attr) : key :=
  match a with
  | a_inherited b => inherited (IkeaFurniture.key_of b)
  | a_id _ => k_id
  | a_seats _ => k_seats
  | a_has_sleeper _ => k_has_sleeper
  | a_fabric_type _ => k_fabric_type
  end.

Definition get (k : key) (o : t) : attr :=
  match k with
  | inherited b => a_inherited (IkeaFurniture.get b (base o))
  | k_id => a_id (id o)
  | k_seats => a_seats (seats o)
  | k_has_sleeper => a_has_sleeper (has_sleeper o)
  | k_fabric_type => a_fabric_type (fabric_type o)
  end.

Definition set (a : attr) (o : t) : t :=
  match a with
  | a_inherited b =>
      Build (IkeaFurniture.set b (base o)) (id o) (seats o) (has_sleeper o)
        (fabric_type o)
  | a_id v => Build (base o) v (seats o) (has_sleeper o) (fabric_type o)
  | a_seats v => Build (base o) (id o) v (has_sleeper o) (fabric_type o)
  | a_has_sleeper v => Build (base o) (id o) (seats o) v (fabric_type o)
  | a_fabric_type v => Build (base o) (id o) (seats o) (has_sleeper o) v
  end.

(** [id = Field(default=None)], [has_sleeper: bool = False]. *)
Definition defaults (module_loaded : date) : t :=
  Build (IkeaFurniture.defaults module_loaded) None 0 false "".

Definition required : list key :=
  map inherited IkeaFurniture.required ++ [k_seats; k_fabric_type].

End IkeaSofa.

(** ** [class IkeaDiningTable(SQLModel, IkeaFurniture, table=True)] *)

Module IkeaDiningTable.

Record t : Type := Build {
  base : IkeaFurniture.t;
  id : option Z;
  seats : Z;
  shape : string;
  extendable : bool
}.

Inductive key : Type :=
| inherited (k : IkeaFurniture.key)
| k_id | k_seats | k_shape | k_extendable.

Inductive attr : Type :=
| a_inherited (a : IkeaFurniture.attr)
| a_id (v : option Z)
| a_seats (v : Z)
| a_shape (v : string)
| a_extendable (v : bool).

Definition keys : list key :=
  map inherited IkeaFurniture.keys ++
  [k_id; k_seats; k_shape; k_extendable].

Definition eqb (a b : key) : bool :=
  match a, b with
  | inherited x, inherited y => IkeaFurniture.eqb x y
  | k_id, k_id | k_seats, k_seats | k_shape, k_shape
  | k_extendable, k_extendable => true
  | _, _ => false
  end.

Definition key_of (a : attr) : key :=
  match a with
  | a_inherited b => inherited (IkeaFurniture.key_of b)
  | a_id _ => k_id
  | a_seats _ => k_seats
  | a_shape _ => k_shape
  | a_extendable _ => k_extendable
  end.

Definition get (k : key) (o : t) : attr :=
  match k with
  | inherited b => a_inherited (IkeaFurniture.get b (base o))
  | k_id => a_id (id o)
  | k_seats => a_seats (seats o)
  | k_shape => a_shape (shape o)
  | k_extendable => a_extendable (extendable o)
  end.

Definition set (a : attr) (o : t) : t :=
  match a with
  | a_inherited b =>
      Build (IkeaFurniture.set b (base o)) (id o) (seats o) (shape o)
        (extendable o)
  | a_id v => Build (base o) v (seats o) (shape o) (extendable o)
  | a_seats v => Build (base o) (id o) v (shape o) (extendable o)
  | a_shape v => Build (base o) (id o) (seats o) v (extendable o)
  | a_extendable v => Build (base o) (id o) (seats o) (shape o) v
  end.

(** [id = Field(default=None)], [extendable: bool = False]. *)
Definition defaults (module_loaded : date) : t :=
  Build (IkeaFurniture.defaults module_loaded) None 0 "" false.

Definition required : list key :=
  map inherited IkeaFurniture.required ++ [k_seats; k_shape].

End IkeaDiningTable.

(** ** [class IkeaMatress(SQLModel, IkeaFurniture, table=True)] *)

Module IkeaMatress.

Record t : Type := Build {
  base : IkeaFurniture.t;
  id : option Z;
  size : string;
  firmness : string;
  thickness_cm : float
}.

Inductive key : Type :=
| inherited (k : IkeaFurniture.key)
| k_id | k_size | k_firmness | k_thickness_cm.

Inductive attr : Type :=
| a_inherited (a : IkeaFurniture.attr)
| a_id (v : option Z)
| a_size (v : string)
| a_firmness (v : string)
| a_thickness_cm (v : float).

Definition keys : list key :=
  map inherited IkeaFurniture.keys ++
  [k_id; k_size; k_firmness; k_thickness_cm].

Definition eqb (a b : key) : bool :=
  match a, b with
  | inherited x, inherited y => IkeaFurniture.eqb x y
  | k_id, k_id | k_size, k_size | k_firmness, k_firmness
  | k_thickness_cm, k_thickness_cm => true
  | _, _ => false
  end.

Definition key_of (a : attr) : key :=
  match a with
  | a_inherited b => inherited (IkeaFurniture.key_of b)
  | a_id _ => k_id
  | a_size _ => k_size
  | a_firmness _ => k_firmness
  | a_thickness_cm _ => k_thickness_cm
  end.

Definition get (k : key) (o : t) : attr :=
  match k with
  | inherited b => a_inherited (IkeaFurniture.get b (base o))
  | k_id => a_id (id o)
  | k_size => a_size (size o)
  | k_firmness => a_firmness (firmness o)
  | k_thickness_cm => a_thickness_cm (thickness_cm o)
  end.

Definition set (a : attr) (o : t) : t :=
  match a with
  | a_inherited b =>
      Build (IkeaFurniture.set b (base o)) (id o) (size o) (firmness o)
        (thickness_cm o)
  | a_id v => Build (base o) v (size o) (firmness o) (thickness_cm o)
  | a_size v => Build (base o) (id o) v (firmness o) (thickness_cm o)
  | a_firmness v => Build (base o) (id o) (size o) v (thickness_cm o)
  | a_thickness_cm v => Build (base o) (id o) (size o) (firmness o) v
  end.

(** [id = Field(default=None)]; no other default of its own. *)
Definition defaults (module_loaded : date) : t :=
  Build (IkeaFurniture.defaults module_loaded) None "" "" 0%float.

Definition required : list key :=
  map inherited IkeaFurniture.required ++
  [k_size; k_firmness; k_thickness_cm].

End IkeaMatress.

(** ** [class CartItem(SQLModel, table=True)] *)

Module CartItem.

Record t : Type := Build {
  id : option Z;
  cart_id : Z;
  furniture_type : string;
  furniture_id : Z;
  quantity : Z;
  furniture_data : json_text
}.

(** [item.quantity = q] *)
Definition set_quantity (q : Z) (o : t) : t :=
  Build (id o) (cart_id o) (furniture_type o) (furniture_id o) q
    (furniture_data o).

End CartItem.

(** ** [class ShoppingCart(SQLModel, table=True)] *)

Module ShoppingCart.

Record t : Type := Build {
  id : option Z;
  created_date : date;
  customer_name : string;
  customer_email : option string
}.

(** [ShoppingCart(customer_name=.., customer_email=..)]:
    [created_date = Field(default_factory=date.today)] calls [date.today]
    at each construction. *)
Definition new (today : date) (customer_name : string)
  (customer_email : option string) : t :=
  Build None today customer_name customer_email.

Definition set_customer_name (v : string) (o : t) : t :=
  Build (id o) (created_date o) v (customer_email o).

Definition set_customer_email (v : option string) (o : t) : t :=
  Build (id o) (created_date o) (customer_name o) v.

(** A [ShoppingCart] as the body of [update_cart].  The object of a table
    class is built from the body without validation, so a body that
    leaves [customer_name] out gives an object whose [customer_name] is
    [None], which is what the handler tests for. *)
Record body : Type := Body {
  body_id : option Z;
  body_created_date : date;
  body_customer_name : option string;
  body_customer_email : option string
}.

End ShoppingCart.

(** ** The classes as table models and as pydantic classes *)

#[export] Instance IkeaSofa_Model : Model IkeaSofa.t := {|
  pk := IkeaSofa.id;
  with_pk := fun i o => IkeaSofa.set (IkeaSofa.a_id (Some i)) o;
  pk_with_pk := fun i o => eq_refl
|}.

#[export] Instance IkeaDiningTable_Model : Model IkeaDiningTable.t := {|
  pk := IkeaDiningTable.id;
  with_pk := fun i o => IkeaDiningTable.set (IkeaDiningTable.a_id (Some i)) o;
  pk_with_pk := fun i o => eq_refl
|}.

#[export] Instance IkeaMatress_Model : Model IkeaMatress.t := {|
  pk := IkeaMatress.id;
  with_pk := fun i o => IkeaMatress.set (IkeaMatress.a_id (Some i)) o;
  pk_with_pk := fun i o => eq_refl
|}.

#[export] Instance CartItem_Model : Model CartItem.t := {|
  pk := CartItem.id;
  with_pk := fun i o =>
    CartItem.Build (Some i) (CartItem.cart_id o) (CartItem.furniture_type o)
      (CartItem.furniture_id o) (CartItem.quantity o)
      (CartItem.furniture_data o);
  pk_with_pk := fun i o => eq_refl
|}.

#[export] Instance ShoppingCart_Model : Model ShoppingCart.t := {|
  pk := ShoppingCart.id;
  with_pk := fun i o =>
    ShoppingCart.Build (Some i) (ShoppingCart.created_date o)
      (ShoppingCart.customer_name o) (ShoppingCart.customer_email o);
  pk_with_pk := fun i o => eq_refl
|}.

#[export] Instance IkeaSofa_Fields
  : Fields IkeaSofa.t IkeaSofa.key IkeaSofa.attr := {|
  all_keys := IkeaSofa.keys;
  key_eqb := IkeaSofa.eqb;
  key_of := IkeaSofa.key_of;
  getattr := IkeaSofa.get;
  setattr := IkeaSofa.set
|}.

#[export] Instance IkeaDiningTable_Fields
  : Fields IkeaDiningTable.t IkeaDiningTable.key IkeaDiningTable.attr := {|
  all_keys := IkeaDiningTable.keys;
  key_eqb := IkeaDiningTable.eqb;
  key_of := IkeaDiningTable.key_of;
  getattr := IkeaDiningTable.get;
  setattr := IkeaDiningTable.set
|}.

#[export] Instance IkeaMatress_Fields
  : Fields IkeaMatress.t IkeaMatress.key IkeaMatress.attr := {|
  all_keys := IkeaMatress.keys;
  key_eqb := IkeaMatress.eqb;
  key_of := IkeaMatress.key_of;
  getattr := IkeaMatress.get;
  setattr := IkeaMatress.set
|}.

(* ================================================================== *)
(** * The database and the session *)
(* ================================================================== *)

(** The tables that [create_tables] creates, under the names SQLModel
    gives them. *)
Record DB : Type := Db {
  ikeasofa : list IkeaSofa.t;
  ikeadiningtable : list IkeaDiningTable.t;
  ikeamatress : list IkeaMatress.t;
  shoppingcart : list ShoppingCart.t;
  cartitem : list CartItem.t
}.

Definition empty_db : DB := Db [] [] [] [] [].

(** A table of the database, as the session addresses it. *)
Record table (A : Type) : Type := Table {
  rows : DB -> list A;
  set_rows : list A -> DB -> DB
}.

Definition sofas : table IkeaSofa.t :=
  Table ikeasofa
    (fun t db =>
       Db t (ikeadiningtable db) (ikeamatress db) (shoppingcart db)
         (cartitem db)).

Definition dining_tables : table IkeaDiningTable.t :=
  Table ikeadiningtable
    (fun t db =>
       Db (ikeasofa db) t (ikeamatress db) (shoppingcart db) (cartitem db)).

Definition matresses : table IkeaMatress.t :=
  Table ikeamatress
    (fun t db =>
       Db (ikeasofa db) (ikeadiningtable db) t (shoppingcart db)
         (cartitem db)).

Definition carts : table ShoppingCart.t :=
  Table shoppingcart
    (fun t db =>
       Db (ikeasofa db) (ikeadiningtable db) (ikeamatress db) t
         (cartitem db)).

Definition cart_items : table CartItem.t :=
  Table cartitem
    (fun t db =>
       Db (ikeasofa db) (ikeadiningtable db) (ikeamatress db)
         (shoppingcart db) t).

Section SessionOps.
Context {A : Type} `{Model A} (T : table A).

(** The effect on the database of a change to one table. *)
Definition on_table {B : Type} (f : list A -> result (list A * B))
  : M DB B :=
  fun db =>
    match f (rows T db) with
    | Ok (t', b) => (set_rows T t' db, Ok b)
    | Raise e => (db, Raise e)
    end.

(** [session.get(Model, i)] *)
Definition get (i : Z) : M DB (option A) :=
  gets (fun db => session_get (rows T db) i).

(** [session.add(r); session.commit(); session.refresh(r)], [r] new. *)
Definition add_commit_refresh (r : A) : M DB A :=
  on_table (insert r).

(** [session.add(r); session.commit(); session.refresh(r)], [r] loaded
    from the row of primary key [i]. *)
Definition commit_refresh (i : Z) (r : A) : M DB A :=
  on_table
    (fun t =>
       match update i r t with
       | Ok t' => Ok (t', r)
       | Raise e => Raise e
       end).

(** [session.delete(r)] *)
Definition session_delete (r : A) : M DB unit :=
  on_table
    (fun t =>
       match delete r t with
       | Ok t' => Ok (t', tt)
       | Raise e => Raise e
       end).

(** [session.refresh(r)]: the row of [r]'s primary key, read again. *)
Definition refresh (r : A) : M DB A :=
  match pk r with
  | None => raise InvalidRequestError
  | Some i =>
      o <- get i ;;
      match o with
      | Some r' => ret r'
      | None => raise InvalidRequestError
      end
  end.

(** [session.exec(q).all()] *)
Definition exec_all (q : query A) : M DB (list A) :=
  gets (fun db => exec q (rows T db)).

End SessionOps.

(** Changes made in the session reach the database at [session.commit()]:
    an exception raised before it leaves the database as it was. *)
Definition until_commit {A : Type} (m : M DB A) : M DB A :=
  fun db =>
    match m db with
    | (db', Ok a) => (db', Ok a)
    | (_, Raise e) => (db, Raise e)
    end.

(** A parameter with a default value: [given] is [None] when the caller
    leaves it out. *)
Definition arg {A : Type} (default : A) (given : option A) : A :=
  match given with
  | Some a => a
  | None => default
  end.

Definition py_of_option_int (o : option Z) : pyval :=
  match o with
  | Some n => PyInt n
  | None => PyNone
  end.

(* ================================================================== *)
(** * The methods of [ShoppingCart] *)
(* ================================================================== *)

(** The argument [furniture: Any] of [add_item]: an instance of one of the
    three furniture classes, or of some other class. *)
Inductive furniture : Type :=
| Sofa (s : IkeaSofa.t)
| DiningTable (t : IkeaDiningTable.t)
| Matress (m : IkeaMatress.t)
| OtherObject.

(** [furniture_type_map.get(type(furniture))] *)
Definition furniture_type_map (f : furniture) : option string :=
  match f with
  | Sofa _ => Some "sofa"
  | DiningTable _ => Some "dining_table"
  | Matress _ => Some "matress"
  | OtherObject => None
  end.

(** [session.refresh(furniture)] *)
Definition refresh_furniture (f : furniture) : M DB furniture :=
  match f with
  | Sofa s => s' <- refresh sofas s ;; ret (Sofa s')
  | DiningTable t => t' <- refresh dining_tables t ;; ret (DiningTable t')
  | Matress m => m' <- refresh matresses m ;; ret (Matress m')
  | OtherObject => raise InvalidRequestError
  end.

(** [furniture.id] and the attributes inherited from [IkeaFurniture]. *)
Definition furniture_id (f : furniture) : result (option Z) :=
  match f with
  | Sofa s => Ok (IkeaSofa.id s)
  | DiningTable t => Ok (IkeaDiningTable.id t)
  | Matress m => Ok (IkeaMatress.id m)
  | OtherObject => Raise AttributeError
  end.

Definition furniture_base (f : furniture) : result IkeaFurniture.t :=
  match f with
  | Sofa s => Ok (IkeaSofa.base s)
  | DiningTable t => Ok (IkeaDiningTable.base t)
  | Matress m => Ok (IkeaMatress.base m)
  | OtherObject => Raise AttributeError
  end.

(** The attributes read in each branch of [add_item]. *)
Definition sofa_fields (f : furniture) : result dict :=
  match f with
  | Sofa s =>
      Ok [("seats", PyInt (IkeaSofa.seats s));
          ("has_sleeper", PyBool (IkeaSofa.has_sleeper s));
          ("fabric_type", PyStr (IkeaSofa.fabric_type s))]
  | _ => Raise AttributeError
  end.

Definition dining_table_fields (f : furniture) : result dict :=
  match f with
  | DiningTable t =>
      Ok [("seats", PyInt (IkeaDiningTable.seats t));
          ("shape", PyStr (IkeaDiningTable.shape t));
          ("extendable", PyBool (IkeaDiningTable.extendable t))]
  | _ => Raise AttributeError
  end.

Definition matress_fields (f : furniture) : result dict :=
  match f with
  | Matress m =>
      Ok [("size", PyStr (IkeaMatress.size m));
          ("firmness", PyStr (IkeaMatress.firmness m));
          ("thickness_cm", PyFloat (IkeaMatress.thickness_cm m))]
  | _ => Raise AttributeError
  end.

(** [ShoppingCart.add_item(self, session, furniture, quantity=1)] *)
Definition add_item (self : ShoppingCart.t) (furniture : furniture)
  (quantity : option Z) : M DB CartItem.t :=
  let quantity := arg 1 quantity in
  let furniture_type := furniture_type_map furniture in
  if negb (truthy furniture_type) then
    raise (ValueError "Unsupported furniture type")
  else
    let furniture_type := arg "" furniture_type in
    furniture <- refresh_furniture furniture ;;
    fid <- lift (furniture_id furniture) ;;
    b <- lift (furniture_base furniture) ;;
    let furniture_dict :=
      [("id", py_of_option_int fid);
       ("name", PyStr (IkeaFurniture.name b));
       ("price", PyFloat (IkeaFurniture.price b));
       ("color", PyStr (IkeaFurniture.color b));
       ("material", PyStr (IkeaFurniture.material b));
       ("weight_kg", PyFloat (IkeaFurniture.weight_kg b));
       ("in_stock", PyBool (IkeaFurniture.in_stock b));
       ("date_added", PyStr (isoformat (IkeaFurniture.date_added b)))] in
    type_specific_fields <-
      (if String.eqb furniture_type "sofa" then
         lift (sofa_fields furniture)
       else if String.eqb furniture_type "dining_table" then
         lift (dining_table_fields furniture)
       else if String.eqb furniture_type "matress" then
         lift (matress_fields furniture)
       else raise UnboundLocalError) ;;
    let furniture_dict := dict_update furniture_dict type_specific_fields in
    let furniture_json := json_dumps furniture_dict in
    (* [cart_id] and [furniture_id] are NOT NULL columns *)
    match ShoppingCart.id self, fid with
    | Some self_id, Some fid =>
        let cart_item :=
          CartItem.Build None self_id furniture_type fid quantity
            furniture_json in
        add_commit_refresh cart_items cart_item
    | _, _ => raise IntegrityError
    end.

(** [ShoppingCart.get_items]: [cart_id == None] selects no row. *)
Definition get_items (self : ShoppingCart.t) : M DB (list CartItem.t) :=
  exec_all cart_items
    (where_
       (fun item =>
          match ShoppingCart.id self with
          | Some i => CartItem.cart_id item =? i
          | None => false
          end)
       select).

(** [json.loads(item.furniture_data).get("price", 0.0) * item.quantity] *)
Definition line_price (item : CartItem.t) : result pyval :=
  py_mul_int
    (dict_get (json_loads (CartItem.furniture_data item)) "price"
       (PyFloat 0%float))
    (CartItem.quantity item).

(** [ShoppingCart.calculate_total_price] *)
Definition calculate_total_price (self : ShoppingCart.t) : M DB pyval :=
  items <- get_items self ;;
  lift (py_sum (map line_price items)).

(** [ShoppingCart.calculate_total_quantity] *)
Definition calculate_total_quantity (self : ShoppingCart.t) : M DB pyval :=
  items <- get_items self ;;
  lift (py_sum (map (fun item => Ok (PyInt (CartItem.quantity item))) items)).

(** The dictionary [get_cart_summary] returns. *)
Record summary : Type := Summary {
  customer : dict;
  items : list dict;
  total_items : pyval;
  total_price : pyval
}.

Definition py_of_option_str (o : option string) : pyval :=
  match o with
  | Some s => PyStr s
  | None => PyNone
  end.

(** The body of the loop of [get_cart_summary], for one item. *)
Definition item_detail (item : CartItem.t) : result dict :=
  let furniture_dict := json_loads (CartItem.furniture_data item) in
  match line_price item with
  | Ok subtotal =>
      Ok [("type", PyStr (CartItem.furniture_type item));
          ("name", dict_get furniture_dict "name" (PyStr "Unknown"));
          ("price", dict_get furniture_dict "price" (PyFloat 0%float));
          ("quantity", PyInt (CartItem.quantity item));
          ("subtotal", subtotal)]
  | Raise e => Raise e
  end.

Fixpoint item_details_loop (l : list CartItem.t) (acc : list dict)
  : result (list dict) :=
  match l with
  | [] => Ok acc
  | item :: l' =>
      match item_detail item with
      | Ok d => item_details_loop l' (acc ++ [d])
      | Raise e => Raise e
      end
  end.

(** [ShoppingCart.get_cart_summary] *)
Definition get_cart_summary (self : ShoppingCart.t) : M DB summary :=
  items <- get_items self ;;
  item_details <- lift (item_details_loop items []) ;;
  total_items <- calculate_total_quantity self ;;
  total_price <- calculate_total_price self ;;
  ret (Summary
         [("name", PyStr (ShoppingCart.customer_name self));
          ("email", py_of_option_str (ShoppingCart.customer_email self))]
         item_details total_items total_price).

(** [create_sample_cart()], on the day [today]: a cart for John Doe with
    the first two sofas, the first dining table and the first three
    mattresses, one of each.  What it prints of the summary is left out;
    the summary is still computed, and an exception in it propagates. *)
Definition create_sample_cart (today : date) : M DB ShoppingCart.t :=
  cart <-
    add_commit_refresh carts
      (ShoppingCart.new today "John Doe" (Some "john@example.com")) ;;
  sofas_ <- exec_all sofas (limit 2 select) ;;
  tables_ <- exec_all dining_tables (limit 1 select) ;;
  mattresses_ <- exec_all matresses (limit 3 select) ;;
  let sample_items :=
    map Sofa sofas_ ++ map DiningTable tables_ ++ map Matress mattresses_ in
  for_each sample_items
    (fun item => add_item cart item (Some 1) ;;; ret tt) ;;;
  summary <- get_cart_summary cart ;;
  ret cart.

(* ================================================================== *)
(** * The handlers of [main.py] *)
(* ================================================================== *)

Definition message (s : string) : dict := [("message", PyStr s)].

(** ** Sofas *)

(** [POST /sofas/] *)
Definition create_sofa (sofa : IkeaSofa.t) : M DB IkeaSofa.t :=
  add_commit_refresh sofas sofa.

(** [GET /sofas/], with [skip: int = 0] and [limit: int = 100] *)
Definition read_sofas (skip limit_ : option Z) (material : option string)
  (min_price max_price : option float) (has_sleeper : option bool)
  : M DB (list IkeaSofa.t) :=
  let skip := arg 0 skip in
  let limit_ := arg 100 limit_ in
  let query := select in
  let query :=
    if truthy material then
      where_
        (fun s =>
           String.eqb (IkeaFurniture.material (IkeaSofa.base s))
             (arg "" material))
        query
    else query in
  let query :=
    match min_price with
    | Some min_price =>
        where_
          (fun s =>
             PrimFloat.leb min_price (IkeaFurniture.price (IkeaSofa.base s)))
          query
    | None => query
    end in
  let query :=
    match max_price with
    | Some max_price =>
        where_
          (fun s =>
             PrimFloat.leb (IkeaFurniture.price (IkeaSofa.base s)) max_price)
          query
    | None => query
    end in
  let query :=
    match has_sleeper with
    | Some has_sleeper =>
        where_ (fun s => Bool.eqb (IkeaSofa.has_sleeper s) has_sleeper) query
    | None => query
    end in
  let query := limit limit_ (offset skip query) in
  exec_all sofas query.

(** [GET /sofas/{sofa_id}] *)
Definition read_sofa (sofa_id : Z) : M DB IkeaSofa.t :=
  sofa <- get sofas sofa_id ;;
  match sofa with
  | None => raise (HTTPException 404 "Sofa not found")
  | Some sofa => ret sofa
  end.

(** [PUT /sofas/{sofa_id}] *)
Definition update_sofa (sofa_id : Z)
  (sofa_data : instance IkeaSofa.t IkeaSofa.key) : M DB IkeaSofa.t :=
  db_sofa <- get sofas sofa_id ;;
  match db_sofa with
  | None => raise (HTTPException 404 "Sofa not found")
  | Some db_sofa =>
      let sofa_data_dict := dict_exclude_unset sofa_data in
      let db_sofa := setattr_all sofa_data_dict db_sofa in
      commit_refresh sofas sofa_id db_sofa
  end.

(** [DELETE /sofas/{sofa_id}] *)
Definition delete_sofa (sofa_id : Z) : M DB dict :=
  sofa <- get sofas sofa_id ;;
  match sofa with
  | None => raise (HTTPException 404 "Sofa not found")
  | Some sofa =>
      session_delete sofas sofa ;;;
      ret (message
             ("Sofa with ID " ++ str_of_int sofa_id ++
              " deleted successfully")%string)
  end.

(** ** Dining tables *)

(** [POST /dining-tables/] *)
Definition create_dining_table (table : IkeaDiningTable.t)
  : M DB IkeaDiningTable.t :=
  add_commit_refresh dining_tables table.

(** [GET /dining-tables/] *)
Definition read_dining_tables (skip limit_ : option Z)
  (material : option string) (min_price max_price : option float)
  (shape : option string) (extendable : option bool)
  : M DB (list IkeaDiningTable.t) :=
  let skip := arg 0 skip in
  let limit_ := arg 100 limit_ in
  let query := select in
  let query :=
    if truthy material then
      where_
        (fun t =>
           String.eqb (IkeaFurniture.material (IkeaDiningTable.base t))
             (arg "" material))
        query
    else query in
  let query :=
    match min_price with
    | Some min_price =>
        where_
          (fun t =>
             PrimFloat.leb min_price
               (IkeaFurniture.price (IkeaDiningTable.base t)))
          query
    | None => query
    end in
  let query :=
    match max_price with
    | Some max_price =>
        where_
          (fun t =>
             PrimFloat.leb (IkeaFurniture.price (IkeaDiningTable.base t))
               max_price)
          query
    | None => query
    end in
  let query :=
    if truthy shape then
      where_
        (fun t => String.eqb (IkeaDiningTable.shape t) (arg "" shape)) query
    else query in
  let query :=
    match extendable with
    | Some extendable =>
        where_
          (fun t => Bool.eqb (IkeaDiningTable.extendable t) extendable) query
    | None => query
    end in
  let query := limit limit_ (offset skip query) in
  exec_all dining_tables query.

(** [GET /dining-tables/{table_id}] *)
Definition read_dining_table (table_id : Z) : M DB IkeaDiningTable.t :=
  table <- get dining_tables table_id ;;
  match table with
  | None => raise (HTTPException 404 "Dining table not found")
  | Some table => ret table
  end.

(** [PUT /dining-tables/{table_id}] *)
Definition update_dining_table (table_id : Z)
  (table_data : instance IkeaDiningTable.t IkeaDiningTable.key)
  : M DB IkeaDiningTable.t :=
  db_table <- get dining_tables table_id ;;
  match db_table with
  | None => raise (HTTPException 404 "Dining table not found")
  | Some db_table =>
      let table_data_dict := dict_exclude_unset table_data in
      let db_table := setattr_all table_data_dict db_table in
      commit_refresh dining_tables table_id db_table
  end.

(** [DELETE /dining-tables/{table_id}] *)
Definition delete_dining_table (table_id : Z) : M DB dict :=
  table <- get dining_tables table_id ;;
  match table with
  | None => raise (HTTPException 404 "Dining table not found")
  | Some table =>
      session_delete dining_tables table ;;;
      ret (message
             ("Dining table with ID " ++ str_of_int table_id ++
              " deleted successfully")%string)
  end.

(** ** Mattresses *)

(** [POST /mattresses/] *)
Definition create_mattress (mattress : IkeaMatress.t) : M DB IkeaMatress.t :=
  add_commit_refresh matresses mattress.

(** [GET /mattresses/] *)
Definition read_mattresses (skip limit_ : option Z)
  (material : option string) (min_price max_price : option float)
  (size firmness : option string) : M DB (list IkeaMatress.t) :=
  let skip := arg 0 skip in
  let limit_ := arg 100 limit_ in
  let query := select in
  let query :=
    if truthy material then
      where_
        (fun m =>
           String.eqb (IkeaFurniture.material (IkeaMatress.base m))
             (arg "" material))
        query
    else query in
  let query :=
    match min_price with
    | Some min_price =>
        where_
          (fun m =>
             PrimFloat.leb min_price
               (IkeaFurniture.price (IkeaMatress.base m)))
          query
    | None => query
    end in
  let query :=
    match max_price with
    | Some max_price =>
        where_
          (fun m =>
             PrimFloat.leb (IkeaFurniture.price (IkeaMatress.base m))
               max_price)
          query
    | None => query
    end in
  let query :=
    if truthy size then
      where_ (fun m => String.eqb (IkeaMatress.size m) (arg "" size)) query
    else query in
  let query :=
    if truthy firmness then
      where_
        (fun m => String.eqb (IkeaMatress.firmness m) (arg "" firmness))
        query
    else query in
  let query := limit limit_ (offset skip query) in
  exec_all matresses query.

(** [GET /mattresses/{mattress_id}] *)
Definition read_mattress (mattress_id : Z) : M DB IkeaMatress.t :=
  mattress <- get matresses mattress_id ;;
  match mattress with
  | None => raise (HTTPException 404 "Mattress not found")
  | Some mattress => ret mattress
  end.

(** [PUT /mattresses/{mattress_id}] *)
Definition update_mattress (mattress_id : Z)
  (mattress_data : instance IkeaMatress.t IkeaMatress.key)
  : M DB IkeaMatress.t :=
  db_mattress <- get matresses mattress_id ;;
  match db_mattress with
  | None => raise (HTTPException 404 "Mattress not found")
  | Some db_mattress =>
      let mattress_data_dict := dict_exclude_unset mattress_data in
      let db_mattress := setattr_all mattress_data_dict db_mattress in
      commit_refresh matresses mattress_id db_mattress
  end.

(** [DELETE /mattresses/{mattress_id}] *)
Definition delete_mattress (mattress_id : Z) : M DB dict :=
  mattress <- get matresses mattress_id ;;
  match mattress with
  | None => raise (HTTPException 404 "Mattress not found")
  | Some mattress =>
      session_delete matresses mattress ;;;
      ret (message
             ("Mattress with ID " ++ str_of_int mattress_id ++
              " deleted successfully")%string)
  end.

(** ** Shopping carts *)

(** [POST /carts/] *)
Definition create_cart (cart : ShoppingCart.t) : M DB ShoppingCart.t :=
  add_commit_refresh carts cart.

(** [GET /carts/], with [skip: int = 0] and [limit: int = 100] *)
Definition read_carts (skip limit_ : option Z) (customer_name : option string)
  : M DB (list ShoppingCart.t) :=
  let skip := arg 0 skip in
  let limit_ := arg 100 limit_ in
  let query := select in
  let query :=
    if truthy customer_name then
      where_
        (fun c =>
           contains (ShoppingCart.customer_name c) (arg "" customer_name))
        query
    else query in
  let query := limit limit_ (offset skip query) in
  exec_all carts query.

(** [GET /carts/{cart_id}] *)
Definition read_cart (cart_id : Z) : M DB ShoppingCart.t :=
  cart <- get carts cart_id ;;
  match cart with
  | None => raise (HTTPException 404 "Shopping cart not found")
  | Some cart => ret cart
  end.

(** [PUT /carts/{cart_id}]: [customer_name] and [customer_email] are
    copied when they are not [None]. *)
Definition update_cart (cart_id : Z) (cart_data : ShoppingCart.body)
  : M DB ShoppingCart.t :=
  db_cart <- get carts cart_id ;;
  match db_cart with
  | None => raise (HTTPException 404 "Shopping cart not found")
  | Some db_cart =>
      let db_cart :=
        match ShoppingCart.body_customer_name cart_data with
        | Some name => ShoppingCart.set_customer_name name db_cart
        | None => db_cart
        end in
      let db_cart :=
        match ShoppingCart.body_customer_email cart_data with
        | Some email => ShoppingCart.set_customer_email (Some email) db_cart
        | None => db_cart
        end in
      commit_refresh carts cart_id db_cart
  end.

(** [DELETE /carts/{cart_id}] *)
Definition delete_cart (cart_id : Z) : M DB dict :=
  cart <- get carts cart_id ;;
  match cart with
  | None => raise (HTTPException 404 "Shopping cart not found")
  | Some cart =>
      until_commit
        (cart_items_ <-
           exec_all cart_items
             (where_ (fun item => CartItem.cart_id item =? cart_id) select) ;;
         for_each cart_items_ (fun item => session_delete cart_items item) ;;;
         session_delete carts cart) ;;;
      ret (message
             ("Shopping cart with ID " ++ str_of_int cart_id ++
              " deleted successfully")%string)
  end.

(** The dictionary that [add_item_to_cart] and [update_cart_item] return
    for an item. *)
Definition item_response (item : CartItem.t) : result dict :=
  let furniture_dict := json_loads (CartItem.furniture_data item) in
  match line_price item with
  | Ok subtotal =>
      Ok [("id", py_of_option_int (CartItem.id item));
          ("furniture_type", PyStr (CartItem.furniture_type item));
          ("furniture_id", PyInt (CartItem.furniture_id item));
          ("quantity", PyInt (CartItem.quantity item));
          ("name", dict_get furniture_dict "name" (PyStr "Unknown"));
          ("price", dict_get furniture_dict "price" (PyFloat 0%float));
          ("subtotal", subtotal)]
  | Raise e => Raise e
  end.

(** [POST /carts/{cart_id}/items], with [quantity: int = 1] *)
Definition add_item_to_cart (cart_id : Z) (furniture_type : string)
  (furniture_id : Z) (quantity : option Z) : M DB dict :=
  let quantity := arg 1 quantity in
  cart <- get carts cart_id ;;
  match cart with
  | None => raise (HTTPException 404 "Shopping cart not found")
  | Some cart =>
      furniture <-
        (if String.eqb furniture_type "sofa" then
           s <- get sofas furniture_id ;; ret (option_map Sofa s)
         else if String.eqb furniture_type "dining_table" then
           t <- get dining_tables furniture_id ;;
           ret (option_map DiningTable t)
         else if String.eqb furniture_type "matress" then
           m <- get matresses furniture_id ;; ret (option_map Matress m)
         else
           raise
             (HTTPException 400
                ("Invalid furniture type: " ++ furniture_type)%string)) ;;
      match furniture with
      | None =>
          raise
            (HTTPException 404
               (capitalize furniture_type ++ " with ID " ++
                str_of_int furniture_id ++ " not found")%string)
      | Some furniture =>
          cart_item <- add_item cart furniture (Some quantity) ;;
          lift (item_response cart_item)
      end
  end.

(** [GET /carts/{cart_id}/items] *)
Definition get_cart_items (cart_id : Z) : M DB summary :=
  cart <- get carts cart_id ;;
  match cart with
  | None => raise (HTTPException 404 "Shopping cart not found")
  | Some cart => get_cart_summary cart
  end.

(** [PUT /carts/{cart_id}/items/{item_id}] *)
Definition update_cart_item (cart_id item_id quantity : Z) : M DB dict :=
  cart <- get carts cart_id ;;
  match cart with
  | None => raise (HTTPException 404 "Shopping cart not found")
  | Some cart =>
      item <- get cart_items item_id ;;
      match item with
      | None => raise (HTTPException 404 "Cart item not found")
      | Some item =>
          if negb (CartItem.cart_id item =? cart_id) then
            raise (HTTPException 404 "Cart item not found")
          else
            let item := CartItem.set_quantity quantity item in
            item <- commit_refresh cart_items item_id item ;;
            lift (item_response item)
      end
  end.

(** [DELETE /carts/{cart_id}/items/{item_id}] *)
Definition remove_cart_item (cart_id item_id : Z) : M DB dict :=
  cart <- get carts cart_id ;;
  match cart with
  | None => raise (HTTPException 404 "Shopping cart not found")
  | Some cart =>
      item <- get cart_items item_id ;;
      match item with
      | None => raise (HTTPException 404 "Cart item not found")
      | Some item =>
          if negb (CartItem.cart_id item =? cart_id) then
            raise (HTTPException 404 "Cart item not found")
          else
            session_delete cart_items item ;;;
            ret (message "Item removed from cart successfully")
      end
  end.

(** The dictionary [get_cart_total] returns. *)
Record total : Type := Total {
  total_cart_id : Z;
  total_customer_name : string;
  total_total_price : pyval;
  total_total_quantity : pyval
}.

(** [GET /carts/{cart_id}/total] *)
Definition get_cart_total (cart_id : Z) : M DB total :=
  cart <- get carts cart_id ;;
  match cart with
  | None => raise (HTTPException 404 "Shopping cart not found")
  | Some cart =>
      total_price <- calculate_total_price cart ;;
      total_quantity <- calculate_total_quantity cart ;;
      ret (Total cart_id (ShoppingCart.customer_name cart) total_price
             total_quantity)
  end.

(* ================================================================== *)
(** * Request bodies *)
(* ================================================================== *)

(** The two dates a request depends on: the day the module
    [ikea_furniture] was loaded, when its class bodies ran, and the day of
    the request. *)
Record clock : Type := Clock {
  module_loaded : date;
  today : date
}.

(** A body is the list of the fields it gives; FastAPI validates it into
    an instance of the class before the handler runs. *)
Definition sofa_of_body (c : clock) (body : list IkeaSofa.attr)
  : result (instance IkeaSofa.t IkeaSofa.key) :=
  validate IkeaSofa.required (IkeaSofa.defaults (module_loaded c)) body.

Definition dining_table_of_body (c : clock)
  (body : list IkeaDiningTable.attr)
  : result (instance IkeaDiningTable.t IkeaDiningTable.key) :=
  validate IkeaDiningTable.required
    (IkeaDiningTable.defaults (module_loaded c)) body.

Definition mattress_of_body (c : clock) (body : list IkeaMatress.attr)
  : result (instance IkeaMatress.t IkeaMatress.key) :=
  validate IkeaMatress.required (IkeaMatress.defaults (module_loaded c)) body.

Definition cart_of_body (c : clock) (customer_name : string)
  (customer_email : option string) : ShoppingCart.t :=
  ShoppingCart.new (today c) customer_name customer_email.

(** [POST /sofas/], [POST /dining-tables/] and [POST /mattresses/] from
    the body on. *)
Definition post_sofas (c : clock) (body : list IkeaSofa.attr)
  : M DB IkeaSofa.t :=
  sofa <- lift (sofa_of_body c body) ;; create_sofa (obj sofa).

Definition post_dining_tables (c : clock) (body : list IkeaDiningTable.attr)
  : M DB IkeaDiningTable.t :=
  table <- lift (dining_table_of_body c body) ;;
  create_dining_table (obj table).

Definition post_mattresses (c : clock) (body : list IkeaMatress.attr)
  : M DB IkeaMatress.t :=
  mattress <- lift (mattress_of_body c body) ;;
  create_mattress (obj mattress).

(* ================================================================== *)
(** * The application as a state machine *)
(* ================================================================== *)

(** The calls that change the database, each with the arguments its
    handler receives. *)
Inductive call : Type :=
| Create_sofa (sofa : IkeaSofa.t)
| Update_sofa (sofa_id : Z) (sofa_data : instance IkeaSofa.t IkeaSofa.key)
| Delete_sofa (sofa_id : Z)
| Create_dining_table (table : IkeaDiningTable.t)
| Update_dining_table (table_id : Z)
    (table_data : instance IkeaDiningTable.t IkeaDiningTable.key)
| Delete_dining_table (table_id : Z)
| Create_mattress (mattress : IkeaMatress.t)
| Update_mattress (mattress_id : Z)
    (mattress_data : instance IkeaMatress.t IkeaMatress.key)
| Delete_mattress (mattress_id : Z)
| Create_cart (cart : ShoppingCart.t)
| Update_cart (cart_id : Z) (cart_data : ShoppingCart.body)
| Delete_cart (cart_id : Z)
| Add_item_to_cart (cart_id : Z) (furniture_type : string)
    (furniture_id : Z) (quantity : option Z)
| Update_cart_item (cart_id item_id quantity : Z)
| Remove_cart_item (cart_id item_id : Z).

(** A call with the kind of value it returns forgotten. *)
Definition respond {A : Type} (m : M DB A) : M DB unit :=
  m ;;; ret tt.

Definition handle (r : call) : M DB unit :=
  match r with
  | Create_sofa sofa => respond (create_sofa sofa)
  | Update_sofa sofa_id sofa_data => respond (update_sofa sofa_id sofa_data)
  | Delete_sofa sofa_id => respond (delete_sofa sofa_id)
  | Create_dining_table table => respond (create_dining_table table)
  | Update_dining_table table_id table_data =>
      respond (update_dining_table table_id table_data)
  | Delete_dining_table table_id => respond (delete_dining_table table_id)
  | Create_mattress mattress => respond (create_mattress mattress)
  | Update_mattress mattress_id mattress_data =>
      respond (update_mattress mattress_id mattress_data)
  | Delete_mattress mattress_id => respond (delete_mattress mattress_id)
  | Create_cart cart => respond (create_cart cart)
  | Update_cart cart_id cart_data => respond (update_cart cart_id cart_data)
  | Delete_cart cart_id => respond (delete_cart cart_id)
  | Add_item_to_cart cart_id furniture_type furniture_id quantity =>
      respond (add_item_to_cart cart_id furniture_type furniture_id quantity)
  | Update_cart_item cart_id item_id quantity =>
      respond (update_cart_item cart_id item_id quantity)
  | Remove_cart_item cart_id item_id =>
      respond (remove_cart_item cart_id item_id)
  end.

(** The database after a call. *)
Definition step (r : call) (db : DB) : DB := fst (handle r db).

(** The databases the application can be in: the empty one that
    [create_tables] makes, and the ones calls lead to. *)
Inductive reachable : DB -> Prop :=
| reachable_empty : reachable empty_db
| reachable_step : forall r db, reachable db -> reachable (step r db).

Definition steps (rs : list call) (db : DB) : DB :=
  fold_left (fun db r => step r db) rs db.

(** The calls on the catalog: everything but the cart and its items. *)
Definition catalog_call (r : call) : bool :=
  match r with
  | Create_sofa _ | Update_sofa _ _ | Delete_sofa _
  | Create_dining_table _ | Update_dining_table _ _ | Delete_dining_table _
  | Create_mattress _ | Update_mattress _ _ | Delete_mattress _ => true
  | _ => false
  end.

(* ================================================================== *)
(** * What the properties are stated with *)
(* ================================================================== *)

(** ** The range of the store *)

(** SQLite keeps an integer in 64 bits.  The driver raises OverflowError
    for a Python int outside that range wherever the session binds one:
    the id of [session.get], an integer column in the INSERT or UPDATE of
    a commit, the LIMIT and OFFSET of a query. *)
Definition int64 (n : Z) : bool := (- 2 ^ 63 <=? n) && (n <? 2 ^ 63).

(** A float that goes through the store and through a JSON response as
    it is: a finite one, since NaN is bound as NULL, which a NOT NULL
    column refuses, and the encoder of the response refuses NaN and the
    infinities; and not the negative zero, which a REAL column gives back
    as [0.0]. *)
Definition sql_real (x : float) : bool :=
  match PrimFloat.classify x with
  | PNormal | NNormal | PSubn | NSubn | PZero => true
  | _ => false
  end.

Definition id_in_range (id : option Z) : bool :=
  match id with
  | Some i => int64 i
  | None => true
  end.

(** An object whose columns the store takes, and gives back, as they
    are. *)
Class Storable (A : Type) : Type := storable : A -> bool.

Definition furniture_storable (b : IkeaFurniture.t) : bool :=
  sql_real (IkeaFurniture.price b) && sql_real (IkeaFurniture.weight_kg b).

#[export] Instance IkeaSofa_Storable : Storable IkeaSofa.t :=
  fun s =>
    furniture_storable (IkeaSofa.base s) && id_in_range (IkeaSofa.id s) &&
    int64 (IkeaSofa.seats s).

#[export] Instance IkeaDiningTable_Storable : Storable IkeaDiningTable.t :=
  fun t =>
    furniture_storable (IkeaDiningTable.base t) &&
    id_in_range (IkeaDiningTable.id t) && int64 (IkeaDiningTable.seats t).

#[export] Instance IkeaMatress_Storable : Storable IkeaMatress.t :=
  fun m =>
    furniture_storable (IkeaMatress.base m) &&
    id_in_range (IkeaMatress.id m) && sql_real (IkeaMatress.thickness_cm m).

#[export] Instance ShoppingCart_Storable : Storable ShoppingCart.t :=
  fun c => id_in_range (ShoppingCart.id c).

(** The [skip] and [limit] of a listing, with their defaults 0 and 100,
    as the query binds them. *)
Definition page_in_range (skip limit_ : option Z) : bool :=
  int64 (arg 0 skip) && int64 (arg 100 limit_).

(** The price a line item carries in its snapshot. *)
Definition snapshot_price (item : CartItem.t) : option float :=
  match dict_lookup (json_loads (CartItem.furniture_data item)) "price" with
  | Some (PyFloat p) => Some p
  | _ => None
  end.

(** [snapshot.price * quantity] for a line item. *)
Definition subtotal (item : CartItem.t) : float :=
  PrimFloat.mul (arg 0%float (snapshot_price item))
    (float_of_int (CartItem.quantity item)).

(** The line items of a cart, in the order of the table. *)
Definition line_items (db : DB) (cart_id : Z) : list CartItem.t :=
  filter (fun item => CartItem.cart_id item =? cart_id) (cartitem db).

(** A sum of floats and a sum of ints, from the left. *)
Definition float_sum (l : list float) : float :=
  fold_left PrimFloat.add l 0%float.

Definition int_sum (l : list Z) : Z := fold_right Z.add 0 l.

(** The value of a sum of floats as [sum] returns it: the int [0] when
    there is nothing to add. *)
Definition py_float_total (l : list float) : pyval :=
  match l with
  | [] => PyInt 0
  | _ => PyFloat (float_sum l)
  end.

(** A row of [cartitem] as [add_item] writes it: stored under a primary
    key, with a float price in its snapshot. *)
Definition item_ok (item : CartItem.t) : bool :=
  match CartItem.id item, snapshot_price item with
  | Some _, Some _ => true
  | _, _ => false
  end.

(** The catalog record a tag and an id designate, when the three tags are
    ["sofa"], ["dining_table"] and [mattress_tag]. *)
Definition find_furniture (mattress_tag : string) (db : DB)
  (furniture_type : string) (furniture_id : Z) : option furniture :=
  if String.eqb furniture_type "sofa" then
    option_map Sofa (session_get (ikeasofa db) furniture_id)
  else if String.eqb furniture_type "dining_table" then
    option_map DiningTable (session_get (ikeadiningtable db) furniture_id)
  else if String.eqb furniture_type mattress_tag then
    option_map Matress (session_get (ikeamatress db) furniture_id)
  else None.

Definition known_tag (mattress_tag furniture_type : string) : bool :=
  String.eqb furniture_type "sofa" ||
  String.eqb furniture_type "dining_table" ||
  String.eqb furniture_type mattress_tag.

(** The status code an exception reaches the client with. *)
Definition status_of (e : exn) : Z :=
  match e with
  | HTTPException status_code _ => status_code
  | _ => 500
  end.

(** The outcome of a call, as the client sees it. *)
Definition signals {A : Type} (r : DB * result A) (status : Z) : Prop :=
  exists e, snd r = Raise e /\ status_of e = status.

Definition returns {A : Type} (r : DB * result A) : Prop :=
  exists a, snd r = Ok a.

(** The snapshot [add_item] takes of a catalog record. *)
Definition snapshot_of (f : furniture) : dict :=
  match f with
  | Sofa s =>
      let b := IkeaSofa.base s in
      [("id", py_of_option_int (IkeaSofa.id s));
       ("name", PyStr (IkeaFurniture.name b));
       ("price", PyFloat (IkeaFurniture.price b));
       ("color", PyStr (IkeaFurniture.color b));
       ("material", PyStr (IkeaFurniture.material b));
       ("weight_kg", PyFloat (IkeaFurniture.weight_kg b));
       ("in_stock", PyBool (IkeaFurniture.in_stock b));
       ("date_added", PyStr (isoformat (IkeaFurniture.date_added b)));
       ("seats", PyInt (IkeaSofa.seats s));
       ("has_sleeper", PyBool (IkeaSofa.has_sleeper s));
       ("fabric_type", PyStr (IkeaSofa.fabric_type s))]
  | DiningTable t =>
      let b := IkeaDiningTable.base t in
      [("id", py_of_option_int (IkeaDiningTable.id t));
       ("name", PyStr (IkeaFurniture.name b));
       ("price", PyFloat (IkeaFurniture.price b));
       ("color", PyStr (IkeaFurniture.color b));
       ("material", PyStr (IkeaFurniture.material b));
       ("weight_kg", PyFloat (IkeaFurniture.weight_kg b));
       ("in_stock", PyBool (IkeaFurniture.in_stock b));
       ("date_added", PyStr (isoformat (IkeaFurniture.date_added b)));
       ("seats", PyInt (IkeaDiningTable.seats t));
       ("shape", PyStr (IkeaDiningTable.shape t));
       ("extendable", PyBool (IkeaDiningTable.extendable t))]
  | Matress m =>
      let b := IkeaMatress.base m in
      [("id", py_of_option_int (IkeaMatress.id m));
       ("name", PyStr (IkeaFurniture.name b));
       ("price", PyFloat (IkeaFurniture.price b));
       ("color", PyStr (IkeaFurniture.color b));
       ("material", PyStr (IkeaFurniture.material b));
       ("weight_kg", PyFloat (IkeaFurniture.weight_kg b));
       ("in_stock", PyBool (IkeaFurniture.in_stock b));
       ("date_added", PyStr (isoformat (IkeaFurniture.date_added b)));
       ("size", PyStr (IkeaMatress.size m));
       ("firmness", PyStr (IkeaMatress.firmness m));
       ("thickness_cm", PyFloat (IkeaMatress.thickness_cm m))]
  | OtherObject => []
  end.

(** The current price of a catalog record. *)
Definition catalog_price (f : furniture) : option float :=
  match furniture_base f with
  | Ok b => Some (IkeaFurniture.price b)
  | Raise _ => None
  end.

(** The line item [add_item] stores for a cart and a catalog record. *)
Definition new_item (db : DB) (cart_id : Z) (furniture_type : string)
  (furniture_id : Z) (f : furniture) (quantity : Z) : CartItem.t :=
  CartItem.Build (Some (next_rowid (cartitem db))) cart_id furniture_type
    furniture_id quantity (JSON (snapshot_of f)).

(** ** Catalog listings *)

(** What a filter requires of a record: nothing when it is left out. *)
Definition holds {V : Type} (filter_ : option V) (p : V -> bool) : bool :=
  match filter_ with
  | Some v => p v
  | None => true
  end.

(** A text filter as the handlers read it: the empty string is no filter. *)
Definition nonempty (x : option string) : option string :=
  if truthy x then x else None.

(** The window [skip]/[limit] cut out of the matching rows, with the
    defaults 0 and 100. *)
Definition page {A : Type} (skip limit_ : option Z) (l : list A) : list A :=
  apply_limit (Some (arg 100 limit_)) (apply_offset (Some (arg 0 skip)) l).

Definition sofa_matches (material : option string)
  (min_price max_price : option float) (has_sleeper : option bool)
  (s : IkeaSofa.t) : bool :=
  holds material
    (String.eqb (IkeaFurniture.material (IkeaSofa.base s))) &&
  holds min_price
    (fun lo => PrimFloat.leb lo (IkeaFurniture.price (IkeaSofa.base s))) &&
  holds max_price
    (fun hi => PrimFloat.leb (IkeaFurniture.price (IkeaSofa.base s)) hi) &&
  holds has_sleeper (Bool.eqb (IkeaSofa.has_sleeper s)).

Definition dining_table_matches (material : option string)
  (min_price max_price : option float) (shape : option string)
  (extendable : option bool) (t : IkeaDiningTable.t) : bool :=
  holds material
    (String.eqb (IkeaFurniture.material (IkeaDiningTable.base t))) &&
  holds min_price
    (fun lo =>
       PrimFloat.leb lo (IkeaFurniture.price (IkeaDiningTable.base t))) &&
  holds max_price
    (fun hi =>
       PrimFloat.leb (IkeaFurniture.price (IkeaDiningTable.base t)) hi) &&
  holds shape (String.eqb (IkeaDiningTable.shape t)) &&
  holds extendable (Bool.eqb (IkeaDiningTable.extendable t)).

Definition mattress_matches (material : option string)
  (min_price max_price : option float) (size firmness : option string)
  (m : IkeaMatress.t) : bool :=
  holds material
    (String.eqb (IkeaFurniture.material (IkeaMatress.base m))) &&
  holds min_price
    (fun lo => PrimFloat.leb lo (IkeaFurniture.price (IkeaMatress.base m))) &&
  holds max_price
    (fun hi => PrimFloat.leb (IkeaFurniture.price (IkeaMatress.base m)) hi) &&
  holds size (String.eqb (IkeaMatress.size m)) &&
  holds firmness (String.eqb (IkeaMatress.firmness m)).

(** The listing of sofas when every filter that is supplied is applied as
    it stands, for [skip] and [limit] in the range of the store. *)
Definition sofas_filtered_by_every_supplied_filter : Prop :=
  forall db skip limit_ material min_price max_price has_sleeper,
    page_in_range skip limit_ = true ->
    read_sofas skip limit_ material min_price max_price has_sleeper db =
    (db,
     Ok (page skip limit_
           (filter (sofa_matches material min_price max_price has_sleeper)
              (ikeasofa db)))).

(** A database with one leather sofa. *)
Definition leather_sofa : IkeaSofa.t :=
  IkeaSofa.Build
    (IkeaFurniture.Build "KIVIK" 500%float "Gray" "Leather" 45.5%float
       (Date 2026 11 3) true)
    (Some 1) 3 false "Velvet".

Definition one_sofa_db : DB := Db [leather_sofa] [] [] [] [].

(** A database with one sofa priced below zero. *)
Definition refund_sofa : IkeaSofa.t :=
  IkeaSofa.Build
    (IkeaFurniture.Build "VOUCHER" (-1)%float "Gray" "Paper" 0%float
       (Date 2026 11 3) true)
    (Some 1) 0 false "None".

Definition refund_db : DB := Db [refund_sofa] [] [] [] [].

(** ** Partial updates *)

(** [new] is [old] with exactly the fields given in [data] taken from
    [data]: every field that [data] sets has the value [data] gives it,
    every other field has the value it had in [old]. *)
Definition patched {A K V : Type} `{Fields A K V} (data : instance A K)
  (old new : A) : Prop :=
  forall k : K,
    getattr k new =
    if key_mem k (fields_set data) then getattr k (obj data)
    else getattr k old.

(** A payload that sets the price and nothing else. *)
Definition only_price (x : float) : instance IkeaSofa.t IkeaSofa.key :=
  construct (IkeaSofa.defaults (Date 2026 11 3))
    [IkeaSofa.a_inherited (IkeaFurniture.a_price x)].

(** What the update handler [update_] of a catalog table [T] does to an
    existing record [old] of id [i], read back with [read_], for an id
    and a payload in the range of the store: when it returns, the record
    it returns is [old] patched with the payload and is the record stored
    under its id; and it does return when the payload leaves the primary
    key [k_id] alone. *)
Definition partial_update {A K V : Type} `{Fields A K V} `{Model A}
  `{Storable A}
  (T : table A) (k_id : K) (update_ : Z -> instance A K -> M DB A)
  (read_ : Z -> M DB A) : Prop :=
  forall db i data old,
    int64 i = true ->
    storable (obj data) = true ->
    session_get (rows T db) i = Some old ->
    (forall db' new,
       update_ i data db = (db', Ok new) ->
       patched data old new /\
       exists j, pk new = Some j /\ read_ j db' = (db', Ok new)) /\
    (key_mem k_id (fields_set data) = false ->
     exists db' new, update_ i data db = (db', Ok new)).

(** ** Line items *)

(** The database after [add_item] has stored [item]. *)
Definition with_item (db : DB) (item : CartItem.t) : DB :=
  set_rows cart_items
    (insert_row (next_rowid (cartitem db)) item (cartitem db)) db.

(** The behaviour of [add_item_to_cart] when the three tags are ["sofa"],
    ["dining_table"] and [mattress_tag], case by case. *)
Definition add_item_outcome (mattress_tag : string) (db : DB) (cart_id : Z)
  (furniture_type : string) (furniture_id : Z) (quantity : option Z)
  : DB * result dict :=
  match session_get (shoppingcart db) cart_id with
  | None => (db, Raise (HTTPException 404 "Shopping cart not found"))
  | Some _ =>
      if known_tag mattress_tag furniture_type then
        match find_furniture mattress_tag db furniture_type furniture_id with
        | None =>
            (db,
             Raise
               (HTTPException 404
                  (capitalize furniture_type ++ " with ID " ++
                   str_of_int furniture_id ++ " not found")%string))
        | Some f =>
            let item :=
              new_item db cart_id furniture_type furniture_id f
                (arg 1 quantity) in
            (with_item db item, item_response item)
        end
      else
        (db,
         Raise
           (HTTPException 400
              ("Invalid furniture type: " ++ furniture_type)%string))
  end.

(** ** Frames and invariants *)

(** A computation that leaves the part [f] of the database as it was,
    whether it returns or raises. *)
Definition keeps {X A : Type} (f : DB -> X) (m : M DB A) : Prop :=
  forall db, f (fst (m db)) = f db.

(** Every row of [cartitem] is as [add_item] writes it. *)
Definition items_ok (db : DB) : Prop :=
  Forall (fun item => item_ok item = true) (cartitem db).

(** The catalog tables of a database. *)
Definition catalog (db : DB)
  : list IkeaSofa.t * list IkeaDiningTable.t * list IkeaMatress.t :=
  (ikeasofa db, ikeadiningtable db, ikeamatress db).

(** A computation that preserves the property [P] of the database,
    whether it returns or raises. *)
Definition maintains {A : Type} (P : DB -> Prop) (m : M DB A) : Prop :=
  forall db, P db -> P (fst (m db)).

(** ** A small shop *)

Definition john : ShoppingCart.t :=
  ShoppingCart.new (Date 2026 11 4) "John Doe" None.

Definition sofa_100 : IkeaSofa.t :=
  IkeaSofa.Build
    (IkeaFurniture.Build "KIVIK" 100%float "Gray" "Leather" 45.5%float
       (Date 2026 11 3) true)
    None 3 false "Velvet".

Definition table_250 : IkeaDiningTable.t :=
  IkeaDiningTable.Build
    (IkeaFurniture.Build "EKEDALEN" 250%float "Oak" "Wood" 25%float
       (Date 2026 11 3) true)
    None 4 "Round" false.

Definition mattress_300 : IkeaMatress.t :=
  IkeaMatress.Build
    (IkeaFurniture.Build "HAUGESUND" 300%float "White" "Latex" 15%float
       (Date 2026 11 3) true)
    None "Queen" "Firm" 15%float.

(** A cart, one record of each kind, nothing in the cart. *)
Definition shop_db : DB :=
  steps
    [Create_cart john; Create_sofa sofa_100; Create_dining_table table_250;
     Create_mattress mattress_300]
    empty_db.

(** The same with one sofa and two tables in the cart. *)
Definition shop_with_items_db : DB :=
  steps
    [Add_item_to_cart 1 "sofa" 1 (Some 1);
     Add_item_to_cart 1 "dining_table" 1 (Some 2)]
    shop_db.

Definition john_1 : ShoppingCart.t :=
  ShoppingCart.Build (Some 1) (Date 2026 11 4) "John Doe" None.

(** ** The contract of [add_item_to_cart] on an existing cart *)

(** With ["sofa"], ["dining_table"] and [mattress_tag] as the three known
    tags, and the ids, the quantity and the next id of the line item table
    in the range of the store:
    Invalid-Argument (400) exactly for an unknown tag, Not-Found (404) for
    a known tag without a record of that id, and the item added for a
    known tag with a record. *)
Definition add_item_tag_contract (mattress_tag : string) : Prop :=
  forall db cart_id furniture_type furniture_id quantity cart,
    int64 cart_id = true ->
    int64 furniture_id = true ->
    int64 (arg 1 quantity) = true ->
    int64 (next_rowid (cartitem db)) = true ->
    session_get (shoppingcart db) cart_id = Some cart ->
    let r := add_item_to_cart cart_id furniture_type furniture_id quantity db in
    (signals r 400 <-> known_tag mattress_tag furniture_type = false) /\
    (known_tag mattress_tag furniture_type = true ->
     find_furniture mattress_tag db furniture_type furniture_id = None ->
     signals r 404) /\
    (forall f,
       find_furniture mattress_tag db furniture_type furniture_id = Some f ->
       returns r /\
       fst r =
       with_item db
         (new_item db cart_id furniture_type furniture_id f (arg 1 quantity))).

(** A sofa at 500 is put in a cart, then its price is set to 600. *)
Definition sofa_500 : IkeaSofa.t :=
  IkeaSofa.Build
    (IkeaFurniture.Build "KIVIK" 500%float "Gray" "Leather" 45.5%float
       (Date 2026 11 3) true)
    None 3 false "Velvet".

Definition repriced_db : DB :=
  steps
    [Create_cart john; Create_sofa sofa_500;
     Add_item_to_cart 1 "sofa" 1 None;
     Update_sofa 1 (only_price 600%float)]
    empty_db.

(** ** Quantities *)

(** Every quantity [add_item_to_cart] or [update_cart_item] stores is
    positive. *)
Definition stored_quantities_positive : Prop :=
  (forall db cart_id furniture_type furniture_id quantity db' resp i item,
     add_item_to_cart cart_id furniture_type furniture_id quantity db =
     (db', Ok resp) ->
     dict_lookup resp "id" = Some (PyInt i) ->
     session_get (cartitem db') i = Some item ->
     0 < CartItem.quantity item) /\
  (forall db cart_id item_id quantity db' resp item,
     update_cart_item cart_id item_id quantity db = (db', Ok resp) ->
     session_get (cartitem db') item_id = Some item ->
     0 < CartItem.quantity item).

(** ** Creation overnight *)

(** The module was loaded on 3 November; the request comes on the 4th. *)
Definition overnight : clock := Clock (Date 2026 11 3) (Date 2026 11 4).

(** A creation payload that leaves out [id], [date_added], [in_stock] and
    [has_sleeper]. *)
Definition kivik_body : list IkeaSofa.attr :=
  [IkeaSofa.a_inherited (IkeaFurniture.a_name "KIVIK");
   IkeaSofa.a_inherited (IkeaFurniture.a_price 500%float);
   IkeaSofa.a_inherited (IkeaFurniture.a_color "Gray");
   IkeaSofa.a_inherited (IkeaFurniture.a_material "Leather");
   IkeaSofa.a_inherited (IkeaFurniture.a_weight_kg 45.5%float);
   IkeaSofa.a_seats 3;
   IkeaSofa.a_fabric_type "Velvet"].

(** ** Primary keys *)

(** A table whose rows all have a primary key, no two the same. *)
Definition keyed {A : Type} `{Model A} (t : list A) : Prop :=
  Forall (fun r => pk r <> None) t /\ NoDup (map pk t).

Definition db_keyed (db : DB) : Prop :=
  keyed (ikeasofa db) /\ keyed (ikeadiningtable db) /\
  keyed (ikeamatress db) /\ keyed (shoppingcart db) /\ keyed (cartitem db).

(** A table of the database whose rows are keyed when the database is,
    and that can be replaced by any keyed table. *)
Definition keyed_table {A : Type} `{Model A} (T : table A) : Prop :=
  (forall db, db_keyed db -> keyed (rows T db)) /\
  (forall t db, db_keyed db -> keyed t -> db_keyed (set_rows T t db)).

(** ** Create, read, delete *)

(** What a create handler [create_] of a table [T] does with a new object
    that has no id yet and whose columns are in the range of the store,
    in terms of the read handler [read_]: the id [i] it assigns was free,
    the object is returned with that id and nothing else changed, it is
    read back under [i], and reading any other id gives what it gave
    before. *)
Definition creates {A : Type} `{Model A} `{Storable A} (T : table A)
  (create_ : A -> M DB A) (read_ : Z -> M DB A) : Prop :=
  forall db r,
    pk r = None ->
    storable r = true ->
    exists db' i,
      session_get (rows T db) i = None /\
      create_ r db = (db', Ok (with_pk i r)) /\
      read_ i db' = (db', Ok (with_pk i r)) /\
      forall j, j <> i -> snd (read_ j db') = snd (read_ j db).

(** What a delete handler [delete_] of a catalog table [T] does for an id
    in the range of the store, in terms of the read handler [read_] and
    its Not-Found detail: on an id in use it returns, the id is then not
    found, any other id reads as before, and the carts and their items
    are as they were; on an id not in use it signals Not-Found and
    changes nothing. *)
Definition deletes {A : Type} `{Model A} (T : table A)
  (delete_ : Z -> M DB dict) (read_ : Z -> M DB A) (detail : string)
  : Prop :=
  forall db i,
    int64 i = true ->
    match session_get (rows T db) i with
    | Some _ =>
        exists db' msg,
          delete_ i db = (db', Ok msg) /\
          read_ i db' = (db', Raise (HTTPException 404 detail)) /\
          (forall j, j <> i -> snd (read_ j db') = snd (read_ j db)) /\
          shoppingcart db' = shoppingcart db /\
          cartitem db' = cartitem db
    | None => delete_ i db = (db, Raise (HTTPException 404 detail))
    end.

(** Creating an object without an id and deleting what was created
    gives back the database one started from. *)
Definition create_then_delete_restores {A : Type} `{Model A}
  (create_ : A -> M DB A) (delete_ : Z -> M DB dict) : Prop :=
  forall db r db1 r1 i,
    pk r = None ->
    create_ r db = (db1, Ok r1) ->
    pk r1 = Some i ->
    exists msg, delete_ i db1 = (db, Ok msg).

(** ** Changing and removing line items *)

(** The line item a call on [cart_id] and [item_id] acts on: the cart must
    exist, the item must exist and belong to the cart; otherwise the
    Not-Found exception the call raises. *)
Definition owned_item (db : DB) (cart_id item_id : Z) : result CartItem.t :=
  match session_get (shoppingcart db) cart_id with
  | None => Raise (HTTPException 404 "Shopping cart not found")
  | Some _ =>
      match session_get (cartitem db) item_id with
      | None => Raise (HTTPException 404 "Cart item not found")
      | Some item =>
          if CartItem.cart_id item =? cart_id then Ok item
          else Raise (HTTPException 404 "Cart item not found")
      end
  end.

(** The table of line items with the row of id [i] replaced by [item],
    and with the row of id [i] taken out. *)
Definition replace_item (i : Z) (item : CartItem.t) (db : DB) : DB :=
  set_rows cart_items
    (map (fun x => if has_pk i x then item else x) (cartitem db)) db.

Definition without_item (i : Z) (db : DB) : DB :=
  set_rows cart_items (filter (fun x => negb (has_pk i x)) (cartitem db)) db.

(** The int a total of quantities comes to. *)
Definition total_quantity_of (db : DB) (cart_id : Z) : Z :=
  int_sum (map CartItem.quantity (line_items db cart_id)).

(** ** Ownership *)

(** Every line item belongs to a cart that exists. *)
Definition no_orphans (db : DB) : Prop :=
  Forall
    (fun item =>
       session_get (shoppingcart db) (CartItem.cart_id item) <> None)
    (cartitem db).

(** ** Reads and failures *)

(** A computation that never changes the database. *)
Definition read_only {A : Type} (m : M DB A) : Prop :=
  keeps (fun db => db) m.

(** A computation that leaves the database as it was whenever it
    raises. *)
Definition atomic {A : Type} (m : M DB A) : Prop :=
  forall db e, snd (m db) = Raise e -> fst (m db) = db.

(** ** Summaries, customers, pages *)

(** The entry of a line item in the summary of its cart. *)
Definition item_detail_of (item : CartItem.t) : dict :=
  [("type", PyStr (CartItem.furniture_type item));
   ("name",
    dict_get (json_loads (CartItem.furniture_data item)) "name"
      (PyStr "Unknown"));
   ("price", PyFloat (arg 0%float (snapshot_price item)));
   ("quantity", PyInt (CartItem.quantity item));
   ("subtotal", PyFloat (subtotal item))].

(** The column of a summary's item list under [key], summed. *)
Definition column_sum (key : string) (l : list dict) : result pyval :=
  py_sum (map (fun d => Ok (dict_get d key PyNone)) l).

(** The cart [update_cart] writes over [old] for the payload [data]. *)
Definition updated_cart (old : ShoppingCart.t) (data : ShoppingCart.body)
  : ShoppingCart.t :=
  ShoppingCart.Build (ShoppingCart.id old) (ShoppingCart.created_date old)
    (match ShoppingCart.body_customer_name data with
     | Some name => name
     | None => ShoppingCart.customer_name old
     end)
    (match ShoppingCart.body_customer_email data with
     | Some email => Some email
     | None => ShoppingCart.customer_email old
     end).

(** A listing, as a function of [skip] and [limit] alone, cuts its pages
    out of one list, for every [skip] and [limit] in the range of the
    store: a default page has at most 100 rows and a page of limit
    [n >= 0] at most [n]; two consecutive pages make up the page of both;
    a page that starts past the last row is empty. *)
Definition paged {A : Type} (list_ : option Z -> option Z -> M DB (list A))
  : Prop :=
  forall db,
    exists all : list A,
      (forall skip limit_,
         page_in_range skip limit_ = true ->
         list_ skip limit_ db = (db, Ok (page skip limit_ all))) /\
      (forall skip, (List.length (page skip None all) <= 100)%nat) /\
      (forall skip n,
         0 <= n -> (List.length (page skip (Some n) all) <= Z.to_nat n)%nat) /\
      (forall s n m,
         0 <= s -> 0 <= n -> 0 <= m ->
         page (Some s) (Some n) all ++ page (Some (s + n)) (Some m) all =
         page (Some s) (Some (n + m)) all) /\
      (forall s limit_,
         Z.of_nat (List.length all) <= s -> page (Some s) limit_ all = []) /\
      (forall n, Z.of_nat (List.length all) <= n -> page None (Some n) all = all).

(** ** The sample cart *)

(** How many rows the sample cart takes from the catalog. *)
Definition sample_size (db : DB) : nat :=
  (Nat.min 2 (List.length (ikeasofa db)) +
   Nat.min 1 (List.length (ikeadiningtable db)) +
   Nat.min 3 (List.length (ikeamatress db)))%nat.

(** ** The search of carts by customer name *)

(** Two strings of the same length whose characters are the same up to
    the case of ASCII letters. *)
Fixpoint same_letters (s t : string) : bool :=
  match s, t with
  | EmptyString, EmptyString => true
  | String a s', String b t' => like_char a b && same_letters s' t'
  | _, _ => false
  end.

(** ** The sample cart *)

(** The records [create_sample_cart] selects, in the order it adds them. *)
Definition sample_rows (db : DB) : list furniture :=
  map Sofa (firstn 2 (ikeasofa db)) ++
  map DiningTable (firstn 1 (ikeadiningtable db)) ++
  map Matress (firstn 3 (ikeamatress db)).

(** A line item of quantity 1 for the record [f]: its tag, its id and its
    snapshot. *)
Definition one_of (f : furniture) (item : CartItem.t) : Prop :=
  furniture_type_map f = Some (CartItem.furniture_type item) /\
  furniture_id f = Ok (Some (CartItem.furniture_id item)) /\
  CartItem.quantity item = 1 /\
  CartItem.furniture_data item = JSON (snapshot_of f).

(** ** Line items and their keys *)

(** The key of [y] is the key of [x]. *)
Definition same_key (y x : CartItem.t) : bool :=
  match CartItem.id y with
  | Some i => has_pk i x
  | None => false
  end.

(** ** The kinds of failure *)



(** A body for [update_cart] that gives an email and no name. *)
Definition email_only : ShoppingCart.body :=
  ShoppingCart.Body None (Date 2026 11 4) None (Some "john@example.com").

(** Two carts with line items: John's of [shop_with_items_db] and Mary's
    with one mattress. *)
Definition mary : ShoppingCart.t :=
  ShoppingCart.new (Date 2026 11 4) "Mary Major" (Some "mary@example.com").

Definition two_carts_db : DB :=
  steps [Create_cart mary; Add_item_to_cart 2 "matress" 1 None]
    shop_with_items_db.

(** ** Creation under a given id *)

(** What the create handler [create_] of a table [T] does with an object
    that comes with the id [i], the id and the other columns in the range
    of the store: the store refuses it when the id is in use, and nothing
    is written; otherwise the object is stored under [i] as it is,
    returned, read back, and every other id reads as before. *)
Definition creates_at {A : Type} `{Model A} `{Storable A} (T : table A)
  (create_ : A -> M DB A) (read_ : Z -> M DB A) : Prop :=
  forall db r i,
    pk r = Some i ->
    storable r = true ->
    match session_get (rows T db) i with
    | Some _ => create_ r db = (db, Raise IntegrityError)
    | None =>
        exists db',
          create_ r db = (db', Ok r) /\
          read_ i db' = (db', Ok r) /\
          forall j, j <> i -> snd (read_ j db') = snd (read_ j db)
    end.

(* ================================================================== *)
(** * Properties of the storage engine *)
(* ================================================================== *)

Unset Implicit Arguments.

Section SessionFacts.
Context {A : Type} `{Model A}.

Lemma session_get_pk (t : list A) (i : Z) (r : A) :
  session_get t i = Some r -> pk r = Some i.
Proof.
  unfold session_get. intros Hf. apply find_some in Hf as [_ Hp].
  unfold has_pk in Hp. destruct (pk r) as [j|]; [|discriminate].
  apply Z.eqb_eq in Hp. now subst.
Qed.

Lemma session_get_In (t : list A) (i : Z) (r : A) :
  session_get t i = Some r -> In r t.
Proof. unfold session_get. intros Hf. now apply find_some in Hf. Qed.

Lemma has_pk_of_pk (i : Z) (r : A) : pk r = Some i -> has_pk i r = true.
Proof. unfold has_pk. intros ->. apply Z.eqb_refl. Qed.

Lemma has_pk_other (i j : Z) (r : A) :
  pk r = Some i -> i <> j -> has_pk j r = false.
Proof. unfold has_pk. intros -> Hij. now apply Z.eqb_neq. Qed.

Lemma In_insert_row (i : Z) (r x : A) (t : list A) :
  In x (insert_row i r t) <-> x = r \/ In x t.
Proof.
  induction t as [|y t IH]; simpl.
  - intuition congruence.
  - destruct (pk y) as [j|]; [destruct (i <? j)|]; simpl; rewrite ?IH;
      intuition congruence.
Qed.

Lemma Forall_insert_row (P : A -> Prop) (i : Z) (r : A) (t : list A) :
  P r -> Forall P t -> Forall P (insert_row i r t).
Proof.
  intros Hr Ht. apply Forall_forall. intros x Hx.
  apply In_insert_row in Hx as [->|Hx]; [assumption|].
  now apply (proj1 (Forall_forall P t) Ht).
Qed.

Lemma length_insert_row (i : Z) (r : A) (t : list A) :
  List.length (insert_row i r t) = S (List.length t).
Proof.
  induction t as [|y t IH]; simpl; [reflexivity|].
  destruct (pk y) as [j|]; [destruct (i <? j)|]; simpl; now rewrite ?IH.
Qed.

Lemma session_get_insert_row_new (i : Z) (r : A) (t : list A) :
  pk r = Some i -> existsb (has_pk i) t = false ->
  session_get (insert_row i r t) i = Some r.
Proof.
  intros Hr. unfold session_get.
  induction t as [|y t IH]; simpl; intros Hn.
  - now rewrite (has_pk_of_pk _ _ Hr).
  - apply orb_false_iff in Hn as [Hy Ht].
    destruct (pk y) as [j|] eqn:Hpy; [destruct (i <? j)|]; simpl;
      rewrite ?Hy, ?(has_pk_of_pk _ _ Hr); auto.
Qed.

Lemma session_get_insert_row_other (i j : Z) (r : A) (t : list A) :
  pk r = Some i -> i <> j ->
  session_get (insert_row i r t) j = session_get t j.
Proof.
  intros Hr Hij. unfold session_get.
  induction t as [|y t IH]; simpl.
  - now rewrite (has_pk_other _ _ _ Hr Hij).
  - destruct (pk y) as [k|] eqn:Hpy; [destruct (i <? k)|]; simpl;
      rewrite ?(has_pk_other _ _ _ Hr Hij); try reflexivity;
      destruct (has_pk j y); auto.
Qed.

Lemma fold_max_le (l : list Z) (i : Z) :
  i <= fold_left Z.max l i /\
  forall x, In x l -> x <= fold_left Z.max l i.
Proof.
  revert i. induction l as [|y l IH]; simpl; intros i.
  - split; [lia | tauto].
  - destruct (IH (Z.max i y)) as [H1 H2]. split; [lia|].
    intros x [->|Hx]; [lia | auto].
Qed.

Lemma rowids_In (t : list A) (r : A) (i : Z) :
  In r t -> pk r = Some i -> In i (rowids t).
Proof.
  intros Hin Hp. unfold rowids. apply in_flat_map. exists r.
  rewrite Hp. simpl. auto.
Qed.

Lemma next_rowid_above (t : list A) (r : A) (i : Z) :
  In r t -> pk r = Some i -> i < next_rowid t.
Proof.
  intros Hin Hp. pose proof (rowids_In t r i Hin Hp) as Hi.
  unfold next_rowid. destruct (rowids t) as [|j l]; [contradiction|].
  destruct (fold_max_le l j) as [H1 H2].
  destruct Hi as [->|Hi]; [lia|]. specialize (H2 _ Hi). lia.
Qed.

Lemma next_rowid_fresh (t : list A) :
  existsb (has_pk (next_rowid t)) t = false.
Proof.
  destruct (existsb (has_pk (next_rowid t)) t) eqn:He; [|reflexivity].
  apply existsb_exists in He as (r & Hin & Hp). unfold has_pk in Hp.
  destruct (pk r) as [j|] eqn:Hpr; [|discriminate].
  apply Z.eqb_eq in Hp. pose proof (next_rowid_above t r j Hin Hpr). lia.
Qed.

Lemma session_get_deleted (t : list A) (i : Z) :
  session_get (filter (fun x => negb (has_pk i x)) t) i = None.
Proof.
  unfold session_get. induction t as [|y t IH]; simpl; [reflexivity|].
  destruct (has_pk i y) eqn:Hy; simpl; [assumption|]. now rewrite Hy.
Qed.

Lemma session_get_replaced (t : list A) (i : Z) (old r : A) :
  session_get t i = Some old -> pk r = Some i ->
  session_get (map (fun x => if has_pk i x then r else x) t) i = Some r.
Proof.
  unfold session_get. intros Hold Hr.
  induction t as [|y t IH]; simpl in *; [discriminate|].
  destruct (has_pk i y) eqn:Hy.
  - now rewrite (has_pk_of_pk _ _ Hr).
  - rewrite Hy. auto.
Qed.

Lemma exec_where_select (p : A -> bool) (t : list A) :
  exec (where_ p select) t = filter p t.
Proof.
  unfold exec, where_, select. simpl. apply filter_ext.
  intros r. apply andb_true_r.
Qed.

End SessionFacts.

(* ================================================================== *)
(** * Catalog listings *)
(* ================================================================== *)

Lemma In_firstn {A : Type} (n : nat) (l : list A) (x : A) :
  In x (firstn n l) -> In x l.
Proof.
  revert l. induction n as [|n IH]; intros [|y l]; simpl; try tauto.
  intros [->|Hx]; auto.
Qed.

Lemma In_skipn {A : Type} (n : nat) (l : list A) (x : A) :
  In x (skipn n l) -> In x l.
Proof.
  revert l. induction n as [|n IH]; intros [|y l]; simpl; try tauto.
  intros Hx. right. auto.
Qed.

Lemma In_page {A : Type} (skip limit_ : option Z) (l : list A) (x : A) :
  In x (page skip limit_ l) -> In x l.
Proof.
  unfold page, apply_limit, apply_offset. intros Hx.
  destruct (arg 100 limit_ <? 0).
  - now apply In_skipn in Hx.
  - apply In_firstn in Hx. now apply In_skipn in Hx.
Qed.

(** The rows a query returns are cut out of the rows that pass its WHERE
    clauses, so two queries with the same clauses, up to the order of
    evaluation, return the same rows. *)
Lemma exec_ext {A : Type} (ps : list (A -> bool)) (p : A -> bool)
  (o l : option Z) (t : list A) :
  (forall r, forallb (fun q => q r) ps = p r) ->
  exec (Query ps o l) t = apply_limit l (apply_offset o (filter p t)).
Proof.
  intros Hp. unfold exec. simpl. f_equal. f_equal. now apply filter_ext.
Qed.

Ltac listing :=
  intros; unfold exec_all, gets, limit, offset, where_, select;
  cbn [q_where q_offset q_limit app arg rows sofas dining_tables matresses];
  do 2 f_equal; unfold page; apply exec_ext; intros r; simpl;
  rewrite ?andb_true_r, ?andb_assoc; reflexivity.

Lemma read_sofas_spec db skip limit_ material min_price max_price hs :
  read_sofas skip limit_ material min_price max_price hs db =
  (db,
   Ok (page skip limit_
         (filter (sofa_matches (nonempty material) min_price max_price hs)
            (ikeasofa db)))).
Proof.
  unfold read_sofas, sofa_matches, nonempty.
  destruct (truthy material) eqn:Hm;
    [destruct material as [m|]; [|discriminate]|];
    destruct min_price, max_price, hs; listing.
Qed.

Lemma read_dining_tables_spec db skip limit_ material min_price max_price
  shape extendable :
  read_dining_tables skip limit_ material min_price max_price shape
    extendable db =
  (db,
   Ok (page skip limit_
         (filter
            (dining_table_matches (nonempty material) min_price max_price
               (nonempty shape) extendable)
            (ikeadiningtable db)))).
Proof.
  unfold read_dining_tables, dining_table_matches, nonempty.
  destruct (truthy material) eqn:Hm;
    [destruct material as [m|]; [|discriminate]|];
    (destruct (truthy shape) eqn:Hs;
     [destruct shape as [s|]; [|discriminate]|]);
    destruct min_price, max_price, extendable; listing.
Qed.

Lemma read_mattresses_spec db skip limit_ material min_price max_price
  size firmness :
  read_mattresses skip limit_ material min_price max_price size firmness db =
  (db,
   Ok (page skip limit_
         (filter
            (mattress_matches (nonempty material) min_price max_price
               (nonempty size) (nonempty firmness))
            (ikeamatress db)))).
Proof.
  unfold read_mattresses, mattress_matches, nonempty.
  destruct (truthy material) eqn:Hm;
    [destruct material as [m|]; [|discriminate]|];
    (destruct (truthy size) eqn:Hs;
     [destruct size as [s|]; [|discriminate]|]);
    (destruct (truthy firmness) eqn:Hf;
     [destruct firmness as [f|]; [|discriminate]|]);
    destruct min_price, max_price; listing.
Qed.

Lemma listing_of_one_sofa_with_empty_material :
  read_sofas None None (Some "") None None None one_sofa_db =
  (one_sofa_db, Ok [leather_sofa]).
Proof. reflexivity. Qed.

(** C6, as stated: with the material filter supplied as the empty string,
    the listing of a database holding one leather sofa returns that sofa,
    which does not have the supplied material; so the listing is not the
    rows that satisfy every supplied filter. *)
Theorem supplied_empty_material_is_not_applied :
  ~ sofas_filtered_by_every_supplied_filter.
Proof.
  intros Hclaim.
  specialize (Hclaim one_sofa_db None None (Some "") None None None eq_refl).
  rewrite listing_of_one_sofa_with_empty_material in Hclaim.
  vm_compute in Hclaim. discriminate Hclaim.
Qed.

(** C6, amended: for [skip] and [limit] in the range of the store, a
    listing returns, in table order, the [skip]/[limit] window of exactly
    the rows that satisfy every supplied filter, where a text filter
    (material, shape, size, firmness) supplied as the empty string counts
    as left out, and a filter left out constrains nothing. *)
Theorem listing_filters_are_conjunctive :
  (forall db skip limit_ material min_price max_price has_sleeper,
     page_in_range skip limit_ = true ->
     read_sofas skip limit_ material min_price max_price has_sleeper db =
     (db,
      Ok (page skip limit_
            (filter
               (fun s =>
                  holds (nonempty material)
                    (String.eqb (IkeaFurniture.material (IkeaSofa.base s))) &&
                  holds min_price
                    (fun lo =>
                       PrimFloat.leb lo
                         (IkeaFurniture.price (IkeaSofa.base s))) &&
                  holds max_price
                    (fun hi =>
                       PrimFloat.leb (IkeaFurniture.price (IkeaSofa.base s))
                         hi) &&
                  holds has_sleeper (Bool.eqb (IkeaSofa.has_sleeper s)))
               (ikeasofa db))))) /\
  (forall db skip limit_ material min_price max_price shape extendable,
     page_in_range skip limit_ = true ->
     read_dining_tables skip limit_ material min_price max_price shape
       extendable db =
     (db,
      Ok (page skip limit_
            (filter
               (dining_table_matches (nonempty material) min_price max_price
                  (nonempty shape) extendable)
               (ikeadiningtable db))))) /\
  (forall db skip limit_ material min_price max_price size firmness,
     page_in_range skip limit_ = true ->
     read_mattresses skip limit_ material min_price max_price size firmness
       db =
     (db,
      Ok (page skip limit_
            (filter
               (mattress_matches (nonempty material) min_price max_price
                  (nonempty size) (nonempty firmness))
               (ikeamatress db))))).
Proof.
  split; [|split].
  - intros. apply read_sofas_spec.
  - intros. apply read_dining_tables_spec.
  - intros. apply read_mattresses_spec.
Qed.

Lemma listing_filters_are_conjunctive_witness :
  read_sofas None None (Some "Leather") (Some 100%float) None None
    one_sofa_db = (one_sofa_db, Ok [leather_sofa]) /\
  read_sofas None None (Some "Leather") (Some 600%float) None None
    one_sofa_db = (one_sofa_db, Ok []).
Proof.
  split;
    rewrite (proj1 listing_filters_are_conjunctive) by reflexivity;
    reflexivity.
Defined.

Ltac bound_applied :=
  intros;
  rewrite ?read_sofas_spec, ?read_dining_tables_spec, ?read_mattresses_spec;
  do 3 f_equal; apply filter_ext; intros r;
  unfold sofa_matches, dining_table_matches, mattress_matches;
  cbn [holds]; btauto.

(** C10: in each of the three listings a material supplied as the empty
    string gives the result of leaving the material out, whereas a
    [min_price] or [max_price] of 0.0 is applied: for [skip] and [limit]
    in the range of the store the listing is the window of the rows that
    have a price at least, respectively at most, 0.0 and pass the other
    filters; on a database with a sofa priced below (above) zero the
    result differs from the one without the filter. *)
Theorem empty_material_is_no_filter_but_zero_price_is :
  (forall db skip limit_ min_price max_price has_sleeper,
     read_sofas skip limit_ (Some "") min_price max_price has_sleeper db =
     read_sofas skip limit_ None min_price max_price has_sleeper db) /\
  (forall db skip limit_ min_price max_price shape extendable,
     read_dining_tables skip limit_ (Some "") min_price max_price shape
       extendable db =
     read_dining_tables skip limit_ None min_price max_price shape
       extendable db) /\
  (forall db skip limit_ min_price max_price size firmness,
     read_mattresses skip limit_ (Some "") min_price max_price size firmness
       db =
     read_mattresses skip limit_ None min_price max_price size firmness db) /\
  (forall db skip limit_ material max_price has_sleeper,
     page_in_range skip limit_ = true ->
     read_sofas skip limit_ material (Some 0%float) max_price has_sleeper db =
     (db,
      Ok (page skip limit_
            (filter
               (fun s =>
                  PrimFloat.leb 0 (IkeaFurniture.price (IkeaSofa.base s)) &&
                  sofa_matches (nonempty material) None max_price has_sleeper
                    s)
               (ikeasofa db))))) /\
  (forall db skip limit_ material min_price has_sleeper,
     page_in_range skip limit_ = true ->
     read_sofas skip limit_ material min_price (Some 0%float) has_sleeper db =
     (db,
      Ok (page skip limit_
            (filter
               (fun s =>
                  PrimFloat.leb (IkeaFurniture.price (IkeaSofa.base s)) 0 &&
                  sofa_matches (nonempty material) min_price None has_sleeper
                    s)
               (ikeasofa db))))) /\
  (forall db skip limit_ material max_price shape extendable,
     page_in_range skip limit_ = true ->
     read_dining_tables skip limit_ material (Some 0%float) max_price shape
       extendable db =
     (db,
      Ok (page skip limit_
            (filter
               (fun t =>
                  PrimFloat.leb 0
                    (IkeaFurniture.price (IkeaDiningTable.base t)) &&
                  dining_table_matches (nonempty material) None max_price
                    (nonempty shape) extendable t)
               (ikeadiningtable db))))) /\
  (forall db skip limit_ material min_price shape extendable,
     page_in_range skip limit_ = true ->
     read_dining_tables skip limit_ material min_price (Some 0%float) shape
       extendable db =
     (db,
      Ok (page skip limit_
            (filter
               (fun t =>
                  PrimFloat.leb
                    (IkeaFurniture.price (IkeaDiningTable.base t)) 0 &&
                  dining_table_matches (nonempty material) min_price None
                    (nonempty shape) extendable t)
               (ikeadiningtable db))))) /\
  (forall db skip limit_ material max_price size firmness,
     page_in_range skip limit_ = true ->
     read_mattresses skip limit_ material (Some 0%float) max_price size
       firmness db =
     (db,
      Ok (page skip limit_
            (filter
               (fun m =>
                  PrimFloat.leb 0 (IkeaFurniture.price (IkeaMatress.base m)) &&
                  mattress_matches (nonempty material) None max_price
                    (nonempty size) (nonempty firmness) m)
               (ikeamatress db))))) /\
  (forall db skip limit_ material min_price size firmness,
     page_in_range skip limit_ = true ->
     read_mattresses skip limit_ material min_price (Some 0%float) size
       firmness db =
     (db,
      Ok (page skip limit_
            (filter
               (fun m =>
                  PrimFloat.leb (IkeaFurniture.price (IkeaMatress.base m)) 0 &&
                  mattress_matches (nonempty material) min_price None
                    (nonempty size) (nonempty firmness) m)
               (ikeamatress db))))) /\
  read_sofas None None None (Some 0%float) None None refund_db =
    (refund_db, Ok []) /\
  read_sofas None None None None None None refund_db =
    (refund_db, Ok [refund_sofa]) /\
  read_sofas None None None None (Some 0%float) None one_sofa_db =
    (one_sofa_db, Ok []) /\
  read_sofas None None None None None None one_sofa_db =
    (one_sofa_db, Ok [leather_sofa]).
Proof.
  split; [intros; now rewrite !read_sofas_spec|].
  split; [intros; now rewrite !read_dining_tables_spec|].
  split; [intros; now rewrite !read_mattresses_spec|].
  split; [bound_applied|]. split; [bound_applied|].
  split; [bound_applied|]. split; [bound_applied|].
  split; [bound_applied|]. split; [bound_applied|].
  repeat split.
Qed.

(* ================================================================== *)
(** * Partial updates of catalog records *)
(* ================================================================== *)

Section FieldsFacts.
Context {A K V : Type} `{Fields A K V}.
Hypothesis key_eqb_eq : forall a b : K, key_eqb a b = true <-> a = b.
Hypothesis key_of_getattr : forall k (o : A), key_of (getattr k o) = k.
Hypothesis getattr_setattr :
  forall (v : V) (o : A), getattr (key_of v) (setattr v o) = v.
Hypothesis getattr_setattr_other :
  forall k (v : V) (o : A),
    k <> key_of v -> getattr k (setattr v o) = getattr k o.
Hypothesis all_keys_complete : forall k : K, In k all_keys.

Lemma key_mem_In (k : K) (l : list K) : key_mem k l = true <-> In k l.
Proof.
  unfold key_mem. rewrite existsb_exists. split.
  - intros (x & Hx & He). apply key_eqb_eq in He. now subst.
  - intros Hk. exists k. split; [assumption | now apply key_eqb_eq].
Qed.

Lemma getattr_setattr_all (src : A) (k : K) (ks : list K) (o : A) :
  getattr k (setattr_all (map (fun k' => getattr k' src) ks) o) =
  if key_mem k ks then getattr k src else getattr k o.
Proof.
  revert o. induction ks as [|k' ks IH]; intros o; simpl; [reflexivity|].
  unfold setattr_all in *. simpl. rewrite IH.
  fold (key_mem k ks). destruct (key_mem k ks); simpl.
  - now rewrite orb_true_r.
  - rewrite orb_false_r. destruct (key_eqb k k') eqn:Hk.
    + apply key_eqb_eq in Hk. subst k'.
      rewrite <- (key_of_getattr k src) at 1. apply getattr_setattr.
    + apply getattr_setattr_other. rewrite key_of_getattr. intros ->.
      assert (key_eqb k' k' = true) by now apply key_eqb_eq. congruence.
Qed.

Lemma key_mem_filter (k : K) (l : list K) :
  key_mem k (filter (fun k' => key_mem k' l) all_keys) = key_mem k l.
Proof.
  destruct (key_mem k l) eqn:Hk.
  - apply key_mem_In. apply filter_In. auto.
  - destruct (key_mem k (filter (fun k' => key_mem k' l) all_keys)) eqn:Hf;
      [|reflexivity].
    apply key_mem_In in Hf. apply filter_In in Hf as [_ Hf]. congruence.
Qed.

Lemma getattr_setattr_all_untouched (k : K) (kwargs : list V) (o : A) :
  key_mem k (map key_of kwargs) = false ->
  getattr k (setattr_all kwargs o) = getattr k o.
Proof.
  revert o. induction kwargs as [|v kwargs IH]; intros o; [reflexivity|].
  unfold key_mem. simpl. intros Hk. apply orb_false_iff in Hk as [Hv Hk].
  unfold setattr_all in *. simpl. rewrite (IH _ Hk).
  apply getattr_setattr_other. intros ->.
  assert (key_eqb (key_of v) (key_of v) = true) by now apply key_eqb_eq.
  congruence.
Qed.

(** The loop of the update handlers. *)
Lemma setattr_all_patched (data : instance A K) (old : A) :
  patched data old (setattr_all (dict_exclude_unset data) old).
Proof.
  intros k. unfold dict_exclude_unset. rewrite getattr_setattr_all.
  now rewrite key_mem_filter.
Qed.

End FieldsFacts.

Lemma furniture_eqb_eq (a b : IkeaFurniture.key) : IkeaFurniture.eqb a b = true <-> a = b.
Proof. destruct a, b; simpl; split; congruence. Qed.

Lemma furniture_key_of_get k o : IkeaFurniture.key_of (IkeaFurniture.get k o) = k.
Proof. now destruct k. Qed.

Lemma furniture_get_set v o :
  IkeaFurniture.get (IkeaFurniture.key_of v) (IkeaFurniture.set v o) = v.
Proof. now destruct v. Qed.

Lemma furniture_get_set_other k v o :
  k <> IkeaFurniture.key_of v ->
  IkeaFurniture.get k (IkeaFurniture.set v o) = IkeaFurniture.get k o.
Proof. destruct k, v; simpl; congruence. Qed.

Lemma furniture_keys_complete k : In k IkeaFurniture.keys.
Proof. destruct k; simpl; tauto. Qed.

Ltac inherited_key :=
  match goal with
  | |- context [IkeaFurniture.eqb ?x ?y] =>
      rewrite furniture_eqb_eq; split; congruence
  | |- In _ (map _ IkeaFurniture.keys ++ _) =>
      apply in_or_app; left; apply in_map;
      apply furniture_keys_complete
  | |- _ => simpl; rewrite ?furniture_key_of_get,
              ?furniture_get_set; reflexivity
  end.

Lemma sofa_eqb_eq (a b : IkeaSofa.key) : IkeaSofa.eqb a b = true <-> a = b.
Proof.
  destruct a, b; simpl; try (split; congruence). inherited_key.
Qed.

Lemma sofa_key_of_get k o : IkeaSofa.key_of (IkeaSofa.get k o) = k.
Proof. destruct k; inherited_key. Qed.

Lemma sofa_get_set v o : IkeaSofa.get (IkeaSofa.key_of v) (IkeaSofa.set v o) = v.
Proof. destruct v; inherited_key. Qed.

Lemma sofa_get_set_other k v o :
  k <> IkeaSofa.key_of v -> IkeaSofa.get k (IkeaSofa.set v o) = IkeaSofa.get k o.
Proof.
  destruct k, v; simpl; try congruence. intros Hk. f_equal.
  apply furniture_get_set_other. congruence.
Qed.

Lemma sofa_keys_complete k : In k IkeaSofa.keys.
Proof.
  unfold IkeaSofa.keys.
  destruct k; try inherited_key; apply in_or_app; right; simpl; tauto.
Qed.

Lemma dining_table_eqb_eq (a b : IkeaDiningTable.key) :
  IkeaDiningTable.eqb a b = true <-> a = b.
Proof.
  destruct a, b; simpl; try (split; congruence). inherited_key.
Qed.

Lemma dining_table_key_of_get k o : IkeaDiningTable.key_of (IkeaDiningTable.get k o) = k.
Proof. destruct k; inherited_key. Qed.

Lemma dining_table_get_set v o :
  IkeaDiningTable.get (IkeaDiningTable.key_of v) (IkeaDiningTable.set v o) = v.
Proof. destruct v; inherited_key. Qed.

Lemma dining_table_get_set_other k v o :
  k <> IkeaDiningTable.key_of v ->
  IkeaDiningTable.get k (IkeaDiningTable.set v o) = IkeaDiningTable.get k o.
Proof.
  destruct k, v; simpl; try congruence. intros Hk. f_equal.
  apply furniture_get_set_other. congruence.
Qed.

Lemma dining_table_keys_complete k : In k IkeaDiningTable.keys.
Proof.
  unfold IkeaDiningTable.keys.
  destruct k; try inherited_key; apply in_or_app; right; simpl; tauto.
Qed.

Lemma mattress_eqb_eq (a b : IkeaMatress.key) : IkeaMatress.eqb a b = true <-> a = b.
Proof.
  destruct a, b; simpl; try (split; congruence). inherited_key.
Qed.

Lemma mattress_key_of_get k o : IkeaMatress.key_of (IkeaMatress.get k o) = k.
Proof. destruct k; inherited_key. Qed.

Lemma mattress_get_set v o :
  IkeaMatress.get (IkeaMatress.key_of v) (IkeaMatress.set v o) = v.
Proof. destruct v; inherited_key. Qed.

Lemma mattress_get_set_other k v o :
  k <> IkeaMatress.key_of v ->
  IkeaMatress.get k (IkeaMatress.set v o) = IkeaMatress.get k o.
Proof.
  destruct k, v; simpl; try congruence. intros Hk. f_equal.
  apply furniture_get_set_other. congruence.
Qed.

Lemma mattress_keys_complete k : In k IkeaMatress.keys.
Proof.
  unfold IkeaMatress.keys.
  destruct k; try inherited_key; apply in_or_app; right; simpl; tauto.
Qed.

Lemma sofa_patched (data : instance IkeaSofa.t _) old :
  patched data old (setattr_all (dict_exclude_unset data) old).
Proof.
  apply setattr_all_patched.
  - apply sofa_eqb_eq.
  - apply sofa_key_of_get.
  - apply sofa_get_set.
  - apply sofa_get_set_other.
  - apply sofa_keys_complete.
Qed.

Lemma dining_table_patched (data : instance IkeaDiningTable.t _) old :
  patched data old (setattr_all (dict_exclude_unset data) old).
Proof.
  apply setattr_all_patched.
  - apply dining_table_eqb_eq.
  - apply dining_table_key_of_get.
  - apply dining_table_get_set.
  - apply dining_table_get_set_other.
  - apply dining_table_keys_complete.
Qed.

Lemma mattress_patched (data : instance IkeaMatress.t _) old :
  patched data old (setattr_all (dict_exclude_unset data) old).
Proof.
  apply setattr_all_patched.
  - apply mattress_eqb_eq.
  - apply mattress_key_of_get.
  - apply mattress_get_set.
  - apply mattress_get_set_other.
  - apply mattress_keys_complete.
Qed.

Section CommitFacts.
Context {A : Type} `{Model A} (T : table A).
Hypothesis rows_set_rows : forall t db, rows T (set_rows T t db) = t.

Lemma existsb_filter_false (p q : A -> bool) (t : list A) :
  existsb p t = false -> existsb p (filter q t) = false.
Proof.
  induction t as [|x t IH]; simpl; [reflexivity|]. intros Hp.
  apply orb_false_iff in Hp as [Hx Ht].
  destruct (q x); simpl; rewrite ?Hx; auto.
Qed.

Lemma commit_refresh_stored db i old new db' r :
  session_get (rows T db) i = Some old ->
  commit_refresh T i new db = (db', Ok r) ->
  r = new /\ exists j, pk new = Some j /\ session_get (rows T db') j = Some new.
Proof.
  intros Hold. unfold commit_refresh, on_table, update.
  destruct (pk new) as [j|] eqn:Hnew; [|discriminate].
  destruct (j =? i) eqn:Hji.
  - apply Z.eqb_eq in Hji. subst j. intros [= <- <-]. split; [reflexivity|].
    exists i. split; [reflexivity|]. rewrite rows_set_rows.
    now apply session_get_replaced with (old := old).
  - destruct (existsb (has_pk j) (rows T db)) eqn:He; [discriminate|].
    intros [= <- <-]. split; [reflexivity|].
    exists j. split; [reflexivity|]. rewrite rows_set_rows.
    apply session_get_insert_row_new; [assumption|].
    now apply existsb_filter_false.
Qed.

Lemma commit_refresh_same db i new :
  pk new = Some i ->
  commit_refresh T i new db =
  (set_rows T (map (fun x => if has_pk i x then new else x) (rows T db)) db,
   Ok new).
Proof.
  intros Hnew. unfold commit_refresh, on_table, update.
  now rewrite Hnew, Z.eqb_refl.
Qed.

End CommitFacts.

Ltac run_gets :=
  unfold bind, get, gets;
  cbn [rows sofas dining_tables matresses carts cart_items].

Ltac run_get H := run_gets; rewrite ?H.

Ltac run_get_in H Hrun :=
  unfold bind, get, gets in Hrun;
  cbn [rows sofas dining_tables matresses carts cart_items] in Hrun;
  rewrite ?H in Hrun.

Ltac table_rows :=
  cbn [rows sofas dining_tables matresses carts cart_items] in *.

Lemma update_sofa_partial :
  partial_update sofas IkeaSofa.k_id update_sofa read_sofa.
Proof.
  intros db i data old _ _ Hold. table_rows.
  pose proof (sofa_patched data old) as Hp. split.
  - intros db' new Hrun. unfold update_sofa in Hrun. run_get_in Hold Hrun.
    apply commit_refresh_stored with (old := old) in Hrun
      as (-> & j & Hj & Hs); [|reflexivity|exact Hold].
    table_rows. split; [exact Hp|]. exists j. split; [exact Hj|].
    unfold read_sofa. run_get Hs. reflexivity.
  - intros Hid. unfold update_sofa. run_get Hold.
    rewrite commit_refresh_same; [eauto|].
    specialize (Hp IkeaSofa.k_id). rewrite Hid in Hp.
    cbn [getattr IkeaSofa_Fields IkeaSofa.get] in Hp. injection Hp as Hp.
    cbn [pk IkeaSofa_Model]. rewrite Hp. exact (session_get_pk _ _ _ Hold).
Qed.

Lemma update_dining_table_partial :
  partial_update dining_tables IkeaDiningTable.k_id update_dining_table
    read_dining_table.
Proof.
  intros db i data old _ _ Hold. table_rows.
  pose proof (dining_table_patched data old) as Hp. split.
  - intros db' new Hrun. unfold update_dining_table in Hrun.
    run_get_in Hold Hrun.
    apply commit_refresh_stored with (old := old) in Hrun
      as (-> & j & Hj & Hs); [|reflexivity|exact Hold].
    table_rows. split; [exact Hp|]. exists j. split; [exact Hj|].
    unfold read_dining_table. run_get Hs. reflexivity.
  - intros Hid. unfold update_dining_table. run_get Hold.
    rewrite commit_refresh_same; [eauto|].
    specialize (Hp IkeaDiningTable.k_id). rewrite Hid in Hp.
    cbn [getattr IkeaDiningTable_Fields IkeaDiningTable.get] in Hp. injection Hp as Hp.
    cbn [pk IkeaDiningTable_Model]. rewrite Hp. exact (session_get_pk _ _ _ Hold).
Qed.

Lemma update_mattress_partial :
  partial_update matresses IkeaMatress.k_id update_mattress read_mattress.
Proof.
  intros db i data old _ _ Hold. table_rows.
  pose proof (mattress_patched data old) as Hp. split.
  - intros db' new Hrun. unfold update_mattress in Hrun.
    run_get_in Hold Hrun.
    apply commit_refresh_stored with (old := old) in Hrun
      as (-> & j & Hj & Hs); [|reflexivity|exact Hold].
    table_rows. split; [exact Hp|]. exists j. split; [exact Hj|].
    unfold read_mattress. run_get Hs. reflexivity.
  - intros Hid. unfold update_mattress. run_get Hold.
    rewrite commit_refresh_same; [eauto|].
    specialize (Hp IkeaMatress.k_id). rewrite Hid in Hp.
    cbn [getattr IkeaMatress_Fields IkeaMatress.get] in Hp. injection Hp as Hp.
    cbn [pk IkeaMatress_Model]. rewrite Hp. exact (session_get_pk _ _ _ Hold).
Qed.

Lemma setattr_only_price (x : float) (old : IkeaSofa.t) :
  setattr_all (dict_exclude_unset (only_price x)) old =
  IkeaSofa.set (IkeaSofa.a_inherited (IkeaFurniture.a_price x)) old.
Proof. reflexivity. Qed.

Lemma update_only_price db i old x :
  session_get (ikeasofa db) i = Some old ->
  exists db',
    update_sofa i (only_price x) db =
    (db', Ok (IkeaSofa.set (IkeaSofa.a_inherited (IkeaFurniture.a_price x)) old)) /\
    read_sofa i db' =
    (db', Ok (IkeaSofa.set (IkeaSofa.a_inherited (IkeaFurniture.a_price x)) old)).
Proof.
  intros Hold. pose proof (session_get_pk _ _ _ Hold) as Hpk.
  unfold update_sofa. run_get Hold. rewrite setattr_only_price.
  rewrite commit_refresh_same by exact Hpk. eexists. split; [reflexivity|].
  unfold read_sofa. run_get Hold. cbn [set_rows sofas ikeasofa].
  erewrite session_get_replaced; [reflexivity|exact Hold|exact Hpk].
Qed.

(** C5: for each of the three catalog variants, with the id and the
    payload in the range of the store, updating an existing record with a
    partial payload returns and stores a record in which every field the
    payload sets has the payload's value and every other field keeps its
    prior value, and the update goes through whenever the payload leaves
    the id alone; in particular a payload that sets only the price
    changes only the price. *)
Theorem update_changes_exactly_the_given_fields :
  partial_update sofas IkeaSofa.k_id update_sofa read_sofa /\
  partial_update dining_tables IkeaDiningTable.k_id update_dining_table
    read_dining_table /\
  partial_update matresses IkeaMatress.k_id update_mattress read_mattress /\
  (forall db i old x,
     int64 i = true ->
     sql_real x = true ->
     session_get (ikeasofa db) i = Some old ->
     exists db',
       update_sofa i (only_price x) db =
       (db',
        Ok (IkeaSofa.set (IkeaSofa.a_inherited (IkeaFurniture.a_price x))
              old)) /\
       read_sofa i db' =
       (db',
        Ok (IkeaSofa.set (IkeaSofa.a_inherited (IkeaFurniture.a_price x))
              old))).
Proof.
  split; [exact update_sofa_partial|].
  split; [exact update_dining_table_partial|].
  split; [exact update_mattress_partial|].
  intros db i old x _ _. apply update_only_price.
Qed.

Lemma update_changes_exactly_the_given_fields_witness :
  exists db',
    update_sofa 1 (only_price 600%float) one_sofa_db =
    (db',
     Ok (IkeaSofa.set (IkeaSofa.a_inherited (IkeaFurniture.a_price 600%float))
           leather_sofa)) /\
    read_sofa 1 db' =
    (db',
     Ok (IkeaSofa.set (IkeaSofa.a_inherited (IkeaFurniture.a_price 600%float))
           leather_sofa)).
Proof.
  apply (proj2 (proj2 (proj2 update_changes_exactly_the_given_fields))
           one_sofa_db 1 leather_sofa 600%float); reflexivity.
Defined.

(* ================================================================== *)
(** * Adding an item to a cart *)
(* ================================================================== *)

Lemma refresh_loaded {A : Type} `{Model A} (T : table A) db i r :
  session_get (rows T db) i = Some r -> refresh T r db = (db, Ok r).
Proof.
  intros Hget. unfold refresh. rewrite (session_get_pk _ _ _ Hget).
  unfold bind, get, gets. now rewrite Hget.
Qed.

Lemma find_furniture_loaded tag db ft fid f :
  find_furniture tag db ft fid = Some f ->
  refresh_furniture f db = (db, Ok f) /\ furniture_id f = Ok (Some fid).
Proof.
  unfold find_furniture.
  destruct (String.eqb ft "sofa");
    [|destruct (String.eqb ft "dining_table");
      [|destruct (String.eqb ft tag); [|discriminate]]].
  - destruct (session_get (ikeasofa db) fid) as [s|] eqn:Hs; [|discriminate].
    intros [= <-]. simpl. unfold bind.
    rewrite (refresh_loaded sofas db fid s Hs). split; [reflexivity|].
    f_equal. exact (session_get_pk _ _ _ Hs).
  - destruct (session_get (ikeadiningtable db) fid) as [t|] eqn:Ht;
      [|discriminate].
    intros [= <-]. simpl. unfold bind.
    rewrite (refresh_loaded dining_tables db fid t Ht). split; [reflexivity|].
    f_equal. exact (session_get_pk _ _ _ Ht).
  - destruct (session_get (ikeamatress db) fid) as [m|] eqn:Hm;
      [|discriminate].
    intros [= <-]. simpl. unfold bind.
    rewrite (refresh_loaded matresses db fid m Hm). split; [reflexivity|].
    f_equal. exact (session_get_pk _ _ _ Hm).
Qed.

(** [add_item] on a cart and a record that are both in the database. *)
Lemma add_item_run db cart cart_id f ft fid q :
  ShoppingCart.id cart = Some cart_id ->
  furniture_type_map f = Some ft ->
  furniture_id f = Ok (Some fid) ->
  refresh_furniture f db = (db, Ok f) ->
  add_item cart f (Some q) db =
  (with_item db (new_item db cart_id ft fid f q),
   Ok (new_item db cart_id ft fid f q)).
Proof.
  intros Hcart Hft Hid Href. unfold add_item. rewrite Hft.
  destruct f; simpl in Hft; try discriminate; injection Hft as <-;
    cbn [furniture_id] in Hid; injection Hid as Hid;
    unfold new_item, snapshot_of, with_item;
    cbn [truthy String.eqb Ascii.eqb Bool.eqb negb arg];
    unfold bind; rewrite Href; unfold lift;
    cbn [furniture_id furniture_base]; rewrite Hid, Hcart; reflexivity.
Qed.

(** The snapshot always carries the record's price, as a float. *)
Lemma snapshot_price_new_item db cart_id ft fid f q p :
  catalog_price f = Some p ->
  snapshot_price (new_item db cart_id ft fid f q) = Some p.
Proof.
  unfold catalog_price. destruct f; simpl; try discriminate;
    now intros [= <-].
Qed.

Lemma item_ok_new_item db cart_id ft ft' fid f q :
  furniture_type_map f = Some ft' ->
  item_ok (new_item db cart_id ft fid f q) = true.
Proof. destruct f; simpl; try discriminate; reflexivity. Qed.

Lemma find_furniture_type tag db ft fid f :
  find_furniture tag db ft fid = Some f ->
  furniture_type_map f =
  Some (if String.eqb ft "sofa" then "sofa"
        else if String.eqb ft "dining_table" then "dining_table"
        else "matress").
Proof.
  unfold find_furniture.
  destruct (String.eqb ft "sofa");
    [|destruct (String.eqb ft "dining_table");
      [|destruct (String.eqb ft tag); [|discriminate]]];
    match goal with
    | |- option_map _ ?o = _ -> _ => destruct o; [|discriminate]
    end; now intros [= <-].
Qed.

(** The handler, case by case. *)
Lemma add_item_to_cart_run db cart_id ft fid q :
  add_item_to_cart cart_id ft fid q db =
  add_item_outcome "matress" db cart_id ft fid q.
Proof.
  unfold add_item_to_cart, add_item_outcome. run_gets.
  destruct (session_get (shoppingcart db) cart_id) as [cart|] eqn:Hcart;
    [|reflexivity].
  pose proof (session_get_pk _ _ _ Hcart) as Hcid. cbn [pk ShoppingCart_Model] in Hcid.
  unfold known_tag.
  destruct (find_furniture "matress" db ft fid) as [f|] eqn:Hf.
  - pose proof (find_furniture_loaded _ _ _ _ _ Hf) as [Href Hid].
    pose proof (find_furniture_type _ _ _ _ _ Hf) as Hty.
    unfold find_furniture in Hf.
    destruct (String.eqb ft "sofa") eqn:E1;
      [|destruct (String.eqb ft "dining_table") eqn:E2;
        [|destruct (String.eqb ft "matress") eqn:E3; [|discriminate]]];
      cbn [orb];
      [apply String.eqb_eq in E1|apply String.eqb_eq in E2
      |apply String.eqb_eq in E3]; subst ft;
      match type of Hf with
      | option_map _ ?o = _ => destruct o; [|discriminate]
      end; injection Hf as <-; cbn [option_map ret];
      rewrite (add_item_run db cart cart_id _ _ fid (arg 1 q) Hcid Hty Hid Href);
      reflexivity.
  - unfold find_furniture in Hf.
    destruct (String.eqb ft "sofa") eqn:E1;
      [|destruct (String.eqb ft "dining_table") eqn:E2;
        [|destruct (String.eqb ft "matress") eqn:E3; [|reflexivity]]];
      cbn [orb];
      match type of Hf with
      | option_map _ ?o = _ => destruct o; [discriminate|]
      end; reflexivity.
Qed.

(* ================================================================== *)
(** * Frames: what a handler leaves alone *)
(* ================================================================== *)

Section Keeps.
Context {X : Type} (f : DB -> X).

Lemma keeps_ret {A : Type} (a : A) : keeps f (ret a).
Proof. intros db. reflexivity. Qed.

Lemma keeps_raise {A : Type} (e : exn) : keeps f (@raise DB A e).
Proof. intros db. reflexivity. Qed.

Lemma keeps_lift {A : Type} (r : result A) : keeps f (lift r).
Proof. intros db. reflexivity. Qed.

Lemma keeps_gets {A : Type} (g : DB -> A) : keeps f (gets g).
Proof. intros db. reflexivity. Qed.

Lemma keeps_bind {A B : Type} (m : M DB A) (k : A -> M DB B) :
  keeps f m -> (forall a, keeps f (k a)) -> keeps f (bind m k).
Proof.
  intros Hm Hk db. unfold bind. specialize (Hm db).
  destruct (m db) as [db' [a|e]]; simpl in *; [|assumption].
  now rewrite Hk.
Qed.

Lemma keeps_until_commit {A : Type} (m : M DB A) :
  keeps f m -> keeps f (until_commit m).
Proof.
  intros Hm db. unfold until_commit. specialize (Hm db).
  destruct (m db) as [db' [a|e]]; simpl in *; auto.
Qed.

Lemma keeps_on_table {A B : Type} (T : table A)
  (g : list A -> result (list A * B)) :
  (forall t db, f (set_rows T t db) = f db) -> keeps f (on_table T g).
Proof.
  intros Hf db. unfold on_table.
  destruct (g (rows T db)) as [[t' b]|e]; simpl; auto.
Qed.

Lemma keeps_for_each {A : Type} (l : list A) (body : A -> M DB unit) :
  (forall a, keeps f (body a)) -> keeps f (for_each l body).
Proof.
  intros Hb. induction l as [|x l IH]; simpl.
  - apply keeps_ret.
  - apply keeps_bind; auto.
Qed.

End Keeps.

Ltac keeps_step :=
  first
    [ apply keeps_ret | apply keeps_raise | apply keeps_lift
    | apply keeps_gets
    | apply keeps_on_table; intros; reflexivity
    | apply keeps_until_commit
    | apply keeps_for_each; intros ?
    | apply keeps_bind; [|intros ?]
    | match goal with
      | |- keeps _ (match ?x with _ => _ end) => destruct x
      end ].

Ltac keeps_all :=
  unfold get, add_commit_refresh, commit_refresh, session_delete, exec_all,
    refresh;
  repeat keeps_step.

(** The catalog handlers leave the carts and their items alone. *)
Lemma catalog_call_keeps (r : call) :
  catalog_call r = true ->
  keeps (fun db => (shoppingcart db, cartitem db)) (handle r).
Proof.
  destruct r; simpl; try discriminate; intros _; unfold respond;
    unfold create_sofa, update_sofa, delete_sofa, create_dining_table,
      update_dining_table, delete_dining_table, create_mattress,
      update_mattress, delete_mattress;
    keeps_all.
Qed.

(** The cart handlers leave the catalog alone. *)
Lemma cart_call_keeps (r : call) :
  catalog_call r = false -> keeps catalog (handle r).
Proof.
  destruct r; simpl; try discriminate; intros _; unfold respond;
    unfold create_cart, update_cart, delete_cart, add_item_to_cart,
      update_cart_item, remove_cart_item, add_item, refresh_furniture;
    keeps_all.
Qed.

Lemma steps_catalog_keep (rs : list call) (db : DB) :
  forallb catalog_call rs = true ->
  shoppingcart (steps rs db) = shoppingcart db /\
  cartitem (steps rs db) = cartitem db.
Proof.
  revert db. induction rs as [|r rs IH]; intros db; simpl; [auto|].
  intros Hall. apply andb_true_iff in Hall as [Hr Hrs].
  destruct (IH (step r db) Hrs) as [-> ->].
  pose proof (catalog_call_keeps r Hr db) as Hk. unfold step.
  now injection Hk as -> ->.
Qed.

(* ================================================================== *)
(** * The invariant of the line items *)
(* ================================================================== *)

Section Maintains.
Context (P : DB -> Prop).

Lemma maintains_ret {A : Type} (a : A) : maintains P (ret a).
Proof. intros db H. exact H. Qed.

Lemma maintains_raise {A : Type} (e : exn) : maintains P (@raise DB A e).
Proof. intros db H. exact H. Qed.

Lemma maintains_lift {A : Type} (r : result A) : maintains P (lift r).
Proof. intros db H. exact H. Qed.

Lemma maintains_gets {A : Type} (g : DB -> A) : maintains P (gets g).
Proof. intros db H. exact H. Qed.

Lemma maintains_bind {A B : Type} (m : M DB A) (k : A -> M DB B) :
  maintains P m -> (forall a, maintains P (k a)) -> maintains P (bind m k).
Proof.
  intros Hm Hk db HP. unfold bind. specialize (Hm db HP).
  destruct (m db) as [db' [a|e]]; simpl in *; [|assumption].
  now apply Hk.
Qed.

Lemma maintains_until_commit {A : Type} (m : M DB A) :
  maintains P m -> maintains P (until_commit m).
Proof.
  intros Hm db HP. unfold until_commit. specialize (Hm db HP).
  destruct (m db) as [db' [a|e]]; simpl in *; auto.
Qed.

Lemma maintains_for_each {A : Type} (l : list A) (body : A -> M DB unit) :
  (forall a, maintains P (body a)) -> maintains P (for_each l body).
Proof.
  intros Hb. induction l as [|x l IH]; simpl.
  - apply maintains_ret.
  - apply maintains_bind; auto.
Qed.

Lemma maintains_respond {A : Type} (m : M DB A) :
  maintains P m -> maintains P (respond m).
Proof.
  intros Hm. unfold respond. apply maintains_bind; [assumption|].
  intros _. apply maintains_ret.
Qed.

End Maintains.

Lemma keeps_maintains {X A : Type} (f : DB -> X) (Q : X -> Prop)
  (m : M DB A) :
  keeps f m -> maintains (fun db => Q (f db)) m.
Proof. intros Hk db HQ. now rewrite Hk. Qed.

Lemma fst_respond {A : Type} (m : M DB A) (db : DB) :
  fst (respond m db) = fst (m db).
Proof.
  unfold respond, bind. now destruct (m db) as [db' [a|e]].
Qed.

Lemma Forall_filter {A : Type} (Q : A -> Prop) (p : A -> bool) (t : list A) :
  Forall Q t -> Forall Q (filter p t).
Proof.
  intros Ht. apply Forall_forall. intros x Hx. apply filter_In in Hx as [Hx _].
  now apply (proj1 (Forall_forall Q t) Ht).
Qed.

Lemma update_Forall {A : Type} `{Model A} (Q : A -> Prop) i r (t t' : list A) :
  update i r t = Ok t' -> Forall Q t -> Q r -> Forall Q t'.
Proof.
  unfold update. intros Hu Ht Hr. destruct (pk r) as [j|]; [|discriminate].
  destruct (j =? i).
  - injection Hu as <-. apply Forall_forall. intros x Hx.
    apply in_map_iff in Hx as (y & <- & Hy).
    destruct (has_pk i y); [assumption|].
    now apply (proj1 (Forall_forall Q t) Ht).
  - destruct (existsb (has_pk j) t); [discriminate|]. injection Hu as <-.
    apply Forall_insert_row; [assumption|]. now apply Forall_filter.
Qed.

Lemma maintains_delete_item (item : CartItem.t) :
  maintains items_ok (session_delete cart_items item).
Proof.
  intros db Hok. unfold session_delete, on_table, delete. simpl.
  destruct (CartItem.id item); simpl; [|assumption].
  now apply Forall_filter.
Qed.

Lemma maintains_commit_item i (item : CartItem.t) :
  item_ok item = true ->
  maintains items_ok (commit_refresh cart_items i item).
Proof.
  intros Hitem db Hok. unfold commit_refresh, on_table. cbn [rows cart_items].
  destruct (update i item (cartitem db)) as [t'|e] eqn:Hu; simpl;
    [|assumption].
  now apply (update_Forall _ i item (cartitem db) t' Hu Hok).
Qed.

Lemma item_ok_set_quantity q item :
  item_ok item = true -> item_ok (CartItem.set_quantity q item) = true.
Proof. intros H. exact H. Qed.

Ltac maintains_step :=
  first
    [ apply maintains_ret | apply maintains_raise | apply maintains_lift
    | apply maintains_gets
    | apply maintains_delete_item
    | apply maintains_until_commit
    | apply maintains_for_each; intros ?
    | apply maintains_respond
    | apply maintains_bind; [|intros ?]
    | match goal with
      | |- maintains _ (match ?x with _ => _ end) => destruct x
      end ].

(** Every call leaves the rows of [cartitem] as [add_item] writes them. *)
Lemma handle_items_ok (r : call) : maintains items_ok (handle r).
Proof.
  destruct (catalog_call r) eqn:Hr.
  - apply (keeps_maintains (fun db => (shoppingcart db, cartitem db))
             (fun x => Forall (fun item => item_ok item = true) (snd x))).
    now apply catalog_call_keeps.
  - destruct r; try discriminate; clear Hr; cbn [handle].
    + (* create_cart *)
      apply (keeps_maintains cartitem
               (Forall (fun item => item_ok item = true))).
      unfold respond, create_cart. keeps_all.
    + (* update_cart *)
      apply (keeps_maintains cartitem
               (Forall (fun item => item_ok item = true))).
      unfold respond, update_cart. keeps_all.
    + (* delete_cart *)
      unfold delete_cart, get, exec_all. repeat maintains_step.
      apply (keeps_maintains cartitem
               (Forall (fun item => item_ok item = true))).
      keeps_all.
    + (* add_item_to_cart *)
      intros db Hok. rewrite fst_respond, add_item_to_cart_run.
      unfold add_item_outcome.
      destruct (session_get (shoppingcart db) cart_id); [|assumption].
      destruct (known_tag "matress" furniture_type); [|assumption].
      destruct (find_furniture "matress" db furniture_type furniture_id0)
        as [f|] eqn:Hf; [|assumption].
      cbn [fst]. unfold items_ok, with_item. cbn [set_rows cart_items cartitem].
      apply Forall_insert_row; [|assumption].
      eapply item_ok_new_item, find_furniture_type, Hf.
    + (* update_cart_item *)
      intros db Hok. rewrite fst_respond. unfold update_cart_item. run_gets.
      destruct (session_get (shoppingcart db) cart_id); [|assumption].
      destruct (session_get (cartitem db) item_id) as [item|] eqn:Hitem;
        [|assumption].
      destruct (negb (CartItem.cart_id item =? cart_id)); [assumption|].
      pose proof (maintains_commit_item item_id
                    (CartItem.set_quantity quantity item)) as Hm.
      specialize (Hm (proj1 (Forall_forall _ _) Hok item
                        (session_get_In _ _ _ Hitem)) db Hok).
      destruct (commit_refresh cart_items item_id
                  (CartItem.set_quantity quantity item) db)
        as [db' [a|e]]; exact Hm.
    + (* remove_cart_item *)
      unfold remove_cart_item, get. repeat maintains_step.
Qed.

Theorem reachable_items_ok (db : DB) : reachable db -> items_ok db.
Proof.
  induction 1 as [|r db _ IH].
  - constructor.
  - now apply handle_items_ok.
Qed.

Lemma reachable_steps (rs : list call) (db : DB) :
  reachable db -> reachable (steps rs db).
Proof.
  revert db. induction rs as [|r rs IH]; intros db Hdb; simpl; [assumption|].
  apply IH. now constructor.
Qed.

(* ================================================================== *)
(** * Totals *)
(* ================================================================== *)

Lemma get_items_run db cart cart_id :
  ShoppingCart.id cart = Some cart_id ->
  get_items cart db = (db, Ok (line_items db cart_id)).
Proof.
  intros Hid. unfold get_items, exec_all, gets, line_items. rewrite Hid.
  now rewrite exec_where_select.
Qed.

Lemma line_price_ok item :
  item_ok item = true -> line_price item = Ok (PyFloat (subtotal item)).
Proof.
  unfold item_ok, line_price, subtotal, snapshot_price, dict_get.
  destruct (CartItem.id item); [|discriminate].
  destruct (dict_lookup (json_loads (CartItem.furniture_data item)) "price")
    as [[| | |p|]|]; try discriminate.
  reflexivity.
Qed.

Lemma py_sum_from_floats (a : float) (l : list CartItem.t) :
  Forall (fun item => item_ok item = true) l ->
  py_sum_from (PyFloat a) (map line_price l) =
  Ok (PyFloat (fold_left PrimFloat.add (map subtotal l) a)).
Proof.
  revert a. induction l as [|item l IH]; intros a Hl; simpl; [reflexivity|].
  inversion Hl as [|? ? Hitem Hl']; subst.
  rewrite (line_price_ok item Hitem). simpl. now apply IH.
Qed.

Lemma py_sum_prices (l : list CartItem.t) :
  Forall (fun item => item_ok item = true) l ->
  py_sum (map line_price l) = Ok (py_float_total (map subtotal l)).
Proof.
  destruct l as [|item l]; intros Hl; [reflexivity|].
  inversion Hl as [|? ? Hitem Hl']; subst.
  unfold py_sum. simpl. rewrite (line_price_ok item Hitem). simpl.
  now apply py_sum_from_floats.
Qed.

Lemma py_sum_from_ints (a : Z) (l : list Z) :
  py_sum_from (PyInt a) (map (fun n => Ok (PyInt n)) l) =
  Ok (PyInt (a + int_sum l)).
Proof.
  revert a. induction l as [|n l IH]; intros a; simpl.
  - now rewrite Z.add_0_r.
  - rewrite IH. do 2 f_equal. lia.
Qed.

Lemma py_sum_quantities (l : list CartItem.t) :
  py_sum (map (fun item => Ok (PyInt (CartItem.quantity item))) l) =
  Ok (PyInt (int_sum (map CartItem.quantity l))).
Proof.
  unfold py_sum.
  rewrite <- (map_map CartItem.quantity (fun n => Ok (PyInt n))).
  now rewrite py_sum_from_ints.
Qed.

Lemma item_ok_snapshot item :
  item_ok item = true -> snapshot_price item <> None.
Proof.
  unfold item_ok. destruct (CartItem.id item); [|discriminate].
  destruct (snapshot_price item); discriminate.
Qed.

Lemma total_price_run db cart cart_id :
  items_ok db -> ShoppingCart.id cart = Some cart_id ->
  calculate_total_price cart db =
  (db, Ok (py_float_total (map subtotal (line_items db cart_id)))).
Proof.
  intros Hok Hid. unfold calculate_total_price, bind.
  rewrite (get_items_run db cart cart_id Hid). unfold lift.
  rewrite py_sum_prices; [reflexivity|]. now apply Forall_filter.
Qed.

Lemma total_quantity_run db cart cart_id :
  ShoppingCart.id cart = Some cart_id ->
  calculate_total_quantity cart db =
  (db, Ok (PyInt (int_sum (map CartItem.quantity (line_items db cart_id))))).
Proof.
  intros Hid. unfold calculate_total_quantity, bind.
  rewrite (get_items_run db cart cart_id Hid). unfold lift.
  now rewrite py_sum_quantities.
Qed.

(** C2: in every database the application can reach and for every cart in
    it, the total price is the sum, over the cart's line items in table
    order, of the snapshot price times the quantity, every line item
    having a snapshot price; the total quantity is the sum of the
    quantities; and both are the int 0 for a cart without items. *)
Theorem totals_are_sums_over_line_items db cart_id cart :
  reachable db ->
  session_get (shoppingcart db) cart_id = Some cart ->
  calculate_total_price cart db =
    (db, Ok (py_float_total (map subtotal (line_items db cart_id)))) /\
  calculate_total_quantity cart db =
    (db, Ok (PyInt (int_sum (map CartItem.quantity (line_items db cart_id))))) /\
  get_cart_total cart_id db =
    (db,
     Ok (Total cart_id (ShoppingCart.customer_name cart)
           (py_float_total (map subtotal (line_items db cart_id)))
           (PyInt (int_sum (map CartItem.quantity (line_items db cart_id)))))) /\
  Forall (fun item => snapshot_price item <> None) (line_items db cart_id) /\
  (line_items db cart_id = [] ->
   calculate_total_price cart db = (db, Ok (PyInt 0)) /\
   calculate_total_quantity cart db = (db, Ok (PyInt 0))).
Proof.
  intros Hreach Hcart. pose proof (reachable_items_ok db Hreach) as Hok.
  pose proof (session_get_pk _ _ _ Hcart) as Hid.
  cbn [pk ShoppingCart_Model] in Hid.
  pose proof (total_price_run db cart cart_id Hok Hid) as Hp.
  pose proof (total_quantity_run db cart cart_id Hid) as Hq.
  split; [exact Hp|]. split; [exact Hq|]. split; [|split].
  - unfold get_cart_total. run_get Hcart. rewrite Hp. cbn beta iota.
    now rewrite Hq.
  - apply Forall_forall. intros item Hitem. apply item_ok_snapshot.
    apply filter_In in Hitem as [Hitem _].
    now apply (proj1 (Forall_forall _ _) Hok).
  - intros Hnone. rewrite Hp, Hq, Hnone. split; reflexivity.
Qed.

Lemma totals_are_sums_over_line_items_witness :
  calculate_total_price john_1 shop_with_items_db =
    (shop_with_items_db, Ok (PyFloat 600)) /\
  calculate_total_quantity john_1 shop_with_items_db =
    (shop_with_items_db, Ok (PyInt 3)).
Proof.
  destruct (totals_are_sums_over_line_items shop_with_items_db 1 john_1)
    as (Hp & Hq & _).
  - unfold shop_with_items_db, shop_db.
    repeat apply reachable_steps. apply reachable_empty.
  - reflexivity.
  - split; [exact Hp | exact Hq].
Defined.

(* ================================================================== *)
(** * Line items and their snapshots *)
(* ================================================================== *)

Lemma find_furniture_known tag db ft fid f :
  find_furniture tag db ft fid = Some f -> known_tag tag ft = true.
Proof.
  unfold find_furniture, known_tag.
  destruct (String.eqb ft "sofa"); [reflexivity|].
  destruct (String.eqb ft "dining_table"); [reflexivity|].
  destruct (String.eqb ft tag); [reflexivity|discriminate].
Qed.

Lemma find_furniture_priced tag db ft fid f :
  find_furniture tag db ft fid = Some f -> exists p, catalog_price f = Some p.
Proof.
  intros Hf. apply find_furniture_type in Hf.
  destruct f; try discriminate; eexists; reflexivity.
Qed.

(** What the handler returns for the item it has stored. *)
Lemma item_response_new_item db cart_id ft fid f q p :
  catalog_price f = Some p ->
  exists resp,
    item_response (new_item db cart_id ft fid f q) = Ok resp /\
    dict_lookup resp "id" = Some (PyInt (next_rowid (cartitem db))) /\
    dict_lookup resp "quantity" = Some (PyInt q) /\
    dict_lookup resp "price" = Some (PyFloat p) /\
    dict_lookup resp "subtotal" =
    Some (PyFloat (PrimFloat.mul p (float_of_int q))).
Proof.
  unfold catalog_price.
  destruct f; simpl; try discriminate; intros [= <-]; eexists;
    (split; [reflexivity|]); repeat split.
Qed.

Lemma add_item_to_cart_ok db cart_id ft fid q cart f :
  session_get (shoppingcart db) cart_id = Some cart ->
  find_furniture "matress" db ft fid = Some f ->
  add_item_to_cart cart_id ft fid q db =
  (with_item db (new_item db cart_id ft fid f (arg 1 q)),
   item_response (new_item db cart_id ft fid f (arg 1 q))).
Proof.
  intros Hcart Hf. rewrite add_item_to_cart_run. unfold add_item_outcome.
  now rewrite Hcart, (find_furniture_known _ _ _ _ _ Hf), Hf.
Qed.

Lemma add_item_to_cart_inv db cart_id ft fid q db' resp :
  add_item_to_cart cart_id ft fid q db = (db', Ok resp) ->
  exists cart f,
    session_get (shoppingcart db) cart_id = Some cart /\
    find_furniture "matress" db ft fid = Some f.
Proof.
  rewrite add_item_to_cart_run. unfold add_item_outcome.
  destruct (session_get (shoppingcart db) cart_id) as [cart|];
    [|discriminate].
  destruct (known_tag "matress" ft); [|discriminate].
  destruct (find_furniture "matress" db ft fid) as [f|]; [|discriminate].
  intros _. eauto.
Qed.

Lemma with_item_stored db item :
  CartItem.id item = Some (next_rowid (cartitem db)) ->
  session_get (cartitem (with_item db item)) (next_rowid (cartitem db)) =
  Some item.
Proof.
  intros Hid. unfold with_item. cbn [set_rows cart_items cartitem].
  apply session_get_insert_row_new; [exact Hid|]. apply next_rowid_fresh.
Qed.

Lemma with_item_line_items db item :
  In item (line_items (with_item db item) (CartItem.cart_id item)).
Proof.
  unfold line_items, with_item. cbn [set_rows cart_items cartitem].
  apply filter_In. split; [|apply Z.eqb_refl].
  apply In_insert_row. now left.
Qed.

Lemma total_price_by_lines db cart cart_id :
  ShoppingCart.id cart = Some cart_id ->
  calculate_total_price cart db =
  (db, py_sum (map line_price (line_items db cart_id))).
Proof.
  intros Hid. unfold calculate_total_price, bind.
  now rewrite (get_items_run db cart cart_id Hid).
Qed.

Lemma repriced_sofa_totals_its_old_price :
  read_sofa 1 repriced_db =
    (repriced_db,
     Ok (IkeaSofa.Build
           (IkeaFurniture.Build "KIVIK" 600%float "Gray" "Leather" 45.5%float
              (Date 2026 11 3) true)
           (Some 1) 3 false "Velvet")) /\
  calculate_total_price john_1 repriced_db = (repriced_db, Ok (PyFloat 500)).
Proof. split; reflexivity. Qed.

(** C1: when an item is added to a cart, with the ids and the quantity in
    the range of the store and the next id of the line item table too, the
    line item stored carries the price the catalog record has at that
    moment; whatever the catalog handlers do afterwards (create, update,
    delete), the line item is still in the cart, the total price of the
    cart is still the sum of the line prices computed from the snapshots,
    and it has not changed.  In particular a sofa put in a cart at 500 and
    then repriced to 600 leaves the total at 500. *)
Theorem line_price_is_the_snapshot_price :
  (forall db cart_id cart furniture_type furniture_id quantity f p calls,
     int64 cart_id = true ->
     int64 furniture_id = true ->
     int64 (arg 1 quantity) = true ->
     int64 (next_rowid (cartitem db)) = true ->
     session_get (shoppingcart db) cart_id = Some cart ->
     find_furniture "matress" db furniture_type furniture_id = Some f ->
     catalog_price f = Some p ->
     forallb catalog_call calls = true ->
     let item :=
       new_item db cart_id furniture_type furniture_id f (arg 1 quantity) in
     let db1 :=
       fst (add_item_to_cart cart_id furniture_type furniture_id quantity db) in
     let db2 := steps calls db1 in
     In item (line_items db2 cart_id) /\
     snapshot_price item = Some p /\
     line_price item =
       Ok (PyFloat (PrimFloat.mul p (float_of_int (arg 1 quantity)))) /\
     calculate_total_price cart db2 =
       (db2, py_sum (map line_price (line_items db2 cart_id))) /\
     snd (calculate_total_price cart db2) =
       snd (calculate_total_price cart db1)) /\
  calculate_total_price john_1 repriced_db = (repriced_db, Ok (PyFloat 500)) /\
  (exists sofa,
     read_sofa 1 repriced_db = (repriced_db, Ok sofa) /\
     IkeaFurniture.price (IkeaSofa.base sofa) = 600%float).
Proof.
  split; [|split; [apply repriced_sofa_totals_its_old_price|]].
  - intros db cart_id cart ft fid q f p calls _ _ _ _ Hcart Hf Hp Hcalls
      item db1 db2.
    pose proof (session_get_pk _ _ _ Hcart) as Hid.
    cbn [pk ShoppingCart_Model] in Hid.
    assert (Hdb1 : db1 = with_item db item).
    { unfold db1. now rewrite (add_item_to_cart_ok db cart_id ft fid q cart f). }
    destruct (steps_catalog_keep calls db1 Hcalls) as [_ Hitems].
    assert (Hlines : line_items db2 cart_id = line_items db1 cart_id).
    { unfold line_items. fold db2 in Hitems. now rewrite Hitems. }
    assert (Hsnap : snapshot_price item = Some p)
      by now apply snapshot_price_new_item.
    split; [|split; [exact Hsnap|split; [|split]]].
    + rewrite Hlines, Hdb1. apply (with_item_line_items db item).
    + unfold line_price, dict_get. unfold snapshot_price in Hsnap.
      destruct (dict_lookup (json_loads (CartItem.furniture_data item)) "price")
        as [[| | |x|]|]; try discriminate.
      now injection Hsnap as ->.
    + now apply total_price_by_lines.
    + rewrite (total_price_by_lines db2 cart cart_id Hid),
        (total_price_by_lines db1 cart cart_id Hid). cbn [snd].
      now rewrite Hlines.
  - eexists. split; [apply repriced_sofa_totals_its_old_price|reflexivity].
Qed.

Lemma line_price_is_the_snapshot_price_witness :
  let db := steps [Create_cart john; Create_sofa sofa_500] empty_db in
  let item := new_item db 1 "sofa" 1 (Sofa (IkeaSofa.set (IkeaSofa.a_id (Some 1)) sofa_500)) 1 in
  In item (line_items repriced_db 1) /\
  snapshot_price item = Some 500%float /\
  line_price item = Ok (PyFloat 500).
Proof.
  intros db item.
  destruct (proj1 line_price_is_the_snapshot_price db 1 john_1 "sofa" 1 None
              (Sofa (IkeaSofa.set (IkeaSofa.a_id (Some 1)) sofa_500))
              500%float [Update_sofa 1 (only_price 600%float)])
    as (Hin & Hsnap & Hline & _); try reflexivity.
  split; [exact Hin|]. split; [exact Hsnap|exact Hline].
Defined.

(** C3, as stated: with ["mattress"] as the third tag the contract fails.
    In a database with a cart 1 and a mattress 1, the call with the tag
    ["mattress"] signals Invalid-Argument instead of adding the item. *)
Theorem mattress_is_not_a_known_tag : ~ add_item_tag_contract "mattress".
Proof.
  intros Hclaim.
  destruct (Hclaim shop_db 1 "mattress" 1 None john_1 eq_refl eq_refl
              eq_refl eq_refl eq_refl)
    as (_ & _ & Hadded).
  destruct (Hadded _ eq_refl) as [[resp Hresp] _].
  vm_compute in Hresp. discriminate Hresp.
Qed.

(** C3, amended: on an existing cart, with the ids, the quantity and the
    next id of the line item table in the range of the store,
    [add_item_to_cart] signals Invalid-Argument exactly when the tag is
    not one of ["sofa"], ["dining_table"], ["matress"]; with one of these
    tags and no record of the given id for that kind it signals Not-Found;
    with one of these tags and such a record it adds the item. *)
Theorem add_item_signals_by_tag : add_item_tag_contract "matress".
Proof.
  intros db cart_id ft fid q cart _ _ _ _ Hcart r. unfold r.
  rewrite add_item_to_cart_run. unfold add_item_outcome. rewrite Hcart.
  destruct (find_furniture "matress" db ft fid) as [f|] eqn:Hf.
  - rewrite (find_furniture_known _ _ _ _ _ Hf).
    destruct (find_furniture_priced _ _ _ _ _ Hf) as [p Hp].
    destruct (item_response_new_item db cart_id ft fid f (arg 1 q) p Hp)
      as (resp & Hresp & _).
    rewrite Hresp. split; [|split].
    + split; [|discriminate]. intros (e & He & _). discriminate He.
    + discriminate.
    + intros f' [= <-]. split; [now exists resp | reflexivity].
  - destruct (known_tag "matress" ft) eqn:Hk; (split; [|split]).
    + split; [|discriminate]. intros (e & He & Hs).
      simpl in He. injection He as <-. discriminate Hs.
    + intros _ _. eexists. split; reflexivity.
    + discriminate.
    + split; [reflexivity|]. intros _. eexists. split; reflexivity.
    + discriminate.
    + discriminate.
Qed.

Lemma add_item_signals_by_tag_witness :
  returns (add_item_to_cart 1 "matress" 1 None shop_db) /\
  signals (add_item_to_cart 1 "sofa" 7 None shop_db) 404 /\
  signals (add_item_to_cart 1 "mattress" 1 None shop_db) 400.
Proof.
  split; [|split].
  - destruct (add_item_signals_by_tag shop_db 1 "matress" 1 None john_1
                eq_refl eq_refl eq_refl eq_refl eq_refl)
      as (_ & _ & Hadded).
    exact (proj1 (Hadded _ eq_refl)).
  - destruct (add_item_signals_by_tag shop_db 1 "sofa" 7 None john_1
                eq_refl eq_refl eq_refl eq_refl eq_refl)
      as (_ & Hmissing & _).
    apply Hmissing; reflexivity.
  - destruct (add_item_signals_by_tag shop_db 1 "mattress" 1 None john_1
                eq_refl eq_refl eq_refl eq_refl eq_refl)
      as (Hinvalid & _).
    apply Hinvalid. reflexivity.
Defined.

(* ================================================================== *)
(** * Quantities *)
(* ================================================================== *)

Lemma add_item_to_cart_stored db cart_id ft fid q db' resp :
  add_item_to_cart cart_id ft fid q db = (db', Ok resp) ->
  exists f,
    find_furniture "matress" db ft fid = Some f /\
    db' = with_item db (new_item db cart_id ft fid f (arg 1 q)) /\
    dict_lookup resp "id" = Some (PyInt (next_rowid (cartitem db))) /\
    session_get (cartitem db') (next_rowid (cartitem db)) =
    Some (new_item db cart_id ft fid f (arg 1 q)).
Proof.
  intros Hrun.
  destruct (add_item_to_cart_inv _ _ _ _ _ _ _ Hrun) as (cart & f & Hcart & Hf).
  rewrite (add_item_to_cart_ok db cart_id ft fid q cart f Hcart Hf) in Hrun.
  destruct (find_furniture_priced _ _ _ _ _ Hf) as [p Hp].
  destruct (item_response_new_item db cart_id ft fid f (arg 1 q) p Hp)
    as (resp' & Hresp & Hid & _).
  rewrite Hresp in Hrun. injection Hrun as <- <-.
  exists f. repeat split; try assumption. now apply with_item_stored.
Qed.

Lemma update_cart_item_stored db cart_id item_id q db' resp :
  update_cart_item cart_id item_id q db = (db', Ok resp) ->
  exists item,
    session_get (cartitem db) item_id = Some item /\
    CartItem.cart_id item = cart_id /\
    session_get (cartitem db') item_id =
    Some (CartItem.set_quantity q item).
Proof.
  unfold update_cart_item. run_gets.
  destruct (session_get (shoppingcart db) cart_id); [|discriminate].
  destruct (session_get (cartitem db) item_id) as [item|] eqn:Hitem;
    [|discriminate].
  destruct (CartItem.cart_id item =? cart_id) eqn:Hc; [|discriminate].
  cbn [negb].
  destruct (commit_refresh cart_items item_id
              (CartItem.set_quantity q item) db) as [db1 [a|e]] eqn:Hcommit;
    [|discriminate].
  unfold lift. intros Hrun. injection Hrun as <- _.
  apply commit_refresh_stored with (old := item) in Hcommit
    as (_ & j & Hj & Hs); [|reflexivity|exact Hitem].
  cbn [pk CartItem_Model CartItem.set_quantity CartItem.id] in Hj.
  pose proof (session_get_pk _ _ _ Hitem) as Hpk.
  cbn [pk CartItem_Model] in Hpk. rewrite Hpk in Hj. injection Hj as <-.
  exists item. split; [reflexivity|]. split; [now apply Z.eqb_eq|exact Hs].
Qed.

(** C8, as stated: the stored quantity is not always positive.  Adding a
    sofa with quantity 0 to a cart stores a line item of quantity 0. *)
Theorem zero_quantity_is_stored : ~ stored_quantities_positive.
Proof.
  intros [Hadd _].
  specialize (Hadd shop_db 1 "sofa" 1 (Some 0)).
  destruct (add_item_to_cart 1 "sofa" 1 (Some 0) shop_db) as [db' [resp|e]]
    eqn:Hrun; [|vm_compute in Hrun; discriminate Hrun].
  destruct (add_item_to_cart_stored _ _ _ _ _ _ _ Hrun)
    as (f & _ & _ & Hid & Hitem).
  specialize (Hadd db' resp _ _ eq_refl Hid Hitem). simpl in Hadd. lia.
Qed.

(** C8, amended: the quantity stored with a line item is the integer the
    caller gives, 1 when [add_item_to_cart] is given none, and after
    [update_cart_item] the integer given there; no positivity is checked,
    so the stored quantity is positive exactly when the given one is. *)
Theorem stored_quantity_is_the_given_one :
  (forall db cart_id furniture_type furniture_id quantity db' resp,
     add_item_to_cart cart_id furniture_type furniture_id quantity db =
     (db', Ok resp) ->
     exists i item,
       dict_lookup resp "id" = Some (PyInt i) /\
       session_get (cartitem db') i = Some item /\
       CartItem.quantity item = arg 1 quantity /\
       (0 < CartItem.quantity item <-> 0 < arg 1 quantity)) /\
  (forall db cart_id item_id quantity db' resp,
     update_cart_item cart_id item_id quantity db = (db', Ok resp) ->
     exists item,
       session_get (cartitem db') item_id = Some item /\
       CartItem.quantity item = quantity).
Proof.
  split.
  - intros db cart_id ft fid q db' resp Hrun.
    destruct (add_item_to_cart_stored _ _ _ _ _ _ _ Hrun)
      as (f & _ & _ & Hid & Hitem).
    eexists _, _. split; [exact Hid|]. split; [exact Hitem|].
    split; reflexivity.
  - intros db cart_id item_id q db' resp Hrun.
    destruct (update_cart_item_stored _ _ _ _ _ _ Hrun)
      as (item & _ & _ & Hitem).
    eexists. split; [exact Hitem|reflexivity].
Qed.

Lemma stored_quantity_is_the_given_one_witness :
  exists i item,
    dict_lookup
      [("id", PyInt 1); ("furniture_type", PyStr "sofa");
       ("furniture_id", PyInt 1); ("quantity", PyInt 1);
       ("name", PyStr "KIVIK"); ("price", PyFloat 100);
       ("subtotal", PyFloat 100)] "id" = Some (PyInt i) /\
    session_get
      (cartitem (fst (add_item_to_cart 1 "sofa" 1 None shop_db))) i =
    Some item /\
    CartItem.quantity item = 1 /\
    (0 < CartItem.quantity item <-> 0 < 1).
Proof.
  apply (proj1 stored_quantity_is_the_given_one shop_db 1 "sofa" 1 None).
  reflexivity.
Defined.

(* ================================================================== *)
(** * No merging of line items *)
(* ================================================================== *)

Lemma with_item_keeps_lookup db item ft fid :
  shoppingcart (with_item db item) = shoppingcart db /\
  find_furniture "matress" (with_item db item) ft fid =
  find_furniture "matress" db ft fid.
Proof. split; reflexivity. Qed.

Lemma new_item_in_its_cart db cart_id ft fid f q :
  In (new_item db cart_id ft fid f q)
     (line_items (with_item db (new_item db cart_id ft fid f q)) cart_id).
Proof. apply (with_item_line_items db (new_item db cart_id ft fid f q)). Qed.

Lemma line_items_with_item db item x cart_id :
  In x (line_items db cart_id) -> In x (line_items (with_item db item) cart_id).
Proof.
  unfold line_items, with_item. cbn [set_rows cart_items cartitem].
  rewrite !filter_In. intros [Hx Hc]. split; [|exact Hc].
  apply In_insert_row. now right.
Qed.

(** C9: adding the same catalog record to the same cart twice in a row,
    the second quantity in the range of the store like the first,
    succeeds both times and leaves two line items under two different ids,
    each in the cart, each with the quantity given in its own call and
    with a snapshot of its own; the table of line items has grown by
    two. *)
Theorem adding_twice_makes_two_line_items
  db cart_id furniture_type furniture_id q1 q2 db1 r1 :
  int64 cart_id = true ->
  int64 furniture_id = true ->
  int64 (arg 1 q1) = true ->
  int64 (arg 1 q2) = true ->
  add_item_to_cart cart_id furniture_type furniture_id q1 db = (db1, Ok r1) ->
  exists db2 r2 i1 i2 item1 item2,
    add_item_to_cart cart_id furniture_type furniture_id q2 db1 =
    (db2, Ok r2) /\
    dict_lookup r1 "id" = Some (PyInt i1) /\
    dict_lookup r2 "id" = Some (PyInt i2) /\
    i1 <> i2 /\
    session_get (cartitem db2) i1 = Some item1 /\
    session_get (cartitem db2) i2 = Some item2 /\
    CartItem.quantity item1 = arg 1 q1 /\
    CartItem.quantity item2 = arg 1 q2 /\
    In item1 (line_items db2 cart_id) /\
    In item2 (line_items db2 cart_id) /\
    snapshot_price item1 <> None /\
    snapshot_price item2 <> None /\
    List.length (cartitem db2) = S (S (List.length (cartitem db))).
Proof.
  intros _ _ _ _ Hrun1.
  destruct (add_item_to_cart_inv _ _ _ _ _ _ _ Hrun1) as (cart & f & Hcart & Hf).
  destruct (add_item_to_cart_stored _ _ _ _ _ _ _ Hrun1)
    as (f' & Hf' & Hdb1 & Hid1 & Hget1).
  rewrite Hf in Hf'. injection Hf' as <-.
  set (ft := furniture_type) in *. set (fid := furniture_id) in *.
  set (item1 := new_item db cart_id ft fid f (arg 1 q1)) in *.
  set (item2 := new_item db1 cart_id ft fid f (arg 1 q2)).
  destruct (find_furniture_priced _ _ _ _ _ Hf) as [p Hp].
  destruct (item_response_new_item db1 cart_id ft fid f (arg 1 q2) p Hp)
    as (r2 & Hr2 & Hid2 & _).
  assert (Hcart1 : session_get (shoppingcart db1) cart_id = Some cart)
    by now rewrite Hdb1.
  assert (Hf1 : find_furniture "matress" db1 ft fid = Some f)
    by now rewrite Hdb1.
  pose proof (add_item_to_cart_ok db1 cart_id ft fid q2 cart f Hcart1 Hf1)
    as Hrun2.
  fold item2 in Hrun2, Hr2. rewrite Hr2 in Hrun2.
  assert (Hlt : next_rowid (cartitem db) < next_rowid (cartitem db1)).
  { apply next_rowid_above with (r := item1); [|reflexivity].
    now apply session_get_In in Hget1. }
  exists (with_item db1 item2), r2, (next_rowid (cartitem db)),
    (next_rowid (cartitem db1)), item1, item2.
  split; [exact Hrun2|]. split; [exact Hid1|]. split; [exact Hid2|].
  split; [lia|]. split; [|split; [|split; [|split]]]; try reflexivity.
  - unfold with_item. cbn [set_rows cart_items cartitem].
    rewrite session_get_insert_row_other
      with (i := next_rowid (cartitem db1)); [exact Hget1|reflexivity|lia].
  - now apply with_item_stored.
  - split; [|split; [|split; [|split]]].
    + apply line_items_with_item. rewrite Hdb1.
      apply new_item_in_its_cart.
    + apply new_item_in_its_cart.
    + unfold item1.
      now rewrite (snapshot_price_new_item db cart_id ft fid f (arg 1 q1) p Hp).
    + unfold item2.
      now rewrite (snapshot_price_new_item db1 cart_id ft fid f (arg 1 q2) p Hp).
    + unfold with_item at 1. cbn [set_rows cart_items cartitem].
      rewrite length_insert_row, Hdb1. unfold with_item.
      cbn [set_rows cart_items cartitem]. now rewrite length_insert_row.
Qed.

Lemma adding_twice_makes_two_line_items_witness :
  exists db2 r2 i1 i2 item1 item2,
    add_item_to_cart 1 "sofa" 1 (Some 2)
      (fst (add_item_to_cart 1 "sofa" 1 None shop_db)) = (db2, Ok r2) /\
    dict_lookup
      [("id", PyInt 1); ("furniture_type", PyStr "sofa");
       ("furniture_id", PyInt 1); ("quantity", PyInt 1);
       ("name", PyStr "KIVIK"); ("price", PyFloat 100);
       ("subtotal", PyFloat 100)] "id" = Some (PyInt i1) /\
    dict_lookup r2 "id" = Some (PyInt i2) /\
    i1 <> i2 /\
    session_get (cartitem db2) i1 = Some item1 /\
    session_get (cartitem db2) i2 = Some item2 /\
    CartItem.quantity item1 = 1 /\
    CartItem.quantity item2 = 2 /\
    In item1 (line_items db2 1) /\
    In item2 (line_items db2 1) /\
    snapshot_price item1 <> None /\
    snapshot_price item2 <> None /\
    List.length (cartitem db2) = 2%nat.
Proof.
  apply (adding_twice_makes_two_line_items shop_db 1 "sofa" 1 None (Some 2));
    reflexivity.
Defined.

(* ================================================================== *)
(** * Deleting a cart *)
(* ================================================================== *)

Lemma set_rows_cart_items_same db :
  set_rows cart_items (cartitem db) db = db.
Proof. now destruct db. Qed.

(** The loop of [delete_cart]: every item of [l] is deleted, and no row
    that is left shares its key with an item of [l]. *)
Lemma for_each_delete_items (l : list CartItem.t) (db : DB) :
  Forall (fun item => item_ok item = true) l ->
  exists t',
    for_each l (fun item => session_delete cart_items item) db =
    (set_rows cart_items t' db, Ok tt) /\
    forall x,
      In x t' ->
      In x (cartitem db) /\
      forall y, In y l -> CartItem.id y <> CartItem.id x.
Proof.
  revert db. induction l as [|y l IH]; intros db Hl.
  - exists (cartitem db). rewrite set_rows_cart_items_same.
    split; [reflexivity|].
    intros x Hx. split; [assumption|]. intros ? [].
  - inversion Hl as [|? ? Hy Hl']; subst.
    unfold item_ok in Hy. destruct (CartItem.id y) as [i|] eqn:Hi;
      [|discriminate].
    simpl. unfold bind, session_delete, on_table, delete.
    cbn [rows cart_items pk CartItem_Model]. rewrite Hi.
    set (t1 := filter (fun x => negb (has_pk i x)) (cartitem db)).
    destruct (IH (set_rows cart_items t1 db) Hl') as (t' & Hrun & Hleft).
    exists t'. split; [exact Hrun|].
    intros x Hx. destruct (Hleft x Hx) as [Hin Hother].
    cbn [set_rows cart_items cartitem] in Hin. unfold t1 in Hin.
    apply filter_In in Hin as [Hin Hpk]. split; [assumption|].
    intros y' [<-|Hy']; [|now apply Hother].
    rewrite Hi. intros Heq. unfold has_pk in Hpk.
    cbn [pk CartItem_Model] in Hpk. rewrite <- Heq, Z.eqb_refl in Hpk.
    discriminate.
Qed.

Lemma filter_none {A : Type} (p : A -> bool) (t : list A) :
  (forall x, In x t -> p x = false) -> filter p t = [].
Proof.
  induction t as [|x t IH]; simpl; intros Hp; [reflexivity|].
  rewrite (Hp x (or_introl eq_refl)). apply IH. intros y Hy. apply Hp. now right.
Qed.

(** [delete_cart] on a cart that is there. *)
Lemma delete_cart_run db cart_id cart :
  items_ok db ->
  session_get (shoppingcart db) cart_id = Some cart ->
  exists t',
    delete_cart cart_id db =
    (Db (ikeasofa db) (ikeadiningtable db) (ikeamatress db)
       (filter (fun c => negb (has_pk cart_id c)) (shoppingcart db)) t',
     Ok (message
           ("Shopping cart with ID " ++ str_of_int cart_id ++
            " deleted successfully")%string)) /\
    forall x, In x t' -> In x (cartitem db) /\ CartItem.cart_id x <> cart_id.
Proof.
  intros Hok Hcart. unfold delete_cart. run_get Hcart.
  unfold until_commit, exec_all, gets, bind.
  cbn [rows cart_items]. rewrite exec_where_select.
  fold (line_items db cart_id).
  destruct (for_each_delete_items (line_items db cart_id) db)
    as (t' & Hrun & Hleft); [now apply Forall_filter|].
  rewrite Hrun. unfold session_delete, on_table, delete.
  rewrite (session_get_pk _ _ _ Hcart). exists t'. split; [reflexivity|].
  intros x Hx. destruct (Hleft x Hx) as [Hin Hother]. split; [assumption|].
  intros Hc. apply (Hother x); [|reflexivity].
  apply filter_In. split; [assumption|now apply Z.eqb_eq].
Qed.

(** C4: in every database the application can reach and for a cart id in
    the range of the store, [delete_cart] on a cart that exists returns,
    and afterwards the rows of the line item table are rows that were
    there before and none of them has that cart id, the cart table has
    lost the row of that id and nothing else, reading the cart and listing
    its items signal Not-Found, and the catalog is untouched; on a cart
    that does not exist it signals Not-Found and changes nothing. *)
Theorem delete_cart_removes_cart_and_items db cart_id :
  reachable db ->
  int64 cart_id = true ->
  match session_get (shoppingcart db) cart_id with
  | Some _ =>
      exists db' msg,
        delete_cart cart_id db = (db', Ok msg) /\
        (forall item, In item (cartitem db') ->
                      In item (cartitem db) /\
                      CartItem.cart_id item <> cart_id) /\
        line_items db' cart_id = [] /\
        shoppingcart db' =
          filter (fun c => negb (has_pk cart_id c)) (shoppingcart db) /\
        session_get (shoppingcart db') cart_id = None /\
        read_cart cart_id db' =
          (db', Raise (HTTPException 404 "Shopping cart not found")) /\
        get_cart_items cart_id db' =
          (db', Raise (HTTPException 404 "Shopping cart not found")) /\
        catalog db' = catalog db
  | None =>
      delete_cart cart_id db =
      (db, Raise (HTTPException 404 "Shopping cart not found"))
  end.
Proof.
  intros Hreach _. pose proof (reachable_items_ok db Hreach) as Hok.
  destruct (session_get (shoppingcart db) cart_id) as [cart|] eqn:Hcart.
  - destruct (delete_cart_run db cart_id cart Hok Hcart)
      as (t' & Hrun & Hleft).
    eexists _, _. split; [exact Hrun|].
    assert (Hgone :
      session_get
        (filter (fun c => negb (has_pk cart_id c)) (shoppingcart db))
        cart_id = None) by apply session_get_deleted.
    split; [|split; [|split; [|split; [|split; [|split]]]]].
    + intros item Hitem. now apply Hleft.
    + unfold line_items. cbn [cartitem]. apply filter_none.
      intros x Hx. apply Z.eqb_neq. now apply Hleft.
    + reflexivity.
    + exact Hgone.
    + unfold read_cart. run_gets. cbn [shoppingcart]. now rewrite Hgone.
    + unfold get_cart_items. run_gets. cbn [shoppingcart]. now rewrite Hgone.
    + reflexivity.
  - unfold delete_cart. run_get Hcart. reflexivity.
Qed.

Lemma delete_cart_removes_cart_and_items_witness :
  exists db' msg,
    delete_cart 1 shop_with_items_db = (db', Ok msg) /\
    (forall item, In item (cartitem db') ->
                  In item (cartitem shop_with_items_db) /\
                  CartItem.cart_id item <> 1) /\
    line_items db' 1 = [] /\
    shoppingcart db' =
      filter (fun c => negb (has_pk 1 c)) (shoppingcart shop_with_items_db) /\
    session_get (shoppingcart db') 1 = None /\
    read_cart 1 db' =
      (db', Raise (HTTPException 404 "Shopping cart not found")) /\
    get_cart_items 1 db' =
      (db', Raise (HTTPException 404 "Shopping cart not found")) /\
    catalog db' = catalog shop_with_items_db.
Proof.
  apply (delete_cart_removes_cart_and_items shop_with_items_db 1);
    [|reflexivity].
  unfold shop_with_items_db, shop_db.
  repeat apply reachable_steps. apply reachable_empty.
Defined.

(* ================================================================== *)
(** * Creation and its defaults *)
(* ================================================================== *)

(** A record created without an id is stored under a fresh id and read
    back as it was returned. *)
Lemma create_then_read {A : Type} `{Model A} (T : table A)
  (rows_set_rows : forall t db, rows T (set_rows T t db) = t) r db :
  pk r = None ->
  exists db',
    add_commit_refresh T r db =
      (db', Ok (with_pk (next_rowid (rows T db)) r)) /\
    get T (next_rowid (rows T db)) db' =
      (db', Ok (Some (with_pk (next_rowid (rows T db)) r))).
Proof.
  intros Hpk. unfold add_commit_refresh, on_table, insert. rewrite Hpk.
  eexists. split; [reflexivity|]. unfold get, gets. rewrite rows_set_rows.
  rewrite session_get_insert_row_new; [reflexivity|apply pk_with_pk|].
  apply next_rowid_fresh.
Qed.

Lemma create_sofa_then_read sofa db :
  IkeaSofa.id sofa = None ->
  exists db' i,
    create_sofa sofa db =
      (db', Ok (IkeaSofa.set (IkeaSofa.a_id (Some i)) sofa)) /\
    read_sofa i db' = (db', Ok (IkeaSofa.set (IkeaSofa.a_id (Some i)) sofa)).
Proof.
  intros Hid.
  destruct (@create_then_read _ IkeaSofa_Model sofas (fun _ _ => eq_refl)
              sofa db Hid)
    as (db' & Hc & Hr).
  exists db', (next_rowid (ikeasofa db)). split; [exact Hc|].
  unfold read_sofa, bind. change (rows sofas db) with (ikeasofa db) in Hr.
  now rewrite Hr.
Qed.

(** The fields a creation payload leaves out hold the class defaults, and
    the default of [date_added] is the day the module was loaded. *)
Lemma sofa_body_defaults c body x :
  sofa_of_body c body = Ok x ->
  (key_mem (IkeaSofa.inherited IkeaFurniture.k_date_added)
     (map IkeaSofa.key_of body) = false ->
   IkeaFurniture.date_added (IkeaSofa.base (obj x)) = module_loaded c) /\
  (key_mem (IkeaSofa.inherited IkeaFurniture.k_in_stock)
     (map IkeaSofa.key_of body) = false ->
   IkeaFurniture.in_stock (IkeaSofa.base (obj x)) = true).
Proof.
  unfold sofa_of_body, validate.
  destruct (forallb _ IkeaSofa.required); [|discriminate].
  intros [= <-]. cbn [obj construct].
  split; intros Hk;
    pose proof (@getattr_setattr_all_untouched _ _ _ IkeaSofa_Fields
                  sofa_eqb_eq sofa_get_set_other _ body
                  (IkeaSofa.defaults (module_loaded c)) Hk) as Hd;
    cbn [getattr IkeaSofa_Fields IkeaSofa.get IkeaFurniture.get] in Hd;
    now injection Hd.
Qed.

(** C7, at its failing input: the module is loaded on 3 November and a
    sofa is created on the 4th with [date_added] and [in_stock] left out.
    The record is stored under the id 1 and read back as returned, with
    [in_stock] true, but its [date_added] is the 3rd, the day the module
    was loaded, not the day of creation; the [created_date] of a cart made
    on the same day is the 4th. *)
Theorem date_added_default_is_the_module_load_day :
  exists db sofa,
    post_sofas overnight kivik_body empty_db = (db, Ok sofa) /\
    read_sofa 1 db = (db, Ok sofa) /\
    IkeaSofa.id sofa = Some 1 /\
    IkeaFurniture.in_stock (IkeaSofa.base sofa) = true /\
    IkeaFurniture.date_added (IkeaSofa.base sofa) = module_loaded overnight /\
    IkeaFurniture.date_added (IkeaSofa.base sofa) <> today overnight /\
    ShoppingCart.created_date (cart_of_body overnight "John Doe" None) =
    today overnight.
Proof.
  eexists _, _. split; [reflexivity|]. repeat split. discriminate.
Qed.

(* ================================================================== *)
(** * Primary keys are unique *)
(* ================================================================== *)

Section KeyedFacts.
Context {A : Type} `{Model A}.

Lemma has_pk_true (i : Z) (r : A) : has_pk i r = true -> pk r = Some i.
Proof.
  unfold has_pk. destruct (pk r) as [j|]; [|discriminate].
  intros Hj. apply Z.eqb_eq in Hj. now subst.
Qed.

Lemma existsb_has_pk_false (i : Z) (t : list A) :
  existsb (has_pk i) t = false -> ~ In (Some i) (map pk t).
Proof.
  intros He Hin. apply in_map_iff in Hin as (x & Hx & Hin).
  assert (existsb (has_pk i) t = true); [|congruence].
  apply existsb_exists. exists x. split; [assumption|].
  now apply has_pk_of_pk.
Qed.

Lemma insert_row_perm (i : Z) (r : A) (t : list A) :
  Permutation (insert_row i r t) (r :: t).
Proof.
  induction t as [|x t IH]; simpl; [reflexivity|].
  destruct (pk x) as [j|]; [destruct (i <? j)|]; try reflexivity;
    (rewrite IH; apply perm_swap).
Qed.

Lemma keyed_insert_row (i : Z) (r : A) (t : list A) :
  keyed t -> pk r = Some i -> existsb (has_pk i) t = false ->
  keyed (insert_row i r t).
Proof.
  intros [Hall Hnd] Hr Hfresh. split.
  - apply Forall_insert_row; [congruence|assumption].
  - apply Permutation_NoDup with (l := map pk (r :: t)).
    + apply Permutation_map. symmetry. apply insert_row_perm.
    + simpl. constructor; [|assumption]. rewrite Hr.
      now apply existsb_has_pk_false.
Qed.

Lemma NoDup_map_filter {B : Type} (f : A -> B) (p : A -> bool) (t : list A) :
  NoDup (map f t) -> NoDup (map f (filter p t)).
Proof.
  induction t as [|x t IH]; simpl; intros Hnd; [constructor|].
  inversion Hnd as [|? ? Hx Ht]; subst.
  destruct (p x); simpl; [|auto]. constructor; [|auto].
  intros Hin. apply Hx. apply in_map_iff in Hin as (y & Hy & Hin).
  apply filter_In in Hin as [Hin _]. apply in_map_iff. eauto.
Qed.

Lemma keyed_filter (p : A -> bool) (t : list A) :
  keyed t -> keyed (filter p t).
Proof.
  intros [Hall Hnd]. split; [now apply Forall_filter|].
  now apply NoDup_map_filter.
Qed.

Lemma map_pk_replace (i : Z) (r : A) (t : list A) :
  pk r = Some i ->
  map pk (map (fun x => if has_pk i x then r else x) t) = map pk t.
Proof.
  intros Hr. rewrite map_map. apply map_ext. intros x.
  destruct (has_pk i x) eqn:Hx; [|reflexivity].
  now rewrite (has_pk_true i x Hx).
Qed.

Lemma keyed_replace (i : Z) (r : A) (t : list A) :
  keyed t -> pk r = Some i ->
  keyed (map (fun x => if has_pk i x then r else x) t).
Proof.
  intros [Hall Hnd] Hr. split.
  - apply Forall_forall. intros x Hx. apply in_map_iff in Hx as (y & <- & Hy).
    destruct (has_pk i y); [congruence|].
    now apply (proj1 (Forall_forall _ _) Hall).
  - now rewrite map_pk_replace.
Qed.

Lemma insert_keyed (r r' : A) (t t' : list A) :
  insert r t = Ok (t', r') -> keyed t -> keyed t'.
Proof.
  unfold insert. destruct (pk r) as [i|] eqn:Hr.
  - destruct (existsb (has_pk i) t) eqn:He; [discriminate|].
    intros [= <- <-] Ht. now apply keyed_insert_row.
  - intros [= <- <-] Ht. apply keyed_insert_row; [assumption| |].
    + apply pk_with_pk.
    + apply next_rowid_fresh.
Qed.

Lemma update_keyed (i : Z) (r : A) (t t' : list A) :
  update i r t = Ok t' -> keyed t -> keyed t'.
Proof.
  unfold update. destruct (pk r) as [j|] eqn:Hr; [|discriminate].
  destruct (j =? i) eqn:Hji.
  - apply Z.eqb_eq in Hji. subst j. intros [= <-] Ht.
    now apply keyed_replace.
  - destruct (existsb (has_pk j) t) eqn:He; [discriminate|].
    intros [= <-] Ht. apply keyed_insert_row; [|assumption|].
    + now apply keyed_filter.
    + now apply existsb_filter_false.
Qed.

Lemma delete_keyed (r : A) (t t' : list A) :
  delete r t = Ok t' -> keyed t -> keyed t'.
Proof.
  unfold delete. destruct (pk r); [|discriminate].
  intros [= <-] Ht. now apply keyed_filter.
Qed.

(** In a keyed table a row is found under its key. *)
Lemma keyed_session_get (t : list A) (r : A) (i : Z) :
  keyed t -> In r t -> pk r = Some i -> session_get t i = Some r.
Proof.
  unfold session_get. intros [_ Hnd] Hin Hr.
  induction t as [|x t IH]; [contradiction|]. simpl in *.
  inversion Hnd as [|? ? Hx Ht]; subst.
  destruct Hin as [->|Hin].
  - now rewrite (has_pk_of_pk _ _ Hr).
  - destruct (has_pk i x) eqn:Hxi; [|auto].
    exfalso. apply Hx. rewrite (has_pk_true i x Hxi), <- Hr.
    now apply in_map.
Qed.

Lemma session_get_filter_other (i j : Z) (t : list A) :
  i <> j ->
  session_get (filter (fun x => negb (has_pk i x)) t) j = session_get t j.
Proof.
  intros Hij. unfold session_get.
  induction t as [|x t IH]; simpl; [reflexivity|].
  destruct (has_pk i x) eqn:Hx; simpl.
  - rewrite (has_pk_other i j x (has_pk_true i x Hx) Hij). exact IH.
  - destruct (has_pk j x); [reflexivity|exact IH].
Qed.

Lemma session_get_replace_other (i j : Z) (r : A) (t : list A) :
  pk r = Some i -> i <> j ->
  session_get (map (fun x => if has_pk i x then r else x) t) j =
  session_get t j.
Proof.
  intros Hr Hij. unfold session_get.
  induction t as [|x t IH]; simpl; [reflexivity|].
  destruct (has_pk i x) eqn:Hx.
  - rewrite (has_pk_other i j r Hr Hij),
      (has_pk_other i j x (has_pk_true i x Hx) Hij). exact IH.
  - destruct (has_pk j x); [reflexivity|exact IH].
Qed.

Lemma filter_absent (i : Z) (t : list A) :
  existsb (has_pk i) t = false ->
  filter (fun x => negb (has_pk i x)) t = t.
Proof.
  induction t as [|x t IH]; simpl; intros Hf; [reflexivity|].
  apply orb_false_iff in Hf as [Hx Ht]. rewrite Hx. simpl. now rewrite IH.
Qed.

Lemma filter_insert_row_fresh (i : Z) (r : A) (t : list A) :
  pk r = Some i -> existsb (has_pk i) t = false ->
  filter (fun x => negb (has_pk i x)) (insert_row i r t) = t.
Proof.
  intros Hr. pose proof (has_pk_of_pk _ _ Hr) as Hri.
  induction t as [|x t IH]; simpl; intros Hf.
  - now rewrite Hri.
  - pose proof Hf as Hf'. apply orb_false_iff in Hf as [Hx Ht].
    assert (Hkeep : filter (fun y => negb (has_pk i y)) (x :: t) = x :: t)
      by now apply filter_absent.
    destruct (pk x) as [j|]; [destruct (i <? j)|].
    + cbn [filter]. rewrite Hri. cbn [negb]. exact Hkeep.
    + cbn [filter]. rewrite Hx. cbn [negb]. now rewrite IH.
    + cbn [filter]. rewrite Hx. cbn [negb]. now rewrite IH.
Qed.

Lemma insert_row_next (r : A) (t : list A) :
  insert_row (next_rowid t) r t = t ++ [r].
Proof.
  assert (Hall : forall x j, In x t -> pk x = Some j -> j < next_rowid t)
    by (intros x j; apply next_rowid_above).
  generalize dependent (next_rowid t). intros n Hall.
  induction t as [|x t IH]; simpl; [reflexivity|].
  rewrite IH by (intros y j Hy; apply Hall; now right).
  destruct (pk x) as [j|] eqn:Hx; [|reflexivity].
  pose proof (Hall x j (or_introl eq_refl) Hx).
  destruct (n <? j) eqn:Hn; [|reflexivity].
  apply Z.ltb_lt in Hn. lia.
Qed.

End KeyedFacts.

Lemma sofas_keyed_table : keyed_table sofas.
Proof. split; unfold db_keyed; simpl; tauto. Qed.

Lemma dining_tables_keyed_table : keyed_table dining_tables.
Proof. split; unfold db_keyed; simpl; tauto. Qed.

Lemma matresses_keyed_table : keyed_table matresses.
Proof. split; unfold db_keyed; simpl; tauto. Qed.

Lemma carts_keyed_table : keyed_table carts.
Proof. split; unfold db_keyed; simpl; tauto. Qed.

Lemma cart_items_keyed_table : keyed_table cart_items.
Proof. split; unfold db_keyed; simpl; tauto. Qed.

Create HintDb keyed.
#[export] Hint Resolve sofas_keyed_table dining_tables_keyed_table
  matresses_keyed_table carts_keyed_table cart_items_keyed_table : keyed.

Section KeyedTable.
Context {A : Type} `{Model A} (T : table A).
Hypothesis HT : keyed_table T.

Lemma maintains_keyed_on_table {B : Type}
  (g : list A -> result (list A * B)) :
  (forall t t' b, g t = Ok (t', b) -> keyed t -> keyed t') ->
  maintains db_keyed (on_table T g).
Proof.
  intros Hg db Hdb. unfold on_table.
  destruct (g (rows T db)) as [[t' b]|e] eqn:Hrun; simpl; [|assumption].
  apply (proj2 HT); [assumption|].
  apply (Hg _ _ _ Hrun). now apply (proj1 HT).
Qed.

Lemma maintains_keyed_add (r : A) :
  maintains db_keyed (add_commit_refresh T r).
Proof.
  apply maintains_keyed_on_table. intros t t' b. apply insert_keyed.
Qed.

Lemma maintains_keyed_commit (i : Z) (r : A) :
  maintains db_keyed (commit_refresh T i r).
Proof.
  apply maintains_keyed_on_table. intros t t' b.
  destruct (update i r t) as [t1|e] eqn:Hu; [|discriminate].
  intros [= <- _]. now apply (update_keyed i r t).
Qed.

Lemma maintains_keyed_delete (r : A) :
  maintains db_keyed (session_delete T r).
Proof.
  apply maintains_keyed_on_table. intros t t' b.
  destruct (delete r t) as [t1|e] eqn:Hd; [|discriminate].
  intros [= <- _]. now apply (delete_keyed r t).
Qed.

End KeyedTable.

Ltac keyed_step :=
  first
    [ apply maintains_ret | apply maintains_raise | apply maintains_lift
    | apply maintains_gets
    | apply maintains_keyed_add; auto with keyed
    | apply maintains_keyed_commit; auto with keyed
    | apply maintains_keyed_delete; auto with keyed
    | apply maintains_until_commit
    | apply maintains_for_each; intros ?
    | apply maintains_respond
    | apply maintains_bind; [|intros ?]
    | match goal with
      | |- maintains _ (match ?x with _ => _ end) => destruct x
      end ].

Ltac keyed_all :=
  unfold get, exec_all, refresh; repeat keyed_step.

(** Every call keeps the primary keys of every table in place and
    distinct. *)
Lemma handle_keyed (r : call) : maintains db_keyed (handle r).
Proof.
  destruct r; cbn [handle];
    unfold create_sofa, update_sofa, delete_sofa, create_dining_table,
      update_dining_table, delete_dining_table, create_mattress,
      update_mattress, delete_mattress, create_cart, update_cart,
      delete_cart, add_item_to_cart, update_cart_item, remove_cart_item,
      add_item, refresh_furniture;
    keyed_all.
Qed.

Lemma empty_db_keyed : db_keyed empty_db.
Proof. repeat split; constructor. Qed.

Lemma reachable_keyed (db : DB) : reachable db -> db_keyed db.
Proof.
  induction 1 as [|r db _ IH]; [apply empty_db_keyed|].
  now apply handle_keyed.
Qed.

(* ================================================================== *)
(** * Create, read and delete *)
(* ================================================================== *)

Lemma set_rows_same_sofas db : set_rows sofas (ikeasofa db) db = db.
Proof. now destruct db. Qed.

Lemma set_rows_same_dining_tables db :
  set_rows dining_tables (ikeadiningtable db) db = db.
Proof. now destruct db. Qed.

Lemma set_rows_same_matresses db :
  set_rows matresses (ikeamatress db) db = db.
Proof. now destruct db. Qed.

Lemma set_rows_same_carts db : set_rows carts (shoppingcart db) db = db.
Proof. now destruct db. Qed.

Section CrudFacts.
Context {A : Type} `{Model A} (T : table A).
Hypothesis rows_set_rows : forall t db, rows T (set_rows T t db) = t.
Hypothesis set_rows_set_rows :
  forall t t' db, set_rows T t (set_rows T t' db) = set_rows T t db.
Hypothesis set_rows_rows : forall db, set_rows T (rows T db) db = db.

Lemma add_commit_refresh_new (r : A) (db : DB) :
  pk r = None ->
  add_commit_refresh T r db =
  (set_rows T
     (insert_row (next_rowid (rows T db)) (with_pk (next_rowid (rows T db)) r)
        (rows T db)) db,
   Ok (with_pk (next_rowid (rows T db)) r)).
Proof.
  intros Hr. unfold add_commit_refresh, on_table, insert. now rewrite Hr.
Qed.

Lemma next_rowid_free (t : list A) : session_get t (next_rowid t) = None.
Proof.
  unfold session_get. destruct (find _ t) as [x|] eqn:Hf; [|reflexivity].
  apply find_some in Hf as [Hin Hx].
  pose proof (next_rowid_above t x _ Hin (has_pk_true _ _ Hx)). lia.
Qed.

Lemma session_delete_loaded (i : Z) (r : A) (db : DB) :
  pk r = Some i ->
  session_delete T r db =
  (set_rows T (filter (fun x => negb (has_pk i x)) (rows T db)) db, Ok tt).
Proof.
  intros Hr. unfold session_delete, on_table, delete. now rewrite Hr.
Qed.

Lemma insert_then_delete (r : A) (db : DB) :
  pk r = None ->
  let i := next_rowid (rows T db) in
  session_delete T (with_pk i r) (fst (add_commit_refresh T r db)) =
  (db, Ok tt).
Proof.
  intros Hr i. rewrite (add_commit_refresh_new r db Hr). cbn [fst].
  rewrite (session_delete_loaded i) by apply pk_with_pk.
  rewrite rows_set_rows, set_rows_set_rows.
  rewrite filter_insert_row_fresh;
    [now rewrite set_rows_rows|apply pk_with_pk|apply next_rowid_fresh].
Qed.

Lemma create_then_delete (delete_ : Z -> M DB dict) (text : Z -> dict) :
  (forall i r db,
     session_get (rows T db) i = Some r ->
     delete_ i db = bind (session_delete T r) (fun _ => ret (text i)) db) ->
  create_then_delete_restores (add_commit_refresh T) delete_.
Proof.
  intros Hdelete db r db1 r1 i Hr Hc Hi.
  pose proof (insert_then_delete r db Hr) as Hd. cbv zeta in Hd.
  rewrite (add_commit_refresh_new r db Hr) in Hc, Hd.
  cbn [fst] in Hd.
  assert (Hdb1 : db1 = set_rows T
            (insert_row (next_rowid (rows T db))
               (with_pk (next_rowid (rows T db)) r) (rows T db)) db)
    by congruence.
  assert (Hr1 : r1 = with_pk (next_rowid (rows T db)) r) by congruence.
  subst db1 r1. rewrite pk_with_pk in Hi.
  assert (Hi' : i = next_rowid (rows T db)) by congruence. subst i.
  rewrite (Hdelete _ (with_pk (next_rowid (rows T db)) r)).
  - unfold bind. rewrite Hd. eexists. reflexivity.
  - rewrite rows_set_rows. apply session_get_insert_row_new;
      [apply pk_with_pk|apply next_rowid_fresh].
Qed.

End CrudFacts.

Ltac creates_proof create_def read_def :=
  let db := fresh "db" in
  let r := fresh "r" in
  let Hr := fresh "Hr" in
  intros db r Hr _;
  eexists _, _;
  split; [apply next_rowid_free|];
  unfold create_def;
  split; [apply add_commit_refresh_new; exact Hr|];
  unfold read_def; run_gets;
  cbn [set_rows sofas dining_tables matresses carts ikeasofa ikeadiningtable
       ikeamatress shoppingcart];
  split;
  [ rewrite session_get_insert_row_new;
    [reflexivity|apply pk_with_pk|apply next_rowid_fresh]
  | let j := fresh "j" in
    let Hj := fresh "Hj" in
    intros j Hj;
    rewrite session_get_insert_row_other;
    [ match goal with
      | |- context [session_get ?t j] => destruct (session_get t j)
      end; reflexivity
    | apply pk_with_pk | congruence ] ].

Lemma create_sofa_creates : creates sofas create_sofa read_sofa.
Proof. creates_proof create_sofa read_sofa. Qed.

Lemma create_dining_table_creates :
  creates dining_tables create_dining_table read_dining_table.
Proof. creates_proof create_dining_table read_dining_table. Qed.

Lemma create_mattress_creates :
  creates matresses create_mattress read_mattress.
Proof. creates_proof create_mattress read_mattress. Qed.

Lemma create_cart_creates : creates carts create_cart read_cart.
Proof. creates_proof create_cart read_cart. Qed.

Ltac table_fields :=
  cbn [set_rows rows sofas dining_tables matresses carts cart_items ikeasofa
       ikeadiningtable ikeamatress shoppingcart cartitem].

Ltac table_fields_in H :=
  cbn [set_rows rows sofas dining_tables matresses carts cart_items ikeasofa
       ikeadiningtable ikeamatress shoppingcart cartitem] in H.

Ltac deletes_proof delete_def read_def :=
  let db := fresh "db" in
  let i := fresh "i" in
  let r := fresh "r" in
  let Hget := fresh "Hget" in
  intros db i _; table_fields;
  match goal with
  | |- match session_get ?t i with _ => _ end =>
      destruct (session_get t i) as [r|] eqn:Hget
  end;
  [ eexists _, _; unfold delete_def; run_get Hget;
    rewrite (session_delete_loaded _ i) by exact (session_get_pk _ _ _ Hget);
    split; [reflexivity|];
    unfold read_def; run_gets; table_fields;
    split; [now rewrite session_get_deleted|];
    split; [|split; reflexivity];
    let j := fresh "j" in
    let Hj := fresh "Hj" in
    intros j Hj;
    rewrite session_get_filter_other by congruence;
    match goal with
    | |- context [session_get ?t j] => destruct (session_get t j)
    end; reflexivity
  | unfold delete_def; run_get Hget; reflexivity ].

Lemma delete_sofa_deletes :
  deletes sofas delete_sofa read_sofa "Sofa not found".
Proof. deletes_proof delete_sofa read_sofa. Qed.

Lemma delete_dining_table_deletes :
  deletes dining_tables delete_dining_table read_dining_table
    "Dining table not found".
Proof. deletes_proof delete_dining_table read_dining_table. Qed.

Lemma delete_mattress_deletes :
  deletes matresses delete_mattress read_mattress "Mattress not found".
Proof. deletes_proof delete_mattress read_mattress. Qed.

Lemma create_delete_sofa_restores :
  create_then_delete_restores create_sofa delete_sofa.
Proof.
  apply (create_then_delete sofas (fun _ _ => eq_refl)
           (fun _ _ _ => eq_refl) set_rows_same_sofas delete_sofa
           (fun i =>
              message
                ("Sofa with ID " ++ str_of_int i ++ " deleted successfully")%string)).
  intros i r db Hget. table_rows. unfold delete_sofa. run_get Hget.
  reflexivity.
Qed.

Lemma create_delete_dining_table_restores :
  create_then_delete_restores create_dining_table delete_dining_table.
Proof.
  apply (create_then_delete dining_tables (fun _ _ => eq_refl)
           (fun _ _ _ => eq_refl) set_rows_same_dining_tables
           delete_dining_table
           (fun i =>
              message
                ("Dining table with ID " ++ str_of_int i ++
                 " deleted successfully")%string)).
  intros i r db Hget. table_rows. unfold delete_dining_table. run_get Hget.
  reflexivity.
Qed.

Lemma create_delete_mattress_restores :
  create_then_delete_restores create_mattress delete_mattress.
Proof.
  apply (create_then_delete matresses (fun _ _ => eq_refl)
           (fun _ _ _ => eq_refl) set_rows_same_matresses delete_mattress
           (fun i =>
              message
                ("Mattress with ID " ++ str_of_int i ++
                 " deleted successfully")%string)).
  intros i r db Hget. table_rows. unfold delete_mattress. run_get Hget.
  reflexivity.
Qed.

(* ================================================================== *)
(** * Changing and removing line items *)
(* ================================================================== *)

Lemma owned_item_stored db cart_id item_id item :
  owned_item db cart_id item_id = Ok item ->
  session_get (cartitem db) item_id = Some item /\
  CartItem.cart_id item = cart_id /\
  CartItem.id item = Some item_id /\
  In item (line_items db cart_id).
Proof.
  unfold owned_item.
  destruct (session_get (shoppingcart db) cart_id); [|discriminate].
  destruct (session_get (cartitem db) item_id) as [x|] eqn:Hx;
    [|discriminate].
  destruct (CartItem.cart_id x =? cart_id) eqn:Hc; [|discriminate].
  intros [= <-]. apply Z.eqb_eq in Hc.
  split; [reflexivity|]. split; [assumption|].
  split; [exact (session_get_pk _ _ _ Hx)|].
  apply filter_In. split; [now apply session_get_In in Hx|].
  now apply Z.eqb_eq.
Qed.

(** [remove_cart_item], case by case. *)
Lemma remove_cart_item_run db cart_id item_id :
  remove_cart_item cart_id item_id db =
  match owned_item db cart_id item_id with
  | Ok _ =>
      (without_item item_id db,
       Ok (message "Item removed from cart successfully"))
  | Raise e => (db, Raise e)
  end.
Proof.
  unfold remove_cart_item, owned_item. run_gets.
  destruct (session_get (shoppingcart db) cart_id); [|reflexivity].
  destruct (session_get (cartitem db) item_id) as [item|] eqn:Hitem;
    [|reflexivity].
  destruct (CartItem.cart_id item =? cart_id); [|reflexivity].
  cbn [negb]. unfold bind.
  now rewrite (session_delete_loaded cart_items item_id item db
                 (session_get_pk _ _ _ Hitem)).
Qed.

(** [update_cart_item], case by case. *)
Lemma update_cart_item_run db cart_id item_id q :
  update_cart_item cart_id item_id q db =
  match owned_item db cart_id item_id with
  | Ok item =>
      (replace_item item_id (CartItem.set_quantity q item) db,
       item_response (CartItem.set_quantity q item))
  | Raise e => (db, Raise e)
  end.
Proof.
  unfold update_cart_item, owned_item. run_gets.
  destruct (session_get (shoppingcart db) cart_id); [|reflexivity].
  destruct (session_get (cartitem db) item_id) as [item|] eqn:Hitem;
    [|reflexivity].
  destruct (CartItem.cart_id item =? cart_id); [|reflexivity].
  cbn [negb]. unfold bind.
  rewrite (commit_refresh_same cart_items db item_id
             (CartItem.set_quantity q item));
    [reflexivity|exact (session_get_pk _ _ _ Hitem)].
Qed.

(** What the handlers answer for a line item with a float snapshot
    price. *)
Lemma item_response_ok item :
  item_ok item = true ->
  item_response item =
  Ok [("id", py_of_option_int (CartItem.id item));
      ("furniture_type", PyStr (CartItem.furniture_type item));
      ("furniture_id", PyInt (CartItem.furniture_id item));
      ("quantity", PyInt (CartItem.quantity item));
      ("name",
       dict_get (json_loads (CartItem.furniture_data item)) "name"
         (PyStr "Unknown"));
      ("price", PyFloat (arg 0%float (snapshot_price item)));
      ("subtotal", PyFloat (subtotal item))].
Proof.
  intros Hok. unfold item_response. rewrite (line_price_ok item Hok).
  unfold item_ok, snapshot_price, dict_get in *.
  destruct (CartItem.id item); [|discriminate].
  destruct (dict_lookup (json_loads (CartItem.furniture_data item)) "price")
    as [[| | |p|]|]; try discriminate.
  reflexivity.
Qed.

Section SplitFacts.
Context {A : Type} `{Model A}.

(** In a keyed table the row of a key stands alone. *)
Lemma keyed_split (t : list A) (r : A) (i : Z) :
  keyed t -> In r t -> pk r = Some i ->
  exists l1 l2,
    t = l1 ++ r :: l2 /\
    existsb (has_pk i) l1 = false /\ existsb (has_pk i) l2 = false.
Proof.
  intros [_ Hnd] Hin Hr.
  apply in_split in Hin as (l1 & l2 & ->). exists l1, l2.
  split; [reflexivity|].
  rewrite map_app in Hnd. simpl in Hnd. rewrite Hr in Hnd.
  pose proof (NoDup_remove_2 _ _ _ Hnd) as Hout.
  split.
  - destruct (existsb (has_pk i) l1) eqn:He; [|reflexivity].
    exfalso. apply Hout. apply in_or_app. left.
    apply existsb_exists in He as (x & Hx & Hp).
    apply in_map_iff. exists x. split; [now apply has_pk_true|assumption].
  - destruct (existsb (has_pk i) l2) eqn:He; [|reflexivity].
    exfalso. apply Hout. apply in_or_app. right.
    apply existsb_exists in He as (x & Hx & Hp).
    apply in_map_iff. exists x. split; [now apply has_pk_true|assumption].
Qed.

Lemma replace_absent (i : Z) (r : A) (t : list A) :
  existsb (has_pk i) t = false ->
  map (fun x => if has_pk i x then r else x) t = t.
Proof.
  induction t as [|x t IH]; simpl; intros Hf; [reflexivity|].
  apply orb_false_iff in Hf as [Hx Ht]. now rewrite Hx, IH.
Qed.

Lemma replace_split (i : Z) (old new : A) (l1 l2 : list A) :
  pk old = Some i ->
  existsb (has_pk i) l1 = false -> existsb (has_pk i) l2 = false ->
  map (fun x => if has_pk i x then new else x) (l1 ++ old :: l2) =
  l1 ++ new :: l2.
Proof.
  intros Hold H1 H2. rewrite map_app. simpl.
  now rewrite (has_pk_of_pk _ _ Hold), !replace_absent.
Qed.

Lemma filter_split (i : Z) (old : A) (l1 l2 : list A) :
  pk old = Some i ->
  existsb (has_pk i) l1 = false -> existsb (has_pk i) l2 = false ->
  filter (fun x => negb (has_pk i x)) (l1 ++ old :: l2) = l1 ++ l2.
Proof.
  intros Hold H1 H2. rewrite filter_app. simpl.
  now rewrite (has_pk_of_pk _ _ Hold), !filter_absent.
Qed.

End SplitFacts.

Lemma int_sum_app (l1 l2 : list Z) : int_sum (l1 ++ l2) = int_sum l1 + int_sum l2.
Proof.
  induction l1 as [|x l1 IH]; simpl; [reflexivity|]. rewrite IH. lia.
Qed.

Lemma total_quantity_split (p : CartItem.t -> bool) l1 x l2 :
  int_sum (map CartItem.quantity (filter p (l1 ++ x :: l2))) =
  int_sum (map CartItem.quantity (filter p (l1 ++ l2))) +
  (if p x then CartItem.quantity x else 0).
Proof.
  rewrite !filter_app. simpl. destruct (p x); simpl;
    rewrite !map_app, !int_sum_app; simpl; lia.
Qed.

(** The total quantity of a cart after one of its items got a new
    quantity, and after one of its items was removed. *)
Lemma total_quantity_replace db cart_id item_id item q :
  db_keyed db ->
  owned_item db cart_id item_id = Ok item ->
  total_quantity_of (replace_item item_id (CartItem.set_quantity q item) db)
    cart_id =
  total_quantity_of db cart_id - CartItem.quantity item + q /\
  total_quantity_of (without_item item_id db) cart_id =
  total_quantity_of db cart_id - CartItem.quantity item.
Proof.
  intros Hk Hown.
  destruct (owned_item_stored _ _ _ _ Hown) as (Hget & Hc & Hid & _).
  destruct Hk as (_ & _ & _ & _ & Hk).
  destruct (keyed_split (cartitem db) item item_id Hk
              (session_get_In _ _ _ Hget) Hid) as (l1 & l2 & Ht & H1 & H2).
  unfold total_quantity_of, line_items, replace_item, without_item.
  cbn [set_rows cart_items cartitem]. rewrite Ht.
  rewrite (@replace_split _ CartItem_Model item_id item _ l1 l2 Hid H1 H2),
    (@filter_split _ CartItem_Model item_id item l1 l2 Hid H1 H2),
    !total_quantity_split.
  cbn [CartItem.set_quantity CartItem.cart_id CartItem.quantity].
  rewrite Hc, Z.eqb_refl. lia.
Qed.

(* ================================================================== *)
(** * Every line item has its cart *)
(* ================================================================== *)

Lemma insert_keeps_rows {A : Type} `{Model A} (r r' : A) (t t' : list A) j :
  insert r t = Ok (t', r') ->
  session_get t j <> None -> session_get t' j <> None.
Proof.
  unfold insert. destruct (pk r) as [i|] eqn:Hr.
  - destruct (existsb (has_pk i) t) eqn:He; [discriminate|].
    intros [= <- <-] Hj.
    destruct (Z.eq_dec i j) as [->|Hij].
    + now rewrite session_get_insert_row_new.
    + now rewrite (session_get_insert_row_other i j r t Hr Hij).
  - intros [= <- <-] Hj.
    destruct (Z.eq_dec (next_rowid t) j) as [<-|Hij].
    + now rewrite next_rowid_free in Hj.
    + now rewrite (session_get_insert_row_other (next_rowid t) j _ t
                     (pk_with_pk _ _) Hij).
Qed.

Lemma replace_keeps_rows {A : Type} `{Model A} i (old r : A) (t : list A) j :
  session_get t i = Some old -> pk r = Some i ->
  session_get t j <> None ->
  session_get (map (fun x => if has_pk i x then r else x) t) j <> None.
Proof.
  intros Hold Hr Hj. destruct (Z.eq_dec i j) as [<-|Hij].
  - now rewrite (session_get_replaced t i old r Hold Hr).
  - now rewrite (session_get_replace_other i j r t Hr Hij).
Qed.

Lemma fst_bind_lift {A B : Type} (m : M DB A) (g : A -> result B) db :
  fst (bind m (fun a => lift (g a)) db) = fst (m db).
Proof. unfold bind, lift. now destruct (m db) as [db' [a|e]]. Qed.

(** Every call leaves every line item with its cart. *)
Lemma handle_no_orphans (r : call) (db : DB) :
  items_ok db -> no_orphans db -> no_orphans (step r db).
Proof.
  intros Hok Hno. unfold step.
  destruct (catalog_call r) eqn:Hr.
  - pose proof (catalog_call_keeps r Hr db) as Hk. cbv beta in Hk.
    injection Hk as Hc Hi. unfold no_orphans. now rewrite Hc, Hi.
  - destruct r; try discriminate; clear Hr; cbn [handle];
      rewrite fst_respond.
    + (* create_cart *)
      unfold create_cart, add_commit_refresh, on_table. cbn [rows carts].
      destruct (insert cart (shoppingcart db)) as [[t' r']|e] eqn:Hins;
        [|exact Hno].
      cbn [fst set_rows carts]. unfold no_orphans. cbn [shoppingcart cartitem].
      eapply Forall_impl; [|exact Hno]. intros item.
      now apply (insert_keeps_rows cart r' _ t').
    + (* update_cart *)
      unfold update_cart. run_gets.
      destruct (session_get (shoppingcart db) cart_id) as [old|] eqn:Hold;
        [|exact Hno].
      match goal with
      | |- context [commit_refresh carts cart_id ?new] =>
          rewrite (commit_refresh_same carts db cart_id new)
            by (destruct (ShoppingCart.body_customer_name cart_data),
                  (ShoppingCart.body_customer_email cart_data);
                exact (session_get_pk _ _ _ Hold));
          cbn [fst set_rows carts]; unfold no_orphans;
          cbn [shoppingcart cartitem];
          eapply Forall_impl; [|exact Hno]; intros item;
          apply (replace_keeps_rows cart_id old new);
          [ exact Hold
          | destruct (ShoppingCart.body_customer_name cart_data),
              (ShoppingCart.body_customer_email cart_data);
            exact (session_get_pk _ _ _ Hold) ]
      end.
    + (* delete_cart *)
      destruct (session_get (shoppingcart db) cart_id) as [cart|] eqn:Hcart.
      * destruct (delete_cart_run db cart_id cart Hok Hcart)
          as (t' & Hrun & Hleft).
        rewrite Hrun. cbn [fst]. unfold no_orphans.
        cbn [shoppingcart cartitem]. apply Forall_forall. intros x Hx.
        destruct (Hleft x Hx) as [Hin Hc].
        rewrite session_get_filter_other by congruence.
        now apply (proj1 (Forall_forall _ _) Hno).
      * unfold delete_cart. run_get Hcart. exact Hno.
    + (* add_item_to_cart *)
      rewrite add_item_to_cart_run. unfold add_item_outcome.
      destruct (session_get (shoppingcart db) cart_id) eqn:Hcart;
        [|exact Hno].
      destruct (known_tag "matress" furniture_type); [|exact Hno].
      destruct (find_furniture "matress" db furniture_type furniture_id0);
        [|exact Hno].
      cbn [fst]. unfold no_orphans, with_item.
      cbn [set_rows cart_items cartitem shoppingcart].
      apply Forall_insert_row; [|exact Hno].
      cbn [new_item CartItem.cart_id]. now rewrite Hcart.
    + (* update_cart_item *)
      rewrite update_cart_item_run.
      destruct (owned_item db cart_id item_id) as [item|e] eqn:Hown;
        [|exact Hno].
      destruct (owned_item_stored _ _ _ _ Hown) as (Hget & _).
      cbn [fst]. unfold no_orphans, replace_item.
      cbn [set_rows cart_items cartitem shoppingcart].
      apply Forall_forall. intros x Hx.
      apply in_map_iff in Hx as (y & <- & Hy).
      destruct (has_pk item_id y).
      * cbn [CartItem.set_quantity CartItem.cart_id].
        apply (proj1 (Forall_forall _ _) Hno). now apply session_get_In in Hget.
      * now apply (proj1 (Forall_forall _ _) Hno).
    + (* remove_cart_item *)
      rewrite remove_cart_item_run.
      destruct (owned_item db cart_id item_id); [|exact Hno].
      cbn [fst]. unfold no_orphans, without_item.
      cbn [set_rows cart_items cartitem shoppingcart].
      now apply Forall_filter.
Qed.

Lemma reachable_no_orphans (db : DB) : reachable db -> no_orphans db.
Proof.
  induction 1 as [|r db Hdb IH]; [constructor|].
  apply handle_no_orphans; [now apply reachable_items_ok|assumption].
Qed.

(* ================================================================== *)
(** * Reads change nothing, failures change nothing *)
(* ================================================================== *)

Lemma atomic_ret {A : Type} (a : A) : atomic (@ret DB A a).
Proof. intros db e _. reflexivity. Qed.

Lemma atomic_raise {A : Type} (e : exn) : atomic (@raise DB A e).
Proof. intros db e' _. reflexivity. Qed.

Lemma atomic_on_table {A B : Type} (T : table A)
  (g : list A -> result (list A * B)) : atomic (on_table T g).
Proof.
  intros db e. unfold on_table.
  destruct (g (rows T db)) as [[t' b]|e']; [discriminate|reflexivity].
Qed.

Lemma atomic_until_commit {A : Type} (m : M DB A) : atomic (until_commit m).
Proof.
  intros db e. unfold until_commit.
  destruct (m db) as [db' [a|e']]; [discriminate|reflexivity].
Qed.

Lemma atomic_after_read {A B : Type} (m : M DB A) (k : A -> M DB B) :
  read_only m -> (forall a, atomic (k a)) -> atomic (bind m k).
Proof.
  intros Hm Hk db e. unfold bind. specialize (Hm db). cbv beta in Hm.
  destruct (m db) as [db' [a|e']]; simpl in Hm; subst db'.
  - apply Hk.
  - reflexivity.
Qed.

Lemma atomic_then_ret {A B : Type} (m : M DB A) (b : A -> B) :
  atomic m -> atomic (bind m (fun a => ret (b a))).
Proof.
  intros Hm db e. unfold bind, ret. specialize (Hm db).
  destruct (m db) as [db' [a|e']]; [discriminate|].
  intros _. now apply (Hm e').
Qed.

Lemma read_only_get {A : Type} `{Model A} (T : table A) i :
  read_only (get T i).
Proof. intros db. reflexivity. Qed.

Ltac atomic_step :=
  first
    [ apply atomic_ret | apply atomic_raise | apply atomic_on_table
    | apply atomic_until_commit
    | apply atomic_then_ret
    | apply atomic_after_read; [apply read_only_get|intros ?]
    | match goal with
      | |- atomic (match ?x with _ => _ end) => destruct x
      end ].

(** A call that raises leaves the database as it was, provided the line
    items in it are as [add_item] writes them. *)
Lemma handle_atomic (r : call) (db : DB) (e : exn) :
  items_ok db -> snd (handle r db) = Raise e -> step r db = db.
Proof.
  intros Hok. unfold step.
  assert (Hresp : forall (A : Type) (m : M DB A),
             (forall e', snd (m db) = Raise e' -> fst (m db) = db) ->
             snd (respond m db) = Raise e -> fst (respond m db) = db).
  { intros A m Hm. rewrite fst_respond. unfold respond, bind, ret.
    destruct (m db) as [db' [a|e']]; [discriminate|].
    intros _. now apply (Hm e'). }
  destruct r; cbn [handle]; apply Hresp; intros e';
    try (unfold create_sofa, update_sofa, delete_sofa, create_dining_table,
           update_dining_table, delete_dining_table, create_mattress,
           update_mattress, delete_mattress, create_cart, update_cart,
           delete_cart, remove_cart_item, add_commit_refresh, commit_refresh,
           session_delete;
         revert db Hok Hresp e'; intros db _ _;
         match goal with
         | |- forall e', snd (?m db) = _ -> _ =>
             assert (Hat : atomic m) by (repeat atomic_step);
             exact (Hat db)
         end).
  - (* add_item_to_cart *)
    rewrite add_item_to_cart_run. unfold add_item_outcome.
    destruct (session_get (shoppingcart db) cart_id); [|reflexivity].
    destruct (known_tag "matress" furniture_type); [|reflexivity].
    destruct (find_furniture "matress" db furniture_type furniture_id0)
      as [f|] eqn:Hf; [|reflexivity].
    destruct (find_furniture_priced _ _ _ _ _ Hf) as [p Hp].
    destruct (item_response_new_item db cart_id furniture_type furniture_id0
                f (arg 1 quantity) p Hp) as (resp & Hresp' & _).
    rewrite Hresp'. discriminate.
  - (* update_cart_item *)
    rewrite update_cart_item_run.
    destruct (owned_item db cart_id item_id) as [item|e0] eqn:Hown;
      [|reflexivity].
    destruct (owned_item_stored _ _ _ _ Hown) as (Hget & _).
    rewrite item_response_ok; [discriminate|].
    apply item_ok_set_quantity.
    exact (proj1 (Forall_forall _ _) Hok item (session_get_In _ _ _ Hget)).
Qed.

(* ================================================================== *)
(** * The summary of a cart *)
(* ================================================================== *)

Lemma item_detail_ok item :
  item_ok item = true -> item_detail item = Ok (item_detail_of item).
Proof.
  intros Hok. unfold item_detail, item_detail_of.
  rewrite (line_price_ok item Hok).
  unfold item_ok, snapshot_price, dict_get in *.
  destruct (CartItem.id item); [|discriminate].
  destruct (dict_lookup (json_loads (CartItem.furniture_data item)) "price")
    as [[| | |p|]|]; try discriminate.
  reflexivity.
Qed.

Lemma item_details_loop_ok (l : list CartItem.t) (acc : list dict) :
  Forall (fun item => item_ok item = true) l ->
  item_details_loop l acc = Ok (acc ++ map item_detail_of l).
Proof.
  revert acc. induction l as [|item l IH]; intros acc Hl; simpl.
  - now rewrite app_nil_r.
  - inversion Hl as [|? ? Hitem Hl']; subst.
    rewrite (item_detail_ok item Hitem), (IH _ Hl'), <- app_assoc.
    reflexivity.
Qed.

Lemma get_cart_summary_run db cart cart_id :
  items_ok db -> ShoppingCart.id cart = Some cart_id ->
  get_cart_summary cart db =
  (db,
   Ok (Summary
         [("name", PyStr (ShoppingCart.customer_name cart));
          ("email", py_of_option_str (ShoppingCart.customer_email cart))]
         (map item_detail_of (line_items db cart_id))
         (PyInt (total_quantity_of db cart_id))
         (py_float_total (map subtotal (line_items db cart_id))))).
Proof.
  intros Hok Hid. unfold get_cart_summary. unfold bind at 1.
  rewrite (get_items_run db cart cart_id Hid). unfold bind at 1, lift.
  rewrite item_details_loop_ok by now apply Forall_filter.
  unfold bind. rewrite (total_quantity_run db cart cart_id Hid).
  now rewrite (total_price_run db cart cart_id Hok Hid).
Qed.

Lemma py_sum_from_float_list (a : float) (l : list float) :
  py_sum_from (PyFloat a) (map (fun x => Ok (PyFloat x)) l) =
  Ok (PyFloat (fold_left PrimFloat.add l a)).
Proof.
  revert a. induction l as [|x l IH]; intros a; simpl; [reflexivity|].
  apply IH.
Qed.

Lemma py_sum_float_list (l : list float) :
  py_sum (map (fun x => Ok (PyFloat x)) l) = Ok (py_float_total l).
Proof.
  destruct l as [|x l]; [reflexivity|]. unfold py_sum. simpl.
  apply py_sum_from_float_list.
Qed.

Lemma column_sum_subtotal (l : list CartItem.t) :
  column_sum "subtotal" (map item_detail_of l) =
  Ok (py_float_total (map subtotal l)).
Proof.
  unfold column_sum. rewrite map_map. cbn [item_detail_of dict_get dict_lookup
    String.eqb Ascii.eqb Bool.eqb].
  rewrite <- (map_map subtotal (fun x => Ok (PyFloat x))).
  apply py_sum_float_list.
Qed.

Lemma column_sum_quantity (l : list CartItem.t) :
  column_sum "quantity" (map item_detail_of l) =
  Ok (PyInt (int_sum (map CartItem.quantity l))).
Proof.
  unfold column_sum. rewrite map_map. cbn [item_detail_of dict_get dict_lookup
    String.eqb Ascii.eqb Bool.eqb].
  apply py_sum_quantities.
Qed.

(* ================================================================== *)
(** * The customer of a cart *)
(* ================================================================== *)

Lemma update_cart_run db cart_id data :
  update_cart cart_id data db =
  match session_get (shoppingcart db) cart_id with
  | Some old =>
      (set_rows carts
         (map (fun x => if has_pk cart_id x then updated_cart old data else x)
            (shoppingcart db)) db,
       Ok (updated_cart old data))
  | None => (db, Raise (HTTPException 404 "Shopping cart not found"))
  end.
Proof.
  unfold update_cart. run_gets.
  destruct (session_get (shoppingcart db) cart_id) as [old|] eqn:Hold;
    [|reflexivity].
  cbv zeta.
  match goal with
  | |- commit_refresh carts cart_id ?new db = _ =>
      replace new with (updated_cart old data)
        by (unfold updated_cart;
            destruct old, (ShoppingCart.body_customer_name data),
              (ShoppingCart.body_customer_email data); reflexivity)
  end.
  apply commit_refresh_same.
  exact (session_get_pk _ _ _ Hold).
Qed.

(* ================================================================== *)
(** * Pages *)
(* ================================================================== *)

Lemma firstn_firstn_skipn {A : Type} (n m : nat) (l : list A) :
  firstn n l ++ firstn m (skipn n l) = firstn (n + m) l.
Proof.
  revert l. induction n as [|n IH]; intros l; [reflexivity|].
  destruct l as [|x l]; simpl.
  - now rewrite firstn_nil.
  - now rewrite IH.
Qed.

Lemma skipn_skipn_add {A : Type} (n m : nat) (l : list A) :
  skipn m (skipn n l) = skipn (n + m) l.
Proof.
  revert l. induction n as [|n IH]; intros l; [reflexivity|].
  destruct l as [|x l]; simpl; [now destruct m|apply IH].
Qed.

Lemma page_facts {A : Type} (all : list A) :
  (forall skip, (List.length (page skip None all) <= 100)%nat) /\
  (forall skip n,
     0 <= n -> (List.length (page skip (Some n) all) <= Z.to_nat n)%nat) /\
  (forall s n m,
     0 <= s -> 0 <= n -> 0 <= m ->
     page (Some s) (Some n) all ++ page (Some (s + n)) (Some m) all =
     page (Some s) (Some (n + m)) all) /\
  (forall s limit_,
     Z.of_nat (List.length all) <= s -> page (Some s) limit_ all = []) /\
  (forall n, Z.of_nat (List.length all) <= n -> page None (Some n) all = all).
Proof.
  unfold page, apply_limit, apply_offset. cbn [arg].
  split; [|split; [|split; [|split]]].
  - intros skip. cbn. apply firstn_le_length.
  - intros skip n Hn. destruct (n <? 0) eqn:Hlt;
      [apply Z.ltb_lt in Hlt; lia|]. apply firstn_le_length.
  - intros s n m Hs Hn Hm.
    destruct (n <? 0) eqn:H1; [apply Z.ltb_lt in H1; lia|].
    destruct (m <? 0) eqn:H2; [apply Z.ltb_lt in H2; lia|].
    destruct (n + m <? 0) eqn:H3; [apply Z.ltb_lt in H3; lia|].
    rewrite !Z2Nat.inj_add by lia. rewrite <- skipn_skipn_add.
    apply firstn_firstn_skipn.
  - intros s limit_ Hs.
    rewrite skipn_all2 by lia.
    destruct (arg 100 limit_ <? 0); [reflexivity|apply firstn_nil].
  - intros n Hn. simpl skipn.
    destruct (n <? 0) eqn:Hlt; [reflexivity|]. apply firstn_all2. lia.
Qed.

(* ================================================================== *)
(** * Totals add up *)
(* ================================================================== *)

Lemma line_items_after_add db item cart_id :
  CartItem.id item = Some (next_rowid (cartitem db)) ->
  line_items (with_item db item) cart_id =
  line_items db cart_id ++
  (if CartItem.cart_id item =? cart_id then [item] else []).
Proof.
  intros _. unfold line_items, with_item. cbn [set_rows cart_items cartitem].
  rewrite insert_row_next, filter_app. reflexivity.
Qed.

Lemma float_sum_snoc (l : list float) (x : float) :
  float_sum (l ++ [x]) = PrimFloat.add (float_sum l) x.
Proof. unfold float_sum. now rewrite fold_left_app. Qed.

Lemma py_float_total_snoc (l : list float) (x : float) :
  py_float_total (l ++ [x]) = PyFloat (PrimFloat.add (float_sum l) x).
Proof.
  unfold py_float_total. rewrite <- float_sum_snoc.
  now destruct l.
Qed.

(* ================================================================== *)
(** * Searching carts by customer name *)
(* ================================================================== *)

Lemma like_percent (pattern text : string) :
  like (String "%" pattern) text =
  like pattern text ||
  match text with
  | EmptyString => false
  | String _ text' => like (String "%" pattern) text'
  end.
Proof. now destruct text. Qed.

Lemma like_percent_any (text : string) : like "%" text = true.
Proof.
  induction text as [|c text IH]; [reflexivity|].
  rewrite like_percent, IH. apply orb_true_r.
Qed.

Lemma like_percent_skip (before pattern text : string) :
  like pattern text = true ->
  like (String "%" pattern) (before ++ text)%string = true.
Proof.
  intros Hp. induction before as [|c before IH]; simpl String.append.
  - rewrite like_percent, Hp. reflexivity.
  - rewrite like_percent, IH. apply orb_true_r.
Qed.

Lemma like_char_refl (c : ascii) : like_char c c = true.
Proof. unfold like_char. apply Ascii.eqb_refl. Qed.

Lemma like_itself (s after : string) :
  like (s ++ "%")%string (s ++ after)%string = true.
Proof.
  induction s as [|c s IH]; simpl String.append.
  - apply like_percent_any.
  - destruct (Ascii.eqb c "%") eqn:Hc.
    + apply Ascii.eqb_eq in Hc. subst c. rewrite like_percent.
      pose proof (like_percent_skip "" _ _ IH) as Hskip.
      cbn [String.append] in Hskip. rewrite Hskip. apply orb_true_r.
    + cbn [like]. rewrite Hc.
      destruct (Ascii.eqb c "_"); [exact IH|].
      now rewrite like_char_refl, IH.
Qed.

(** A name that has the text in it, as it stands, passes the filter. *)
Lemma contains_substring (before s after : string) :
  contains (before ++ s ++ after)%string s = true.
Proof.
  unfold contains. change ("%" ++ s ++ "%")%string with (String "%" (s ++ "%")).
  apply like_percent_skip, like_itself.
Qed.

Lemma read_carts_spec db skip limit_ customer_name :
  read_carts skip limit_ customer_name db =
  (db,
   Ok (page skip limit_
         (filter
            (fun c =>
               holds (nonempty customer_name)
                 (contains (ShoppingCart.customer_name c)))
            (shoppingcart db)))).
Proof.
  unfold read_carts, nonempty.
  destruct (truthy customer_name) eqn:Hn;
    [destruct customer_name as [n|]; [|discriminate]|];
    unfold exec_all, gets, limit, offset, where_, select;
    cbn [q_where q_offset q_limit app arg rows carts];
    do 2 f_equal; unfold page; apply exec_ext; intros r; simpl;
    rewrite ?andb_true_r; reflexivity.
Qed.

(* ================================================================== *)
(** * The sample cart *)
(* ================================================================== *)

Lemma filter_all_true {A : Type} (t : list A) : filter (fun _ => true) t = t.
Proof. induction t as [|x t IH]; simpl; [reflexivity|now rewrite IH]. Qed.

Lemma exec_limit_select {A : Type} (n : nat) (t : list A) :
  exec (limit (Z.of_nat n) select) t = firstn n t.
Proof.
  unfold exec, limit, select. cbn [q_where q_offset q_limit apply_offset].
  cbn [forallb]. rewrite filter_all_true. unfold apply_limit.
  destruct (Z.of_nat n <? 0) eqn:Hn; [apply Z.ltb_lt in Hn; lia|].
  now rewrite Nat2Z.id.
Qed.

(** A row of a keyed catalog table is the record its tag and id
    designate. *)
Lemma keyed_row_found {A : Type} `{Model A} (t : list A) (r : A) :
  keyed t -> In r t -> exists i, pk r = Some i /\ session_get t i = Some r.
Proof.
  intros Hk Hin. destruct (pk r) as [i|] eqn:Hr.
  - exists i. split; [reflexivity|]. now apply keyed_session_get.
  - exfalso. exact (proj1 (Forall_forall _ _) (proj1 Hk) r Hin Hr).
Qed.

Lemma sample_rows_found db f :
  db_keyed db ->
  In f
    (map Sofa (firstn 2 (ikeasofa db)) ++
     map DiningTable (firstn 1 (ikeadiningtable db)) ++
     map Matress (firstn 3 (ikeamatress db))) ->
  exists ft fid, find_furniture "matress" db ft fid = Some f.
Proof.
  intros (Hs & Ht & Hm & _) Hin.
  apply in_app_or in Hin as [Hin|Hin];
    [|apply in_app_or in Hin as [Hin|Hin]];
    apply in_map_iff in Hin as (r & <- & Hin); apply In_firstn in Hin.
  - destruct (keyed_row_found _ r Hs Hin) as (i & _ & Hget).
    exists "sofa", i. unfold find_furniture. cbn. now rewrite Hget.
  - destruct (keyed_row_found _ r Ht Hin) as (i & _ & Hget).
    exists "dining_table", i. unfold find_furniture. cbn. now rewrite Hget.
  - destruct (keyed_row_found _ r Hm Hin) as (i & _ & Hget).
    exists "matress", i. unfold find_furniture. cbn. now rewrite Hget.
Qed.

(** The loop of [create_sample_cart]: one line item of quantity 1 per
    record, appended in order. *)
Lemma add_sample_items cart cart_id (l : list furniture) (db : DB) :
  ShoppingCart.id cart = Some cart_id ->
  (forall f, In f l ->
             exists ft fid, find_furniture "matress" db ft fid = Some f) ->
  exists new,
    for_each l (fun item => add_item cart item (Some 1) ;;; ret tt) db =
    (set_rows cart_items (cartitem db ++ new) db, Ok tt) /\
    List.length new = List.length l /\
    Forall
      (fun item =>
         CartItem.cart_id item = cart_id /\ CartItem.quantity item = 1 /\
         item_ok item = true)
      new /\
    Forall2 one_of l new.
Proof.
  intros Hcart. revert db. induction l as [|f l IH]; intros db Hl.
  - exists []. rewrite app_nil_r, set_rows_cart_items_same.
    repeat split; constructor.
  - destruct (Hl f (or_introl eq_refl)) as (ft & fid & Hf).
    destruct (find_furniture_loaded _ _ _ _ _ Hf) as [Href Hid].
    pose proof (find_furniture_type _ _ _ _ _ Hf) as Hty.
    set (ft' := if String.eqb ft "sofa" then "sofa"
                else if String.eqb ft "dining_table" then "dining_table"
                else "matress") in Hty.
    pose proof (add_item_run db cart cart_id f ft' fid 1 Hcart Hty Hid Href)
      as Hadd.
    set (item := new_item db cart_id ft' fid f 1) in Hadd.
    destruct (IH (with_item db item)) as (new & Hrun & Hlen & Hnew & Hone).
    { intros g Hg. destruct (Hl g (or_intror Hg)) as (gt & gid & Hgf).
      exists gt, gid. exact Hgf. }
    exists (item :: new). split; [|split; [|split]].
    + cbn [for_each]. unfold bind at 1. unfold bind at 1. rewrite Hadd.
      unfold ret at 1. rewrite Hrun. unfold with_item.
      cbn [set_rows cart_items cartitem]. rewrite insert_row_next.
      now rewrite <- app_assoc.
    + simpl. now rewrite Hlen.
    + constructor; [|exact Hnew].
      split; [reflexivity|]. split; [reflexivity|].
      now apply (item_ok_new_item db cart_id ft' ft' fid f 1).
    + constructor; [|exact Hone].
      split; [exact Hty|]. split; [exact Hid|]. split; reflexivity.
Qed.

Lemma int_sum_ones (l : list CartItem.t) :
  Forall (fun item => CartItem.quantity item = 1) l ->
  int_sum (map CartItem.quantity l) = Z.of_nat (List.length l).
Proof.
  induction 1 as [|x l Hx Hl IH]; [reflexivity|].
  cbn [map int_sum fold_right List.length]. fold (int_sum (map CartItem.quantity l)).
  rewrite Hx, IH. lia.
Qed.

Lemma line_items_fresh_cart db :
  no_orphans db -> line_items db (next_rowid (shoppingcart db)) = [].
Proof.
  intros Hno. unfold line_items. apply filter_none. intros x Hx.
  apply Z.eqb_neq. intros Hc.
  apply (proj1 (Forall_forall _ _) Hno x Hx). rewrite Hc.
  apply next_rowid_free.
Qed.

Lemma filter_all {A : Type} (p : A -> bool) (l : list A) :
  Forall (fun x => p x = true) l -> filter p l = l.
Proof.
  induction 1 as [|x l Hx Hl IH]; simpl; [reflexivity|]. now rewrite Hx, IH.
Qed.

Lemma sample_rows_length db :
  List.length
    (map Sofa (firstn 2 (ikeasofa db)) ++
     map DiningTable (firstn 1 (ikeadiningtable db)) ++
     map Matress (firstn 3 (ikeamatress db))) = sample_size db.
Proof.
  unfold sample_size. rewrite !length_app, !length_map, !length_firstn. lia.
Qed.

(** [create_sample_cart] in a database with keyed tables, well-formed
    line items and no orphans. *)
Lemma create_sample_cart_run today db :
  db_keyed db -> items_ok db ->
  let cart_id := next_rowid (shoppingcart db) in
  let cart :=
    ShoppingCart.Build (Some cart_id) today "John Doe"
      (Some "john@example.com") in
  exists new,
    create_sample_cart today db =
    (Db (ikeasofa db) (ikeadiningtable db) (ikeamatress db)
       (insert_row cart_id cart (shoppingcart db)) (cartitem db ++ new),
     Ok cart) /\
    List.length new = sample_size db /\
    Forall
      (fun item =>
         CartItem.cart_id item = cart_id /\ CartItem.quantity item = 1 /\
         item_ok item = true)
      new /\
    Forall2 one_of (sample_rows db) new.
Proof.
  intros Hk Hok cart_id cart.
  set (db0 := Db (ikeasofa db) (ikeadiningtable db) (ikeamatress db)
                (insert_row cart_id cart (shoppingcart db)) (cartitem db)).
  assert (Hcreate :
    add_commit_refresh carts
      (ShoppingCart.new today "John Doe" (Some "john@example.com")) db =
    (db0, Ok cart)) by reflexivity.
  assert (Hk0 : db_keyed db0).
  { pose proof (maintains_keyed_add carts carts_keyed_table
                  (ShoppingCart.new today "John Doe" (Some "john@example.com"))
                  db Hk) as H0.
    now rewrite Hcreate in H0. }
  set (l := map Sofa (firstn 2 (ikeasofa db0)) ++
            map DiningTable (firstn 1 (ikeadiningtable db0)) ++
            map Matress (firstn 3 (ikeamatress db0))).
  destruct (add_sample_items cart cart_id l db0 eq_refl)
    as (new & Hrun & Hlen & Hnew & Hone).
  { intros f Hf. now apply sample_rows_found. }
  exists new. split; [|split; [|split; [exact Hnew|exact Hone]]].
  - unfold create_sample_cart. unfold bind at 1. rewrite Hcreate.
    unfold bind at 1. unfold exec_all at 1, gets at 1.
    change 2 with (Z.of_nat 2) at 1. rewrite exec_limit_select.
    unfold bind at 1. unfold exec_all at 1, gets at 1.
    change 1 with (Z.of_nat 1) at 1. rewrite exec_limit_select.
    unfold bind at 1. unfold exec_all at 1, gets at 1.
    change 3 with (Z.of_nat 3) at 1. rewrite exec_limit_select.
    cbn [rows sofas dining_tables matresses]. fold l.
    unfold bind at 1. rewrite Hrun.
    unfold bind. rewrite (get_cart_summary_run _ cart cart_id); [reflexivity| |reflexivity].
    unfold items_ok. cbn [set_rows cart_items cartitem db0].
    apply Forall_app. split; [exact Hok|].
    eapply Forall_impl; [|exact Hnew]. now intros item (_ & _ & Hi).
  - rewrite Hlen. apply (sample_rows_length db0).
Qed.

(* ================================================================== *)
(** * Further properties of the handlers *)
(* ================================================================== *)

(** X1: creating a sofa, a dining table, a mattress or a cart from an
    object without an id, whose columns are in the range of the store,
    stores it under an id that was free, returns the object with that id
    and otherwise as given, reads it back as returned, and leaves what
    every other id reads as. *)
Theorem create_assigns_a_free_id_and_reads_back :
  creates sofas create_sofa read_sofa /\
  creates dining_tables create_dining_table read_dining_table /\
  creates matresses create_mattress read_mattress /\
  creates carts create_cart read_cart.
Proof.
  split; [exact create_sofa_creates|].
  split; [exact create_dining_table_creates|].
  split; [exact create_mattress_creates|exact create_cart_creates].
Qed.

Lemma create_assigns_a_free_id_and_reads_back_witness :
  exists db' i,
    session_get (rows sofas shop_db) i = None /\
    create_sofa sofa_500 shop_db = (db', Ok (with_pk i sofa_500)) /\
    read_sofa i db' = (db', Ok (with_pk i sofa_500)) /\
    forall j, j <> i -> snd (read_sofa j db') = snd (read_sofa j shop_db).
Proof.
  apply (proj1 create_assigns_a_free_id_and_reads_back shop_db sofa_500);
    reflexivity.
Defined.

(** X2: for an id in the range of the store, deleting a sofa, a dining
    table or a mattress that exists returns, after which reading that id
    signals Not-Found, every other id reads as before, and the carts and
    their line items are untouched; deleting an id that does not exist
    signals Not-Found and changes nothing. *)
Theorem deleted_record_is_not_found :
  deletes sofas delete_sofa read_sofa "Sofa not found" /\
  deletes dining_tables delete_dining_table read_dining_table
    "Dining table not found" /\
  deletes matresses delete_mattress read_mattress "Mattress not found".
Proof.
  split; [exact delete_sofa_deletes|].
  split; [exact delete_dining_table_deletes|exact delete_mattress_deletes].
Qed.

Lemma deleted_record_is_not_found_witness :
  exists db' msg,
    delete_sofa 1 shop_with_items_db = (db', Ok msg) /\
    read_sofa 1 db' = (db', Raise (HTTPException 404 "Sofa not found")) /\
    (forall j, j <> 1 ->
               snd (read_sofa j db') = snd (read_sofa j shop_with_items_db)) /\
    shoppingcart db' = shoppingcart shop_with_items_db /\
    cartitem db' = cartitem shop_with_items_db.
Proof.
  exact (proj1 deleted_record_is_not_found shop_with_items_db 1 eq_refl).
Defined.

Lemma add_then_remove_restores db cart_id ft fid q db1 resp i :
  add_item_to_cart cart_id ft fid q db = (db1, Ok resp) ->
  dict_lookup resp "id" = Some (PyInt i) ->
  exists msg, remove_cart_item cart_id i db1 = (db, Ok msg).
Proof.
  intros Hrun Hresp.
  destruct (add_item_to_cart_inv _ _ _ _ _ _ _ Hrun) as (cart & _ & Hcart & _).
  destruct (add_item_to_cart_stored _ _ _ _ _ _ _ Hrun)
    as (f & _ & Hdb1 & Hid & Hget).
  rewrite Hid in Hresp. injection Hresp as <-. subst db1.
  set (item := new_item db cart_id ft fid f (arg 1 q)) in *.
  assert (Hcart1 :
    session_get (shoppingcart (with_item db item)) cart_id = Some cart)
    by exact Hcart.
  rewrite remove_cart_item_run. unfold owned_item.
  rewrite Hcart1, Hget. cbn [item new_item CartItem.cart_id].
  rewrite Z.eqb_refl.
  eexists. f_equal. unfold without_item, with_item.
  cbn [set_rows cart_items cartitem].
  rewrite filter_insert_row_fresh;
    [now destruct db|reflexivity|apply next_rowid_fresh].
Qed.

Lemma create_then_delete_cart_restores db cart db1 cart1 i :
  no_orphans db ->
  ShoppingCart.id cart = None ->
  create_cart cart db = (db1, Ok cart1) ->
  ShoppingCart.id cart1 = Some i ->
  exists msg, delete_cart i db1 = (db, Ok msg).
Proof.
  intros Hno Hid Hc Hi. unfold create_cart in Hc.
  rewrite (@add_commit_refresh_new _ ShoppingCart_Model carts cart db Hid)
    in Hc.
  cbn [rows carts] in Hc.
  assert (Hdb1 : db1 = set_rows carts
            (insert_row (next_rowid (shoppingcart db))
               (with_pk (next_rowid (shoppingcart db)) cart)
               (shoppingcart db)) db) by congruence.
  assert (Hc1 : cart1 = with_pk (next_rowid (shoppingcart db)) cart)
    by congruence.
  clear Hc. subst cart1. cbn in Hi. injection Hi as <-.
  assert (Hget : session_get (shoppingcart db1) (next_rowid (shoppingcart db)) =
                 Some (with_pk (next_rowid (shoppingcart db)) cart)).
  { rewrite Hdb1. cbn [set_rows carts shoppingcart].
    apply session_get_insert_row_new; [reflexivity|apply next_rowid_fresh]. }
  unfold delete_cart. run_get Hget.
  unfold until_commit, exec_all, gets, bind. cbn [rows cart_items].
  rewrite exec_where_select.
  fold (line_items db1 (next_rowid (shoppingcart db))).
  assert (Hnone : line_items db1 (next_rowid (shoppingcart db)) = []).
  { rewrite Hdb1. apply (line_items_fresh_cart db Hno). }
  rewrite Hnone. cbn [for_each]. unfold ret.
  rewrite (@session_delete_loaded _ ShoppingCart_Model carts
             (next_rowid (shoppingcart db))) by reflexivity.
  eexists. f_equal. rewrite Hdb1. cbn [set_rows rows carts shoppingcart].
  rewrite filter_insert_row_fresh;
    [now destruct db|reflexivity|apply next_rowid_fresh].
Qed.

(** X3: undoing what was just done gives back the database one started
    from: deleting the sofa, dining table or mattress that a create has
    just stored; removing the line item that [add_item_to_cart] has just
    added; and, in a database the application can reach, deleting the cart
    that [create_cart] has just stored. *)
Theorem create_then_delete_restores_the_database :
  create_then_delete_restores create_sofa delete_sofa /\
  create_then_delete_restores create_dining_table delete_dining_table /\
  create_then_delete_restores create_mattress delete_mattress /\
  (forall db cart_id furniture_type furniture_id quantity db1 resp i,
     add_item_to_cart cart_id furniture_type furniture_id quantity db =
     (db1, Ok resp) ->
     dict_lookup resp "id" = Some (PyInt i) ->
     exists msg, remove_cart_item cart_id i db1 = (db, Ok msg)) /\
  (forall db cart db1 cart1 i,
     reachable db ->
     ShoppingCart.id cart = None ->
     create_cart cart db = (db1, Ok cart1) ->
     ShoppingCart.id cart1 = Some i ->
     exists msg, delete_cart i db1 = (db, Ok msg)).
Proof.
  split; [exact create_delete_sofa_restores|].
  split; [exact create_delete_dining_table_restores|].
  split; [exact create_delete_mattress_restores|].
  split; [exact add_then_remove_restores|].
  intros db cart db1 cart1 i Hreach.
  apply create_then_delete_cart_restores. now apply reachable_no_orphans.
Qed.

Lemma create_then_delete_restores_the_database_witness :
  (exists msg, delete_sofa 2 (fst (create_sofa sofa_500 shop_db)) =
               (shop_db, Ok msg)) /\
  (exists msg,
     remove_cart_item 1 1 (fst (add_item_to_cart 1 "sofa" 1 None shop_db)) =
     (shop_db, Ok msg)) /\
  (exists msg, delete_cart 2 (fst (create_cart john shop_with_items_db)) =
               (shop_with_items_db, Ok msg)).
Proof.
  destruct create_then_delete_restores_the_database
    as (Hsofa & _ & _ & Hitem & Hcart).
  split; [|split].
  - apply (Hsofa shop_db sofa_500 _ (with_pk 2 sofa_500) 2); reflexivity.
  - eapply (Hitem shop_db 1 "sofa" 1 None); reflexivity.
  - apply (Hcart shop_with_items_db john _ (with_pk 2 john) 2);
      try reflexivity.
    unfold shop_with_items_db, shop_db.
    repeat apply reachable_steps. apply reachable_empty.
Defined.

(** X4: in every database the application can reach, every row of the
    five tables has an id and no two rows of a table have the same id. *)
Theorem ids_are_present_and_distinct db : reachable db -> db_keyed db.
Proof. apply reachable_keyed. Qed.

Lemma ids_are_present_and_distinct_witness : db_keyed shop_with_items_db.
Proof.
  apply ids_are_present_and_distinct.
  unfold shop_with_items_db, shop_db.
  repeat apply reachable_steps. apply reachable_empty.
Defined.

Lemma listed_row_reads_back {A : Type} `{Model A} (t : list A)
  (p : A -> bool) skip limit_ (r : A) :
  keyed t -> In r (page skip limit_ (filter p t)) ->
  exists i, pk r = Some i /\ session_get t i = Some r.
Proof.
  intros Hk Hin. apply In_page in Hin. apply filter_In in Hin as [Hin _].
  now apply keyed_row_found.
Qed.

(** X5: in every database the application can reach, every row that a
    listing of sofas, dining tables, mattresses or carts returns has an
    id, and reading that id returns the same row. *)
Theorem listed_rows_read_back_by_id db :
  reachable db ->
  (forall skip limit_ material min_price max_price has_sleeper rows s,
     snd (read_sofas skip limit_ material min_price max_price has_sleeper db) =
     Ok rows ->
     In s rows ->
     exists i, IkeaSofa.id s = Some i /\ read_sofa i db = (db, Ok s)) /\
  (forall skip limit_ material min_price max_price shape extendable rows t,
     snd (read_dining_tables skip limit_ material min_price max_price shape
            extendable db) = Ok rows ->
     In t rows ->
     exists i,
       IkeaDiningTable.id t = Some i /\ read_dining_table i db = (db, Ok t)) /\
  (forall skip limit_ material min_price max_price size firmness rows m,
     snd (read_mattresses skip limit_ material min_price max_price size
            firmness db) = Ok rows ->
     In m rows ->
     exists i, IkeaMatress.id m = Some i /\ read_mattress i db = (db, Ok m)) /\
  (forall skip limit_ customer_name rows c,
     snd (read_carts skip limit_ customer_name db) = Ok rows ->
     In c rows ->
     exists i, ShoppingCart.id c = Some i /\ read_cart i db = (db, Ok c)).
Proof.
  intros Hreach.
  destruct (reachable_keyed db Hreach) as (Hs & Ht & Hm & Hc & _).
  split; [|split; [|split]].
  - intros skip limit_ material min_price max_price hs rows s.
    rewrite read_sofas_spec. cbn [snd]. intros [= <-] Hin.
    destruct (listed_row_reads_back _ _ _ _ s Hs Hin) as (i & Hi & Hget).
    exists i. split; [exact Hi|]. unfold read_sofa. run_get Hget. reflexivity.
  - intros skip limit_ material min_price max_price shape ext rows t.
    rewrite read_dining_tables_spec. cbn [snd]. intros [= <-] Hin.
    destruct (listed_row_reads_back _ _ _ _ t Ht Hin) as (i & Hi & Hget).
    exists i. split; [exact Hi|]. unfold read_dining_table. run_get Hget.
    reflexivity.
  - intros skip limit_ material min_price max_price size firmness rows m.
    rewrite read_mattresses_spec. cbn [snd]. intros [= <-] Hin.
    destruct (listed_row_reads_back _ _ _ _ m Hm Hin) as (i & Hi & Hget).
    exists i. split; [exact Hi|]. unfold read_mattress. run_get Hget.
    reflexivity.
  - intros skip limit_ name rows c.
    rewrite read_carts_spec. cbn [snd]. intros [= <-] Hin.
    destruct (listed_row_reads_back _ _ _ _ c Hc Hin) as (i & Hi & Hget).
    exists i. split; [exact Hi|]. unfold read_cart. run_get Hget. reflexivity.
Qed.

Lemma listed_rows_read_back_by_id_witness :
  exists i,
    ShoppingCart.id john_1 = Some i /\
    read_cart i shop_with_items_db = (shop_with_items_db, Ok john_1).
Proof.
  assert (Hreach : reachable shop_with_items_db).
  { unfold shop_with_items_db, shop_db.
    repeat apply reachable_steps. apply reachable_empty. }
  destruct (listed_rows_read_back_by_id shop_with_items_db Hreach)
    as (_ & _ & _ & Hcarts).
  apply (Hcarts None None (Some "john") [john_1]); [reflexivity|].
  now left.
Defined.

(** X6: in every database the application can reach, every line item
    belongs to a cart that exists: reading the cart of its [cart_id]
    returns it. *)
Theorem every_line_item_has_its_cart db item :
  reachable db ->
  In item (cartitem db) ->
  exists cart,
    read_cart (CartItem.cart_id item) db = (db, Ok cart) /\
    ShoppingCart.id cart = Some (CartItem.cart_id item).
Proof.
  intros Hreach Hin.
  pose proof (proj1 (Forall_forall _ _) (reachable_no_orphans db Hreach)
                item Hin) as Hcart.
  destruct (session_get (shoppingcart db) (CartItem.cart_id item))
    as [cart|] eqn:Hget; [|contradiction].
  exists cart. split; [|exact (session_get_pk _ _ _ Hget)].
  unfold read_cart. run_get Hget. reflexivity.
Qed.

Lemma every_line_item_has_its_cart_witness :
  exists cart,
    read_cart 1 shop_with_items_db = (shop_with_items_db, Ok cart) /\
    ShoppingCart.id cart = Some 1.
Proof.
  apply (every_line_item_has_its_cart shop_with_items_db
           (new_item shop_db 1 "sofa" 1
              (Sofa (IkeaSofa.set (IkeaSofa.a_id (Some 1)) sofa_100)) 1)).
  - unfold shop_with_items_db, shop_db.
    repeat apply reachable_steps. apply reachable_empty.
  - left. reflexivity.
Defined.

(** X7: with both ids in the range of the store, [remove_cart_item] on a
    cart that does not exist, an item that does not exist or an item of
    another cart signals Not-Found and changes nothing.  On an item of the
    cart, in a database the application can reach, it returns; the item is
    then gone, every other line item is where it was, the carts and the
    catalog are untouched, and the total quantity of the cart has gone
    down by the quantity of the item. *)
Theorem remove_cart_item_removes_that_item_only db cart_id item_id :
  reachable db ->
  int64 cart_id = true ->
  int64 item_id = true ->
  match owned_item db cart_id item_id with
  | Ok item =>
      exists db' msg,
        remove_cart_item cart_id item_id db = (db', Ok msg) /\
        session_get (cartitem db') item_id = None /\
        (forall j, j <> item_id ->
                   session_get (cartitem db') j = session_get (cartitem db) j) /\
        shoppingcart db' = shoppingcart db /\
        catalog db' = catalog db /\
        total_quantity_of db' cart_id =
        total_quantity_of db cart_id - CartItem.quantity item
  | Raise e =>
      remove_cart_item cart_id item_id db = (db, Raise e) /\
      status_of e = 404
  end.
Proof.
  intros Hreach _ _. rewrite remove_cart_item_run.
  destruct (owned_item db cart_id item_id) as [item|e] eqn:Hown.
  - eexists _, _. split; [reflexivity|].
    unfold without_item at 1 2 3 4. cbn [set_rows cart_items cartitem shoppingcart].
    split; [apply session_get_deleted|].
    split; [intros j Hj; apply session_get_filter_other; congruence|].
    split; [reflexivity|]. split; [reflexivity|].
    exact (proj2 (total_quantity_replace db cart_id item_id item 0
                    (reachable_keyed db Hreach) Hown)).
  - split; [reflexivity|]. unfold owned_item in Hown.
    destruct (session_get (shoppingcart db) cart_id);
      [|now injection Hown as <-].
    destruct (session_get (cartitem db) item_id) as [x|];
      [|now injection Hown as <-].
    destruct (CartItem.cart_id x =? cart_id); [discriminate|].
    now injection Hown as <-.
Qed.

Lemma remove_cart_item_removes_that_item_only_witness :
  exists db' msg,
    remove_cart_item 1 2 shop_with_items_db = (db', Ok msg) /\
    session_get (cartitem db') 2 = None /\
    (forall j, j <> 2 ->
               session_get (cartitem db') j =
               session_get (cartitem shop_with_items_db) j) /\
    shoppingcart db' = shoppingcart shop_with_items_db /\
    catalog db' = catalog shop_with_items_db /\
    total_quantity_of db' 1 = 3 - 2.
Proof.
  apply (remove_cart_item_removes_that_item_only shop_with_items_db 1 2);
    [|reflexivity|reflexivity].
  unfold shop_with_items_db, shop_db.
  repeat apply reachable_steps. apply reachable_empty.
Defined.

(** X8: with both ids and the quantity in the range of the store,
    [update_cart_item] on a cart that does not exist, an item that
    does not exist or an item of another cart signals Not-Found and
    changes nothing.  On an item of the cart, in a database the
    application can reach, it returns; the stored item is the old one with
    the new quantity and nothing else changed, the answer carries the new
    quantity and a subtotal of the stored snapshot price times the new
    quantity, every other line item is where it was, and the total
    quantity of the cart has moved by the difference of the quantities. *)
Theorem update_cart_item_overwrites_the_quantity_only
  db cart_id item_id quantity :
  reachable db ->
  int64 cart_id = true ->
  int64 item_id = true ->
  int64 quantity = true ->
  match owned_item db cart_id item_id with
  | Ok item =>
      exists db' resp,
        update_cart_item cart_id item_id quantity db = (db', Ok resp) /\
        session_get (cartitem db') item_id =
          Some (CartItem.set_quantity quantity item) /\
        dict_lookup resp "quantity" = Some (PyInt quantity) /\
        dict_lookup resp "subtotal" =
          Some
            (PyFloat
               (PrimFloat.mul (arg 0%float (snapshot_price item))
                  (float_of_int quantity))) /\
        snapshot_price item <> None /\
        (forall j, j <> item_id ->
                   session_get (cartitem db') j = session_get (cartitem db) j) /\
        shoppingcart db' = shoppingcart db /\
        catalog db' = catalog db /\
        total_quantity_of db' cart_id =
        total_quantity_of db cart_id - CartItem.quantity item + quantity
  | Raise e =>
      update_cart_item cart_id item_id quantity db = (db, Raise e) /\
      status_of e = 404
  end.
Proof.
  intros Hreach _ _ _. rewrite update_cart_item_run.
  destruct (owned_item db cart_id item_id) as [item|e] eqn:Hown.
  - destruct (owned_item_stored _ _ _ _ Hown) as (Hget & _ & Hid & _).
    assert (Hok : item_ok item = true).
    { exact (proj1 (Forall_forall _ _) (reachable_items_ok db Hreach) item
               (session_get_In _ _ _ Hget)). }
    rewrite (item_response_ok (CartItem.set_quantity quantity item))
      by now apply item_ok_set_quantity.
    eexists _, _. split; [reflexivity|].
    unfold replace_item at 1 2 3 4.
    cbn [set_rows cart_items cartitem shoppingcart].
    split; [now apply session_get_replaced with (old := item)|].
    split; [reflexivity|]. split; [reflexivity|].
    split; [now apply item_ok_snapshot|].
    split; [intros j Hj; apply session_get_replace_other;
            [exact Hid|congruence]|].
    split; [reflexivity|]. split; [reflexivity|].
    exact (proj1 (total_quantity_replace db cart_id item_id item quantity
                    (reachable_keyed db Hreach) Hown)).
  - split; [reflexivity|]. unfold owned_item in Hown.
    destruct (session_get (shoppingcart db) cart_id);
      [|now injection Hown as <-].
    destruct (session_get (cartitem db) item_id) as [x|];
      [|now injection Hown as <-].
    destruct (CartItem.cart_id x =? cart_id); [discriminate|].
    now injection Hown as <-.
Qed.

Lemma update_cart_item_overwrites_the_quantity_only_witness :
  exists db' resp,
    update_cart_item 1 2 5 shop_with_items_db = (db', Ok resp) /\
    CartItem.quantity
      (arg (CartItem.Build None 0 "" 0 0 (JSON []))
         (session_get (cartitem db') 2)) = 5 /\
    dict_lookup resp "subtotal" = Some (PyFloat 1250) /\
    total_quantity_of db' 1 = 3 - 2 + 5.
Proof.
  destruct (update_cart_item_overwrites_the_quantity_only
              shop_with_items_db 1 2 5)
    as (db' & resp & Hrun & Hget & _ & Hsub & _ & _ & _ & _ & Htotal);
    try reflexivity.
  - unfold shop_with_items_db, shop_db.
    repeat apply reachable_steps. apply reachable_empty.
  - exists db', resp. split; [exact Hrun|]. rewrite Hget.
    split; [reflexivity|]. split; [exact Hsub|exact Htotal].
Defined.

(** X9: in every database the application can reach, a call that raises
    leaves the database exactly as it was. *)
Theorem a_failed_call_changes_nothing db r e :
  reachable db -> snd (handle r db) = Raise e -> step r db = db.
Proof.
  intros Hreach. apply handle_atomic. now apply reachable_items_ok.
Qed.

Lemma a_failed_call_changes_nothing_witness :
  step (Add_item_to_cart 1 "mattress" 1 None) shop_with_items_db =
  shop_with_items_db.
Proof.
  apply (a_failed_call_changes_nothing shop_with_items_db
           (Add_item_to_cart 1 "mattress" 1 None)
           (HTTPException 400 "Invalid furniture type: mattress")).
  - unfold shop_with_items_db, shop_db.
    repeat apply reachable_steps. apply reachable_empty.
  - reflexivity.
Defined.

(** X10: the handlers of the GET routes, and the cart methods they call,
    never change the database, whether they return or raise. *)
Theorem reads_change_nothing :
  (forall skip limit_ material min_price max_price has_sleeper,
     read_only
       (read_sofas skip limit_ material min_price max_price has_sleeper)) /\
  (forall skip limit_ material min_price max_price shape extendable,
     read_only
       (read_dining_tables skip limit_ material min_price max_price shape
          extendable)) /\
  (forall skip limit_ material min_price max_price size firmness,
     read_only
       (read_mattresses skip limit_ material min_price max_price size
          firmness)) /\
  (forall skip limit_ customer_name,
     read_only (read_carts skip limit_ customer_name)) /\
  (forall i, read_only (read_sofa i)) /\
  (forall i, read_only (read_dining_table i)) /\
  (forall i, read_only (read_mattress i)) /\
  (forall i, read_only (read_cart i)) /\
  (forall i, read_only (get_cart_items i)) /\
  (forall i, read_only (get_cart_total i)) /\
  (forall cart, read_only (get_items cart)) /\
  (forall cart, read_only (calculate_total_price cart)) /\
  (forall cart, read_only (calculate_total_quantity cart)) /\
  (forall cart, read_only (get_cart_summary cart)).
Proof.
  unfold read_only.
  repeat split; intros;
    unfold read_sofas, read_dining_tables, read_mattresses, read_carts,
      read_sofa, read_dining_table, read_mattress, read_cart, get_cart_items,
      get_cart_total, get_cart_summary, calculate_total_price,
      calculate_total_quantity, get_items;
    keeps_all.
Qed.

Lemma get_cart_total_run db cart cart_id :
  items_ok db ->
  session_get (shoppingcart db) cart_id = Some cart ->
  get_cart_total cart_id db =
  (db,
   Ok (Total cart_id (ShoppingCart.customer_name cart)
         (py_float_total (map subtotal (line_items db cart_id)))
         (PyInt (total_quantity_of db cart_id)))).
Proof.
  intros Hok Hcart. pose proof (session_get_pk _ _ _ Hcart) as Hid.
  cbn [pk ShoppingCart_Model] in Hid.
  unfold get_cart_total. run_get Hcart.
  rewrite (total_price_run db cart cart_id Hok Hid). cbn beta iota.
  now rewrite (total_quantity_run db cart cart_id Hid).
Qed.

(** X11: in every database the application can reach and for a cart id
    in the range of the store, the summary of a cart that exists lists one
    entry per line item of the cart, in table order, each with the
    snapshot name and price, the quantity and their product as subtotal;
    the subtotals listed sum to the summary's total price and the
    quantities listed to its total of items, and both are the totals
    [get_cart_total] returns.  For a cart that does not exist both
    handlers signal Not-Found. *)
Theorem summary_agrees_with_totals db cart_id :
  reachable db ->
  int64 cart_id = true ->
  match session_get (shoppingcart db) cart_id with
  | Some cart =>
      exists s,
        get_cart_items cart_id db = (db, Ok s) /\
        customer s =
          [("name", PyStr (ShoppingCart.customer_name cart));
           ("email", py_of_option_str (ShoppingCart.customer_email cart))] /\
        items s = map item_detail_of (line_items db cart_id) /\
        column_sum "subtotal" (items s) = Ok (total_price s) /\
        column_sum "quantity" (items s) = Ok (total_items s) /\
        get_cart_total cart_id db =
          (db,
           Ok (Total cart_id (ShoppingCart.customer_name cart)
                 (total_price s) (total_items s)))
  | None =>
      get_cart_items cart_id db =
        (db, Raise (HTTPException 404 "Shopping cart not found")) /\
      get_cart_total cart_id db =
        (db, Raise (HTTPException 404 "Shopping cart not found"))
  end.
Proof.
  intros Hreach _. pose proof (reachable_items_ok db Hreach) as Hok.
  destruct (session_get (shoppingcart db) cart_id) as [cart|] eqn:Hcart.
  - pose proof (session_get_pk _ _ _ Hcart) as Hid.
    cbn [pk ShoppingCart_Model] in Hid.
    eexists. split.
    + unfold get_cart_items. run_get Hcart.
      apply (get_cart_summary_run db cart cart_id Hok Hid).
    + cbn [customer items total_price total_items].
      split; [reflexivity|]. split; [reflexivity|].
      split; [apply column_sum_subtotal|].
      split; [apply column_sum_quantity|].
      now apply get_cart_total_run.
  - unfold get_cart_items, get_cart_total. run_get Hcart. split; reflexivity.
Qed.

Lemma summary_agrees_with_totals_witness :
  exists s,
    get_cart_items 1 shop_with_items_db = (shop_with_items_db, Ok s) /\
    total_price s = PyFloat 600 /\ total_items s = PyInt 3 /\
    List.length (items s) = 2%nat /\
    column_sum "subtotal" (items s) = Ok (PyFloat 600).
Proof.
  destruct (summary_agrees_with_totals shop_with_items_db 1)
    as (s & Hrun & _ & Hitems & Hsub & _ & Htotal); [|reflexivity|].
  - unfold shop_with_items_db, shop_db.
    repeat apply reachable_steps. apply reachable_empty.
  - exists s. split; [exact Hrun|].
    assert (Hs : snd (get_cart_items 1 shop_with_items_db) = Ok s)
      by now rewrite Hrun.
    vm_compute in Hs. injection Hs as <-. repeat split.
Defined.

(** X12: for a cart id in the range of the store, [update_cart] on a
    cart that exists returns and stores the cart with the customer name
    of the payload when it gives one and the old name when it gives none,
    likewise with the email, and with its id and creation date as they
    were; the line items, the catalog and every other cart are untouched.
    On a cart that does not exist it signals Not-Found and changes
    nothing. *)
Theorem update_cart_changes_the_customer_only db cart_id cart_data :
  int64 cart_id = true ->
  match session_get (shoppingcart db) cart_id with
  | Some old =>
      exists db' new,
        update_cart cart_id cart_data db = (db', Ok new) /\
        read_cart cart_id db' = (db', Ok new) /\
        ShoppingCart.id new = Some cart_id /\
        ShoppingCart.created_date new = ShoppingCart.created_date old /\
        ShoppingCart.customer_name new =
          match ShoppingCart.body_customer_name cart_data with
          | Some name => name
          | None => ShoppingCart.customer_name old
          end /\
        ShoppingCart.customer_email new =
          match ShoppingCart.body_customer_email cart_data with
          | Some email => Some email
          | None => ShoppingCart.customer_email old
          end /\
        cartitem db' = cartitem db /\
        catalog db' = catalog db /\
        (forall j, j <> cart_id ->
                   snd (read_cart j db') = snd (read_cart j db))
  | None =>
      update_cart cart_id cart_data db =
      (db, Raise (HTTPException 404 "Shopping cart not found"))
  end.
Proof.
  intros _. rewrite update_cart_run.
  destruct (session_get (shoppingcart db) cart_id) as [old|] eqn:Hold;
    [|reflexivity].
  pose proof (session_get_pk _ _ _ Hold) as Hid.
  cbn [pk ShoppingCart_Model] in Hid.
  eexists _, _. split; [reflexivity|].
  split; [|split; [exact Hid|]].
  - unfold read_cart. run_gets. cbn [set_rows carts shoppingcart].
    rewrite (session_get_replaced _ cart_id old (updated_cart old cart_data)
               Hold Hid).
    reflexivity.
  - repeat (split; [reflexivity|]).
    intros j Hj. unfold read_cart. run_gets. cbn [set_rows carts shoppingcart].
    rewrite (@session_get_replace_other _ ShoppingCart_Model cart_id j
               (updated_cart old cart_data) _ Hid) by congruence.
    now destruct (session_get (shoppingcart db) j).
Qed.

Lemma update_cart_changes_the_customer_only_witness :
  exists db' new,
    update_cart 1 email_only shop_db = (db', Ok new) /\
    ShoppingCart.customer_name new = "John Doe" /\
    ShoppingCart.customer_email new = Some "john@example.com".
Proof.
  destruct (update_cart_changes_the_customer_only shop_db 1 email_only
              eq_refl)
    as (db' & new & Hrun & _ & _ & _ & Hname & Hemail & _).
  exists db', new. split; [exact Hrun|]. split; [exact Hname|exact Hemail].
Defined.

Lemma page_of_listing {A : Type} (list_ : option Z -> option Z -> M DB (list A))
  (all : DB -> list A) :
  (forall db skip limit_,
     list_ skip limit_ db = (db, Ok (page skip limit_ (all db)))) ->
  paged list_.
Proof.
  intros Hlist db. exists (all db).
  split; [intros skip limit_ _; apply Hlist|apply page_facts].
Qed.

(** X13: each of the four listings, for fixed filters and for every
    [skip] and [limit] in the range of the store, cuts its pages out of
    one list of matching rows: a page has at most 100 rows by default
    and at most [limit] rows for a limit that is not negative, two
    consecutive pages make up the page of both, a page that starts past
    the last matching row is empty, and a limit of at least the number of
    matching rows returns them all. *)
Theorem listings_are_paged :
  (forall material min_price max_price has_sleeper,
     paged
       (fun skip limit_ =>
          read_sofas skip limit_ material min_price max_price has_sleeper)) /\
  (forall material min_price max_price shape extendable,
     paged
       (fun skip limit_ =>
          read_dining_tables skip limit_ material min_price max_price shape
            extendable)) /\
  (forall material min_price max_price size firmness,
     paged
       (fun skip limit_ =>
          read_mattresses skip limit_ material min_price max_price size
            firmness)) /\
  (forall customer_name,
     paged (fun skip limit_ => read_carts skip limit_ customer_name)).
Proof.
  split; [|split; [|split]]; intros.
  - eapply page_of_listing. intros. apply read_sofas_spec.
  - eapply page_of_listing. intros. apply read_dining_tables_spec.
  - eapply page_of_listing. intros. apply read_mattresses_spec.
  - eapply page_of_listing. intros. apply read_carts_spec.
Qed.

Lemma subtotal_new_item db cart_id ft fid f q p :
  catalog_price f = Some p ->
  subtotal (new_item db cart_id ft fid f q) =
  PrimFloat.mul p (float_of_int q).
Proof.
  unfold catalog_price.
  destruct f; simpl; try discriminate; intros [= <-]; reflexivity.
Qed.

(** X14: in every database the application can reach, a successful
    [add_item_to_cart] answers with the id of the new line item, the
    quantity given (1 when none is given), the price of the catalog record
    and their product as subtotal; the new line item comes last among the
    line items of the cart and the line items of every other cart are as
    they were; the total quantity of the cart has gone up by the quantity,
    and the total price is the old sum of subtotals plus the new
    subtotal. *)
Theorem add_item_adds_to_the_totals
  db cart_id furniture_type furniture_id quantity db1 resp :
  reachable db ->
  add_item_to_cart cart_id furniture_type furniture_id quantity db =
  (db1, Ok resp) ->
  exists cart f p,
    let item :=
      new_item db cart_id furniture_type furniture_id f (arg 1 quantity) in
    session_get (shoppingcart db) cart_id = Some cart /\
    find_furniture "matress" db furniture_type furniture_id = Some f /\
    catalog_price f = Some p /\
    dict_lookup resp "id" = Some (PyInt (next_rowid (cartitem db))) /\
    dict_lookup resp "quantity" = Some (PyInt (arg 1 quantity)) /\
    dict_lookup resp "price" = Some (PyFloat p) /\
    dict_lookup resp "subtotal" =
      Some (PyFloat (PrimFloat.mul p (float_of_int (arg 1 quantity)))) /\
    line_items db1 cart_id = line_items db cart_id ++ [item] /\
    (forall c, c <> cart_id -> line_items db1 c = line_items db c) /\
    calculate_total_quantity cart db1 =
      (db1, Ok (PyInt (total_quantity_of db cart_id + arg 1 quantity))) /\
    calculate_total_price cart db1 =
      (db1,
       Ok (PyFloat
             (PrimFloat.add (float_sum (map subtotal (line_items db cart_id)))
                (PrimFloat.mul p (float_of_int (arg 1 quantity)))))).
Proof.
  intros Hreach Hrun.
  destruct (add_item_to_cart_inv _ _ _ _ _ _ _ Hrun) as (cart & f & Hcart & Hf).
  destruct (find_furniture_priced _ _ _ _ _ Hf) as [p Hp].
  pose proof Hrun as Hrun'.
  rewrite (add_item_to_cart_ok db cart_id furniture_type furniture_id quantity
             cart f Hcart Hf) in Hrun'.
  destruct (item_response_new_item db cart_id furniture_type furniture_id f
              (arg 1 quantity) p Hp)
    as (resp' & Hresp & Hid & Hq & Hprice & Hsub).
  rewrite Hresp in Hrun'. injection Hrun' as Hdb <-.
  pose proof (session_get_pk _ _ _ Hcart) as Hcid.
  cbn [pk ShoppingCart_Model] in Hcid.
  exists cart, f, p. cbv zeta.
  set (item := new_item db cart_id furniture_type furniture_id f
                 (arg 1 quantity)) in *.
  assert (Hitems : line_items db1 cart_id = line_items db cart_id ++ [item]).
  { rewrite <- Hdb, line_items_after_add by reflexivity.
    cbn [item new_item CartItem.cart_id]. now rewrite Z.eqb_refl. }
  assert (Hok1 : items_ok db1).
  { rewrite <- Hdb. unfold items_ok, with_item.
    cbn [set_rows cart_items cartitem]. rewrite insert_row_next.
    apply Forall_app. split; [now apply reachable_items_ok|].
    constructor; [|constructor].
    exact (item_ok_new_item db cart_id furniture_type _ furniture_id f
             (arg 1 quantity) (find_furniture_type _ _ _ _ _ Hf)). }
  repeat (split; [assumption|]).
  split; [|split].
  - intros c Hc. rewrite <- Hdb, line_items_after_add by reflexivity.
    cbn [item new_item CartItem.cart_id].
    destruct (cart_id =? c) eqn:E; [apply Z.eqb_eq in E; congruence|].
    apply app_nil_r.
  - rewrite (total_quantity_run db1 cart cart_id Hcid), Hitems.
    unfold total_quantity_of. rewrite map_app, int_sum_app.
    cbn [map item new_item CartItem.quantity]. do 3 f_equal.
    unfold int_sum. cbn. lia.
  - rewrite (total_price_run db1 cart cart_id Hok1 Hcid), Hitems.
    rewrite map_app. cbn [map]. rewrite py_float_total_snoc.
    unfold item.
    now rewrite (subtotal_new_item db cart_id furniture_type furniture_id f
                   (arg 1 quantity) p Hp).
Qed.


Lemma add_item_adds_to_the_totals_witness :
  let db1 := steps [Add_item_to_cart 1 "matress" 1 None] shop_with_items_db in
  calculate_total_quantity john_1 db1 = (db1, Ok (PyInt 4)) /\
  calculate_total_price john_1 db1 = (db1, Ok (PyFloat 900)).
Proof.
  cbv zeta.
  pose (r := add_item_to_cart 1 "matress" 1 None shop_with_items_db).
  assert (Hr : exists resp, r = (fst r, Ok resp))
    by (vm_compute; eexists; reflexivity).
  destruct Hr as [resp Hr].
  destruct (add_item_adds_to_the_totals shop_with_items_db 1 "matress" 1 None
              (fst r) resp)
    as (cart & f & p & Hcart & Hf & Hp & _ & _ & _ & _ & _ & _ & Hq & Hprice).
  - unfold shop_with_items_db, shop_db.
    repeat apply reachable_steps. apply reachable_empty.
  - exact Hr.
  - vm_compute in Hcart. injection Hcart as <-.
    vm_compute in Hf. injection Hf as <-.
    vm_compute in Hp. injection Hp as <-.
    split.
    + vm_compute in Hq. vm_compute. exact Hq.
    + vm_compute in Hprice. vm_compute. exact Hprice.
Defined.

(* ================================================================== *)
(** * The sample cart and the search of carts *)
(* ================================================================== *)

(** X15: in every database the application can reach,
    [create_sample_cart] returns a cart of John Doe, dated today, under
    some id that was free, and reads it back; the catalog and the line
    items of every other cart are as they were; the cart has one line item
    of quantity 1 for each of the first two sofas, the first dining table
    and the first three mattresses there are, in that order and with the
    tag, the id and the snapshot of the record, and its total quantity is
    their number. *)
Theorem sample_cart_has_one_of_each_sample_row today db :
  reachable db ->
  exists db1 cart_id,
    let cart :=
      ShoppingCart.Build (Some cart_id) today "John Doe"
        (Some "john@example.com") in
    create_sample_cart today db = (db1, Ok cart) /\
    session_get (shoppingcart db) cart_id = None /\
    read_cart cart_id db1 = (db1, Ok cart) /\
    catalog db1 = catalog db /\
    (forall c, c <> cart_id -> line_items db1 c = line_items db c) /\
    Forall2 one_of (sample_rows db) (line_items db1 cart_id) /\
    List.length (line_items db1 cart_id) = sample_size db /\
    calculate_total_quantity cart db1 =
      (db1, Ok (PyInt (Z.of_nat (sample_size db)))).
Proof.
  intros Hreach.
  set (cart_id := next_rowid (shoppingcart db)).
  set (cart := ShoppingCart.Build (Some cart_id) today "John Doe"
                 (Some "john@example.com")).
  pose proof (reachable_keyed db Hreach) as Hk.
  pose proof (reachable_items_ok db Hreach) as Hok.
  pose proof (reachable_no_orphans db Hreach) as Hno.
  destruct (create_sample_cart_run today db Hk Hok)
    as (new & Hrun & Hlen & Hnew & Hone).
  fold cart_id in Hrun, Hnew. fold cart in Hrun.
  set (db1 := Db (ikeasofa db) (ikeadiningtable db) (ikeamatress db)
                (insert_row cart_id cart (shoppingcart db))
                (cartitem db ++ new)) in Hrun.
  assert (Hfree : session_get (shoppingcart db) cart_id = None)
    by apply next_rowid_free.
  assert (Hmine : filter (fun item => CartItem.cart_id item =? cart_id) new = new).
  { apply filter_all. eapply Forall_impl; [|exact Hnew].
    intros item (Hc & _). now apply Z.eqb_eq. }
  assert (Hitems : line_items db1 cart_id = new).
  { unfold line_items, db1. cbn [cartitem]. rewrite filter_app, Hmine.
    fold (line_items db cart_id). unfold cart_id at 1.
    now rewrite (line_items_fresh_cart db Hno). }
  exists db1, cart_id. cbv zeta. fold cart.
  split; [exact Hrun|]. split; [exact Hfree|].
  split; [|split; [reflexivity|split; [|split; [|split]]]].
  - unfold read_cart. run_gets. unfold db1. cbn [shoppingcart].
    rewrite (@session_get_insert_row_new _ ShoppingCart_Model cart_id cart
               (shoppingcart db) eq_refl (next_rowid_fresh _)).
    reflexivity.
  - intros c Hc. unfold line_items, db1. cbn [cartitem]. rewrite filter_app.
    rewrite (filter_none _ new); [apply app_nil_r|].
    intros item Hitem.
    destruct (proj1 (Forall_forall _ _) Hnew item Hitem) as (Hcid & _).
    rewrite Hcid. apply Z.eqb_neq. congruence.
  - now rewrite Hitems.
  - now rewrite Hitems.
  - rewrite (total_quantity_run db1 cart cart_id eq_refl), Hitems.
    rewrite int_sum_ones, Hlen; [reflexivity|].
    eapply Forall_impl; [|exact Hnew]. now intros item (_ & Hq & _).
Qed.

Lemma sample_cart_has_one_of_each_sample_row_witness :
  exists db1 cart_id,
    create_sample_cart (Date 2026 11 4) shop_db =
    (db1,
     Ok (ShoppingCart.Build (Some cart_id) (Date 2026 11 4) "John Doe"
           (Some "john@example.com"))) /\
    List.length (line_items db1 cart_id) = 3%nat.
Proof.
  destruct (sample_cart_has_one_of_each_sample_row (Date 2026 11 4) shop_db)
    as (db1 & cart_id & Hrun & _ & _ & _ & _ & _ & Hlen & _).
  - unfold shop_db. repeat apply reachable_steps. apply reachable_empty.
  - exists db1, cart_id. split; [exact Hrun|exact Hlen].
Defined.

Lemma same_letters_refl (s : string) : same_letters s s = true.
Proof.
  induction s as [|c s IH]; [reflexivity|].
  cbn [same_letters]. now rewrite like_char_refl, IH.
Qed.

Lemma like_same_letters (s t after : string) :
  same_letters s t = true -> like (s ++ "%")%string (t ++ after)%string = true.
Proof.
  revert t. induction s as [|c s IH]; intros [|d t]; try discriminate.
  - intros _. apply like_percent_any.
  - cbn [same_letters]. intros Hst. apply andb_true_iff in Hst as [Hc Hst].
    specialize (IH t Hst). simpl String.append.
    destruct (Ascii.eqb c "%") eqn:Hpc.
    + apply Ascii.eqb_eq in Hpc. subst c. rewrite like_percent.
      pose proof (like_percent_skip "" _ _ IH) as Hskip.
      cbn [String.append] in Hskip. rewrite Hskip. apply orb_true_r.
    + cbn [like]. rewrite Hpc.
      destruct (Ascii.eqb c "_"); [exact IH|].
      now rewrite Hc, IH.
Qed.

Lemma contains_same_letters (before s after text : string) :
  same_letters text s = true ->
  contains (before ++ s ++ after)%string text = true.
Proof.
  intros Hs. unfold contains.
  change ("%" ++ text ++ "%")%string with (String "%" (text ++ "%")).
  now apply like_percent_skip, like_same_letters.
Qed.

(** X16: [read_carts], for every [skip] and [limit] in the range of the
    store, cuts its pages out of one list of carts of the table; without
    a customer name, or with the empty one, that list is the whole table;
    with a text it has every cart whose customer name has in it the text,
    as it stands or in another case of its ASCII letters. *)
Theorem read_carts_searches_the_customer_names db customer_name :
  exists matches,
    (forall skip limit_,
       page_in_range skip limit_ = true ->
       read_carts skip limit_ customer_name db =
       (db, Ok (page skip limit_ matches))) /\
    (nonempty customer_name = None -> matches = shoppingcart db) /\
    (forall cart, In cart matches -> In cart (shoppingcart db)) /\
    (forall text cart before s after,
       customer_name = Some text ->
       In cart (shoppingcart db) ->
       ShoppingCart.customer_name cart = (before ++ s ++ after)%string ->
       same_letters text s = true ->
       In cart matches).
Proof.
  exists (filter
            (fun c =>
               holds (nonempty customer_name)
                 (contains (ShoppingCart.customer_name c)))
            (shoppingcart db)).
  split; [intros; apply read_carts_spec|]. split; [|split].
  - intros ->. cbn [holds]. apply filter_all_true.
  - intros cart Hin. now apply filter_In in Hin.
  - intros text cart before s after -> Hin Hname Hs.
    apply filter_In. split; [exact Hin|].
    unfold nonempty, truthy.
    destruct (String.eqb text "") eqn:Ht; cbn [negb holds]; [reflexivity|].
    rewrite Hname. now apply contains_same_letters.
Qed.

(* ================================================================== *)
(** * What a call on one cart leaves of the others *)
(* ================================================================== *)

Lemma filter_twice {A : Type} (p q : A -> bool) (t : list A) :
  filter p (filter q t) = filter (fun x => q x && p x) t.
Proof.
  induction t as [|x t IH]; simpl; [reflexivity|].
  destruct (q x); simpl; [destruct (p x)|]; now rewrite IH.
Qed.

(** The loop of [delete_cart], row by row: what is left are the rows that
    share their key with no item of [l]. *)
Lemma for_each_delete_items_left (l : list CartItem.t) (db : DB) :
  Forall (fun item => item_ok item = true) l ->
  for_each l (fun item => session_delete cart_items item) db =
  (set_rows cart_items
     (filter (fun x => forallb (fun y => negb (same_key y x)) l) (cartitem db))
     db,
   Ok tt).
Proof.
  revert db. induction l as [|y l IH]; intros db Hl.
  - cbn [for_each forallb]. rewrite filter_all_true, set_rows_cart_items_same.
    reflexivity.
  - inversion Hl as [|? ? Hy Hl']; subst.
    unfold item_ok in Hy. destruct (CartItem.id y) as [i|] eqn:Hi;
      [|discriminate].
    cbn [for_each]. unfold bind at 1, session_delete at 1, on_table, delete.
    cbn [rows cart_items pk CartItem_Model]. rewrite Hi.
    rewrite (IH _ Hl'). cbn [set_rows cart_items cartitem].
    rewrite filter_twice. do 2 f_equal.
    apply filter_ext. intros x. cbn [forallb]. unfold same_key at 2.
    now rewrite Hi.
Qed.

Lemma keyed_same_key (t : list CartItem.t) (x y : CartItem.t) :
  keyed t -> In x t -> In y t -> same_key y x = true -> y = x.
Proof.
  intros Hk Hx Hy. unfold same_key.
  destruct (CartItem.id y) as [i|] eqn:Hi; [|discriminate].
  intros Hpk. apply has_pk_true in Hpk.
  pose proof (keyed_session_get t x i Hk Hx Hpk) as Hgx.
  pose proof (keyed_session_get t y i Hk Hy Hi) as Hgy.
  congruence.
Qed.

Lemma same_key_refl (t : list CartItem.t) (x : CartItem.t) :
  keyed t -> In x t -> same_key x x = true.
Proof.
  intros [Hpk _] Hx. unfold same_key.
  pose proof (proj1 (Forall_forall _ _) Hpk x Hx) as Hsome.
  cbn [pk CartItem_Model] in Hsome.
  destruct (CartItem.id x) as [i|] eqn:Hi; [|contradiction].
  unfold has_pk. cbn [pk CartItem_Model]. rewrite Hi. apply Z.eqb_refl.
Qed.

(** In a keyed table, the rows that share their key with no line item of
    a cart are the line items of the other carts. *)
Lemma rows_left_of_cart (db : DB) (cart_id : Z) :
  keyed (cartitem db) ->
  filter
    (fun x => forallb (fun y => negb (same_key y x)) (line_items db cart_id))
    (cartitem db) =
  filter (fun x => negb (CartItem.cart_id x =? cart_id)) (cartitem db).
Proof.
  intros Hk. apply filter_ext_in. intros x Hx.
  destruct (CartItem.cart_id x =? cart_id) eqn:Hc; cbn [negb].
  - destruct (forallb _ (line_items db cart_id)) eqn:Hall; [|reflexivity].
    assert (Hin : In x (line_items db cart_id))
      by (apply filter_In; split; assumption).
    pose proof (proj1 (forallb_forall _ _) Hall x Hin) as Hxx.
    cbv beta in Hxx. now rewrite (same_key_refl _ x Hk Hx) in Hxx.
  - apply forallb_forall. intros y Hy. apply filter_In in Hy as [Hy Hyc].
    destruct (same_key y x) eqn:Hs; [|reflexivity].
    rewrite (keyed_same_key _ x y Hk Hx Hy Hs) in Hyc. congruence.
Qed.

(** [delete_cart] on a cart that is there, in a database with keyed
    tables. *)
Lemma delete_cart_exact db cart_id cart :
  db_keyed db -> items_ok db ->
  session_get (shoppingcart db) cart_id = Some cart ->
  delete_cart cart_id db =
  (Db (ikeasofa db) (ikeadiningtable db) (ikeamatress db)
     (filter (fun c => negb (has_pk cart_id c)) (shoppingcart db))
     (filter (fun x => negb (CartItem.cart_id x =? cart_id)) (cartitem db)),
   Ok (message
         ("Shopping cart with ID " ++ str_of_int cart_id ++
          " deleted successfully")%string)).
Proof.
  intros (_ & _ & _ & _ & Hk) Hok Hcart. unfold delete_cart. run_get Hcart.
  unfold until_commit, exec_all, gets, bind.
  cbn [rows cart_items]. rewrite exec_where_select.
  fold (line_items db cart_id).
  rewrite for_each_delete_items_left by now apply Forall_filter.
  unfold session_delete, on_table, delete.
  rewrite (session_get_pk _ _ _ Hcart).
  now rewrite (rows_left_of_cart db cart_id Hk).
Qed.

(** What the three reads of a cart return depends on the row of the cart
    and on its line items only. *)
Lemma cart_reads_agree db db' c :
  items_ok db -> items_ok db' ->
  session_get (shoppingcart db') c = session_get (shoppingcart db) c ->
  line_items db' c = line_items db c ->
  read_cart c db' = (db', snd (read_cart c db)) /\
  get_cart_items c db' = (db', snd (get_cart_items c db)) /\
  get_cart_total c db' = (db', snd (get_cart_total c db)).
Proof.
  intros Hok Hok' Hget Hitems.
  destruct (session_get (shoppingcart db) c) as [cart|] eqn:Hcart.
  - pose proof (session_get_pk _ _ _ Hcart) as Hid.
    cbn [pk ShoppingCart_Model] in Hid.
    rewrite (get_cart_total_run db cart c Hok Hcart),
      (get_cart_total_run db' cart c Hok' Hget).
    unfold get_cart_items, read_cart. run_gets. rewrite Hget, Hcart.
    rewrite (get_cart_summary_run db cart c Hok Hid),
      (get_cart_summary_run db' cart c Hok' Hid).
    unfold total_quantity_of. rewrite Hitems. repeat split.
  - unfold get_cart_total, get_cart_items, read_cart. run_gets.
    rewrite Hget, Hcart. repeat split.
Qed.

(** X17: in every database the application can reach, [delete_cart] on a
    cart that exists leaves in the line item table exactly the line items
    of the other carts, in their order; every other cart keeps its line
    items, and reading it, listing its items and computing its totals
    return or signal what they did before. *)
Theorem delete_cart_leaves_the_other_carts db cart_id cart :
  reachable db ->
  session_get (shoppingcart db) cart_id = Some cart ->
  exists db' msg,
    delete_cart cart_id db = (db', Ok msg) /\
    cartitem db' =
      filter (fun item => negb (CartItem.cart_id item =? cart_id))
        (cartitem db) /\
    forall c,
      c <> cart_id ->
      line_items db' c = line_items db c /\
      read_cart c db' = (db', snd (read_cart c db)) /\
      get_cart_items c db' = (db', snd (get_cart_items c db)) /\
      get_cart_total c db' = (db', snd (get_cart_total c db)).
Proof.
  intros Hreach Hcart.
  pose proof (reachable_keyed db Hreach) as Hk.
  pose proof (reachable_items_ok db Hreach) as Hok.
  pose proof (delete_cart_exact db cart_id cart Hk Hok Hcart) as Hrun.
  eexists _, _. split; [exact Hrun|]. split; [reflexivity|].
  intros c Hc.
  assert (Hitems :
    filter (fun item => CartItem.cart_id item =? c)
      (filter (fun item => negb (CartItem.cart_id item =? cart_id))
         (cartitem db)) =
    line_items db c).
  { rewrite filter_twice. apply filter_ext. intros x.
    destruct (CartItem.cart_id x =? c) eqn:E; [|apply andb_false_r].
    apply Z.eqb_eq in E. rewrite andb_true_r.
    destruct (CartItem.cart_id x =? cart_id) eqn:E'; [|reflexivity].
    apply Z.eqb_eq in E'. congruence. }
  split; [exact Hitems|].
  apply cart_reads_agree; [exact Hok| | |exact Hitems].
  - unfold items_ok. cbn [cartitem]. now apply Forall_filter.
  - cbn [shoppingcart].
    apply (@session_get_filter_other _ ShoppingCart_Model cart_id c).
    congruence.
Qed.


Lemma delete_cart_leaves_the_other_carts_witness :
  exists db' msg,
    delete_cart 1 two_carts_db = (db', Ok msg) /\
    line_items db' 2 = line_items two_carts_db 2 /\
    get_cart_total 2 db' = (db', snd (get_cart_total 2 two_carts_db)).
Proof.
  destruct (delete_cart_leaves_the_other_carts two_carts_db 1 john_1)
    as (db' & msg & Hrun & _ & Hother).
  - unfold two_carts_db, shop_with_items_db, shop_db.
    repeat apply reachable_steps. apply reachable_empty.
  - reflexivity.
  - exists db', msg. split; [exact Hrun|].
    destruct (Hother 2) as (Hitems & _ & _ & Htotal); [discriminate|].
    split; [exact Hitems|exact Htotal].
Defined.

(* ================================================================== *)
(** * The kinds of failure *)
(* ================================================================== *)






(** X19: the catalog and the carts do not touch each other: a call on
    sofas, dining tables or mattresses leaves every cart and every line
    item as it is, whether it returns or raises, and a call on carts or
    their items leaves the three catalog tables as they are. *)
Theorem catalog_and_carts_do_not_touch_each_other db r :
  if catalog_call r then
    shoppingcart (step r db) = shoppingcart db /\
    cartitem (step r db) = cartitem db
  else catalog (step r db) = catalog db.
Proof.
  destruct (catalog_call r) eqn:Hr.
  - pose proof (catalog_call_keeps r Hr db) as Hk. cbv beta in Hk.
    unfold step. split; congruence.
  - exact (cart_call_keeps r Hr db).
Qed.


(* ================================================================== *)
(** * Creation under a given id *)
(* ================================================================== *)

Lemma existsb_has_pk {A : Type} `{Model A} (t : list A) (i : Z) :
  existsb (has_pk i) t =
  match session_get t i with Some _ => true | None => false end.
Proof.
  unfold session_get. induction t as [|x t IH]; simpl; [reflexivity|].
  now destruct (has_pk i x).
Qed.

Lemma insert_given_id {A : Type} `{Model A} (r : A) (i : Z) (t : list A) :
  pk r = Some i ->
  insert r t =
  match session_get t i with
  | Some _ => Raise IntegrityError
  | None => Ok (insert_row i r t, r)
  end.
Proof.
  intros Hr. unfold insert. rewrite Hr, existsb_has_pk.
  now destruct (session_get t i).
Qed.

Ltac creates_at_proof create_def read_def :=
  let db := fresh "db" in
  let r := fresh "r" in
  let i := fresh "i" in
  let Hr := fresh "Hr" in
  let Hget := fresh "Hget" in
  let Hfree := fresh "Hfree" in
  intros db r i Hr _; table_fields;
  unfold create_def, add_commit_refresh, on_table;
  rewrite (insert_given_id r i _ Hr); table_fields;
  match goal with
  | |- match session_get ?t i with _ => _ end =>
      pose proof (existsb_has_pk t i) as Hfree;
      destruct (session_get t i) eqn:Hget
  end;
  [ reflexivity
  | eexists; split; [reflexivity|];
    unfold read_def; run_gets; table_fields;
    split;
    [ rewrite (session_get_insert_row_new i r _ Hr Hfree); reflexivity
    | let j := fresh "j" in
      let Hj := fresh "Hj" in
      intros j Hj;
      rewrite (session_get_insert_row_other i j r _ Hr) by congruence;
      match goal with
      | |- context [session_get ?t j] => destruct (session_get t j)
      end; reflexivity ] ].

Lemma create_sofa_creates_at : creates_at sofas create_sofa read_sofa.
Proof. creates_at_proof create_sofa read_sofa. Qed.

Lemma create_dining_table_creates_at :
  creates_at dining_tables create_dining_table read_dining_table.
Proof. creates_at_proof create_dining_table read_dining_table. Qed.

Lemma create_mattress_creates_at :
  creates_at matresses create_mattress read_mattress.
Proof. creates_at_proof create_mattress read_mattress. Qed.

Lemma create_cart_creates_at : creates_at carts create_cart read_cart.
Proof. creates_at_proof create_cart read_cart. Qed.

(** X20: creating a sofa, a dining table, a mattress or a cart from an
    object that comes with an id, the id and the other columns in the
    range of the store, fails inside the store when a row of that id
    exists, and then nothing is written; when the id is free the object is
    stored under that id as it is, returned and read back, and every other
    id reads as before. *)
Theorem create_under_a_given_id :
  creates_at sofas create_sofa read_sofa /\
  creates_at dining_tables create_dining_table read_dining_table /\
  creates_at matresses create_mattress read_mattress /\
  creates_at carts create_cart read_cart.
Proof.
  split; [exact create_sofa_creates_at|].
  split; [exact create_dining_table_creates_at|].
  split; [exact create_mattress_creates_at|exact create_cart_creates_at].
Qed.

Lemma create_under_a_given_id_witness :
  create_sofa leather_sofa one_sofa_db = (one_sofa_db, Raise IntegrityError) /\
  status_of IntegrityError = 500.
Proof.
  split; [|reflexivity].
  exact (proj1 create_under_a_given_id one_sofa_db leather_sofa 1 eq_refl
           eq_refl).
Defined.
